(** * OMR pipeline: artifact lookup, process invocation and configuration

    A shallow embedding of [backend/main.py] and [backend/run.py].

    Conventions of the model.
    - Python [str] values are Rocq strings; a character is a code point
      below 256.  The three characters before [Done] in the last message
      of [main.py] (U+00E2, U+0153 and U+2026 in the source file) are
      written as their UTF-8 bytes.
    - A resolved [pathlib.Path] is the list of its components below the
      root; [str_of_path] renders it the POSIX way, and names are
      matched with case, as on POSIX.
    - The file system is the list of its entries (regular files and
      directories) in the order in which a recursive traversal meets
      them, the same for every traversal of an unchanged tree.  Symbolic
      links and permissions are outside the model.  Creating or removing
      an entry gives the directory that holds it a new modification
      time; a system call that has to pass through a missing directory
      fails with [FileNotFoundError], one that has to pass through a
      regular file with [NotADirectoryError], and the error names the
      path the call was given.
    - [st_mtime] is the value [p.stat().st_mtime] the code compares; it is
      kept as an integer, which carries the same total order.
    - Code that touches the outside world runs in the monad [M]: it reads
      and updates the file system, emits a trace of events and either
      returns a value or raises a Python exception.
    - What the scripts obtain from the operating system (child
      processes, the name of the temporary directory, the clock,
      [resolve()]) is a parameter, the record [host].  [resolve()] does
      not depend on the file system here, so [main] resolves its six
      paths up front.  [tempfile] finds a usable directory and an unused
      name, so creating the workspace does not fail, and the workspace
      is still a directory, or gone, when it is cleaned up. *)

From Stdlib Require Import ZArith Ascii String List Permutation Lia.
From Stdlib Require Import DecimalString DecimalZ.
From stdpp Require Import base option list strings gmap.

Import ListNotations.
Local Open Scope string_scope.
Local Open Scope list_scope.
Local Open Scope Z_scope.

(** ** Python built-ins on strings *)

Module Py.

(** [str.isspace] on code points below 256. *)
Definition isspace (c : ascii) : bool :=
  let n := nat_of_ascii c in
  ((9 <=? n) && (n <=? 13) || (28 <=? n) && (n <=? 32)
   || (n =? 133) || (n =? 160))%nat.

Fixpoint lstrip_by (drop : ascii -> bool) (s : string) : string :=
  match s with
  | String c s' => if drop c then lstrip_by drop s' else s
  | EmptyString => EmptyString
  end.

Fixpoint rstrip_by (drop : ascii -> bool) (s : string) : string :=
  match s with
  | String c s' =>
      match rstrip_by drop s' with
      | EmptyString => if drop c then EmptyString else String c EmptyString
      | r => String c r
      end
  | EmptyString => EmptyString
  end.

(** [s.strip()] *)
Definition strip (s : string) : string :=
  rstrip_by isspace (lstrip_by isspace s).

(** [s.strip(ch)] for a one-character argument *)
Definition strip_char (ch : ascii) (s : string) : string :=
  rstrip_by (Ascii.eqb ch) (lstrip_by (Ascii.eqb ch) s).

(** Truth value of a string: non-empty. *)
Definition truthy (s : string) : bool :=
  match s with EmptyString => false | String _ _ => true end.

(** [s.startswith(p)] *)
Fixpoint startswith (p s : string) : bool :=
  match p, s with
  | EmptyString, _ => true
  | String a p', String b s' => Ascii.eqb a b && startswith p' s'
  | String _ _, EmptyString => false
  end.

(** [needle in s] *)
Fixpoint contains (needle s : string) : bool :=
  startswith needle s
  || match s with
     | String _ s' => contains needle s'
     | EmptyString => false
     end.

(** [s.split(sep, 1)] for a one-character separator that occurs in [s]:
    the text before the first separator and the text after it.  [None]
    when the separator does not occur (Python then returns a one-element
    list). *)
Fixpoint split_once (sep : ascii) (s : string) : option (string * string) :=
  match s with
  | EmptyString => None
  | String c s' =>
      if Ascii.eqb c sep then Some (EmptyString, s')
      else match split_once sep s' with
           | Some (k, v) => Some (String c k, v)
           | None => None
           end
  end.

(** Line boundaries of [str.splitlines] among code points below 256. *)
Definition is_linebreak (c : ascii) : bool :=
  let n := nat_of_ascii c in
  ((10 <=? n) && (n <=? 13) || (28 <=? n) && (n <=? 30) || (n =? 133))%nat.

(** [splitlines_from cur s]: [cur] is the current line, reversed. *)
Fixpoint splitlines_from (cur : list ascii) (started : bool) (s : string)
  : list string :=
  match s with
  | EmptyString =>
      if started then [string_of_list_ascii (rev cur)] else []
  | String c s' =>
      if is_linebreak c then
        string_of_list_ascii (rev cur) ::
        match c, s' with
        | "013"%char, String "010"%char s'' => splitlines_from [] false s''
        | _, _ => splitlines_from [] false s'
        end
      else splitlines_from (c :: cur) true s'
  end.

(** [s.splitlines()] *)
Definition splitlines (s : string) : list string :=
  splitlines_from [] false s.

(** [sep.join(parts)] *)
Definition join (sep : string) (parts : list string) : string :=
  String.concat sep parts.

(** [str(n)] and [f"{n}"] for an [int]. *)
Definition str_of_int (n : Z) : string :=
  NilEmpty.string_of_int (Z.to_int n).

End Py.

(** ** Paths and the file system *)

(** A resolved absolute path: its components below the root. *)
Definition path := list string.

(** [str(p)] *)
Definition str_of_path (p : path) : string :=
  "/" +:+ Py.join "/" p.

(** [p.name] *)
Definition name (p : path) : string := List.last p "".

(** [p.parent] *)
Definition parent (p : path) : path := removelast p.

(** [q] lies strictly below the directory [root]. *)
Fixpoint below (root q : path) : bool :=
  match root, q with
  | [], [] => false
  | [], _ :: _ => true
  | _ :: _, [] => false
  | r :: root', c :: q' => String.eqb r c && below root' q'
  end.

Definition path_eqb (p q : path) : bool :=
  bool_decide (p = q).

Inductive kind :=
| RegularFile (content : string)
| Directory.

Record entry := {
  e_path : path;
  e_kind : kind;
  st_mtime : Z
}.

Definition filesystem := list entry.

(** ** Exceptions and the monad of the scripts *)

Inductive exn :=
| RuntimeError (msg : string)
| SystemExit (msg : string)
| ValueError (msg : string)
| OSError (what : string) (p : path)
| CalledProcessError (returncode : Z) (cmd : list string).

Inductive outcome (A : Type) :=
| Ok (a : A)
| Raise (e : exn).
Arguments Ok {A} a.
Arguments Raise {A} e.

Inductive event :=
| EvPrint (text : string)
| EvSpawn (cmd : list string) (cwd : option path) (returncode : Z)
| EvMkdir (p : path)
| EvWriteText (p : path) (text : string)
| EvMkdtemp (p : path)
| EvRmtree (p : path).

(** A computation reads and updates the file system, emits events in
    order and returns or raises. *)
Definition M (A : Type) : Type :=
  filesystem -> outcome A * filesystem * list event.

Definition ret {A} (a : A) : M A := fun fs => (Ok a, fs, []).

Definition raise {A} (e : exn) : M A := fun fs => (Raise e, fs, []).

Definition bind {A B} (m : M A) (k : A -> M B) : M B :=
  fun fs =>
    match m fs with
    | (Ok a, fs1, ev1) =>
        match k a fs1 with
        | (r, fs2, ev2) => (r, fs2, ev1 ++ ev2)
        end
    | (Raise e, fs1, ev1) => (Raise e, fs1, ev1)
    end.

Notation "x <- m ;; k" := (bind m (fun x => k))
  (at level 100, m at next level, right associativity).
Notation "m ;;; k" := (bind m (fun _ => k))
  (at level 100, right associativity).

(** A computation that only inspects the file system. *)
Definition reading {A} (f : filesystem -> outcome A) : M A :=
  fun fs => (f fs, fs, []).

Definition emit (e : event) : M unit := fun fs => (Ok tt, fs, [e]).

(** [print(a, b, ...)]: the arguments separated by one space. *)
Definition print (args : list string) : M unit :=
  emit (EvPrint (Py.join " " args)).

(** [try: body  except ...: handler]: the handler receives the exception
    and raises it again when no clause matches.  What the body did
    before raising stays done. *)
Definition try_except {A} (body : M A) (handler : exn -> M A) : M A :=
  fun fs =>
    match body fs with
    | (Raise e, fs1, ev1) =>
        match handler e fs1 with
        | (r, fs2, ev2) => (r, fs2, ev1 ++ ev2)
        end
    | res => res
    end.

(** [try: body  except RuntimeError: handler].  Any other exception of
    the body propagates; what the body did before raising stays done. *)
Definition try_except_RuntimeError {A} (body handler : M A) : M A :=
  fun fs =>
    match body fs with
    | (Raise (RuntimeError _), fs1, ev1) =>
        match handler fs1 with
        | (r, fs2, ev2) => (r, fs2, ev1 ++ ev2)
        end
    | res => res
    end.

(** The built-in [max(items, key=...)].  The current best item is
    replaced only by an item whose key is strictly greater, so the first
    of several maximal items is kept; an exception of [key] propagates. *)
Fixpoint max_scan {A} (key : A -> outcome Z) (best : A) (bestv : Z)
    (l : list A) : outcome A :=
  match l with
  | [] => Ok best
  | x :: l' =>
      match key x with
      | Raise e => Raise e
      | Ok v =>
          if bestv <? v then max_scan key x v l'
          else max_scan key best bestv l'
      end
  end.

Definition py_max {A} (key : A -> outcome Z) (l : list A) : outcome A :=
  match l with
  | [] => Raise (ValueError "max() arg is an empty sequence")
  | x :: l' =>
      match key x with
      | Raise e => Raise e
      | Ok v => max_scan key x v l'
      end
  end.

(** ** pathlib *)

(** [fnmatch] for patterns made of literal characters, [*] and [?]. *)
Fixpoint fnmatch (pat : string) (s : string) {struct pat} : bool :=
  match pat with
  | EmptyString =>
      match s with EmptyString => true | String _ _ => false end
  | String "*" pat' =>
      (fix star (t : string) : bool :=
         fnmatch pat' t
         || match t with
            | String _ t' => star t'
            | EmptyString => false
            end) s
  | String "?" pat' =>
      match s with
      | String _ s' => fnmatch pat' s'
      | EmptyString => false
      end
  | String c pat' =>
      match s with
      | String d s' => Ascii.eqb c d && fnmatch pat' s'
      | EmptyString => false
      end
  end.

(** The entries below [root] whose name matches [pat], in the order of
    enumeration.  Regular files and directories both match. *)
Definition rglob_entries (fs : filesystem) (root : path) (pat : string)
  : list entry :=
  List.filter
    (fun e => below root (e_path e) && fnmatch pat (name (e_path e))) fs.

(** [list(root.rglob(pat))] *)
Definition rglob (fs : filesystem) (root : path) (pat : string) : list path :=
  map e_path (rglob_entries fs root pat).

(** [p.stat()]: the first entry at that path. *)
Definition stat (fs : filesystem) (p : path) : outcome entry :=
  match List.find (fun e => path_eqb (e_path e) p) fs with
  | Some e => Ok e
  | None => Raise (OSError "FileNotFoundError" p)
  end.

(** [p.exists()] *)
Definition exists_ (fs : filesystem) (p : path) : bool :=
  match stat fs p with Ok _ => true | Raise _ => false end.

(** The key of both lookups: [lambda p: p.stat().st_mtime]. *)
Definition mtime_key (fs : filesystem) (p : path) : outcome Z :=
  match stat fs p with
  | Ok e => Ok (st_mtime e)
  | Raise x => Raise x
  end.

(** ** main.py: the artifact lookups *)

Definition export_candidates (fs : filesystem) (out_dir : path) : list path :=
  rglob fs out_dir "*.mxl" ++
  rglob fs out_dir "*.musicxml" ++
  rglob fs out_dir "*.xml".

Definition no_export_msg (out_dir : path) : string :=
  "No MusicXML export found under: " +:+ str_of_path out_dir.

Definition newest_export (fs : filesystem) (out_dir : path) : outcome path :=
  let candidates := export_candidates fs out_dir in
  match candidates with
  | [] => Raise (RuntimeError (no_export_msg out_dir))
  | _ :: _ => py_max (mtime_key fs) candidates
  end.

Definition newline : string := String "010"%char EmptyString.

Definition book_sample (fs : filesystem) (out_dir : path) : list string :=
  firstn 120 (map str_of_path (rglob fs out_dir "*")).

Definition no_book_msg (fs : filesystem) (out_dir : path) : string :=
  "No .omr book found under: " +:+ str_of_path out_dir +:+ newline +:+
  "Created files:" +:+ newline +:+ Py.join newline (book_sample fs out_dir).

Definition newest_omr_book (fs : filesystem) (out_dir : path) : outcome path :=
  let books := rglob fs out_dir "*.omr" in
  match books with
  | [] => Raise (RuntimeError (no_book_msg fs out_dir))
  | _ :: _ => py_max (mtime_key fs) books
  end.

(** ** The host: what the scripts obtain from the operating system *)

(** [subprocess.CompletedProcess]; the two streams are the raw bytes. *)
Record completed_process := {
  returncode : Z;
  stdout : string;
  stderr : string
}.

(** A path as given on the command line, before [resolve()]. *)
Record rawpath := {
  is_absolute : bool;
  parts : list string
}.

(** [base / p] *)
Definition joinpath (base : path) (p : rawpath) : rawpath :=
  if is_absolute p then p
  else {| is_absolute := true; parts := base ++ parts p |}.

Record host := {
  (** running a child process to completion: what it does to the file
      system and what it returns *)
  spawn : list string -> option path -> filesystem ->
          filesystem * completed_process;
  (** [bytes.decode("utf-8", errors="replace")] *)
  decode_replace : string -> string;
  (** the directory name chosen by [tempfile] for a given prefix *)
  mkdtemp : string -> filesystem -> path;
  (** the timestamp given to an entry created now *)
  clock : filesystem -> Z;
  (** [Path.resolve()] *)
  resolve : rawpath -> path;
  (** [Path(__file__).parent.resolve()] *)
  script_dir : path;
  sys_executable : string
}.

Section Effects.

Context (h : host).

(** [subprocess.run(cmd, cwd=...)] *)
Definition subprocess_run (cmd : list string) (cwd : option path)
  : M completed_process :=
  fun fs =>
    match spawn h cmd cwd fs with
    | (fs', p) => (Ok p, fs', [EvSpawn cmd cwd (returncode p)])
    end.

Definition exists_now (p : path) : M bool :=
  reading (fun fs => Ok (exists_ fs p)).

Definition new_directory (fs : filesystem) (p : path) : entry :=
  {| e_path := p; e_kind := Directory; st_mtime := clock h fs |}.

Definition new_file (fs : filesystem) (p : path) (text : string) : entry :=
  {| e_path := p; e_kind := RegularFile text; st_mtime := clock h fs |}.

(** [p.is_dir()]; the root is a directory. *)
Definition is_directory (fs : filesystem) (p : path) : bool :=
  match p with
  | [] => true
  | _ :: _ =>
      match stat fs p with
      | Ok e => match e_kind e with Directory => true | _ => false end
      | Raise _ => false
      end
  end.

(** Something is in the way at [p]: the root, or an entry. *)
Definition occupied (fs : filesystem) (p : path) : bool :=
  is_directory fs p || exists_ fs p.

(** Adding a name to the directory [d], or removing one from it, gives
    [d] a new modification time.  Regular files are left alone. *)
Definition touch (d : path) (now : Z) (e : entry) : entry :=
  match e_kind e with
  | Directory =>
      if path_eqb (e_path e) d
      then {| e_path := e_path e; e_kind := Directory; st_mtime := now |}
      else e
  | RegularFile _ => e
  end.

(** The file system once the entry [e] has been created in its parent
    directory. *)
Definition create (e : entry) (fs : filesystem) : filesystem :=
  map (touch (parent (e_path e)) (st_mtime e)) fs ++ [e].

(** Looking up the directories [above/c1], [above/c1/c2], ... that lead
    to a path: the first one that is missing, or is not a directory,
    decides the error of the system call. *)
Fixpoint walk (fs : filesystem) (above : path) (rest : list string)
  : option string :=
  match rest with
  | [] => None
  | c :: rest' =>
      match stat fs (above ++ [c]) with
      | Raise _ => Some "FileNotFoundError"
      | Ok e =>
          match e_kind e with
          | Directory => walk fs (above ++ [c]) rest'
          | RegularFile _ => Some "NotADirectoryError"
          end
      end
  end.

Definition lookup_parent (fs : filesystem) (p : path) : option string :=
  walk fs [] (parent p).

(** [os.mkdir(p)] *)
Definition os_mkdir (p : path) : M unit :=
  fun fs =>
    match lookup_parent fs p with
    | Some what => (Raise (OSError what p), fs, [])
    | None =>
        if occupied fs p
        then (Raise (OSError "FileExistsError" p), fs, [])
        else (Ok tt, create (new_directory fs p) fs, [EvMkdir p])
    end.

Definition is_FileNotFoundError (e : exn) : bool :=
  match e with
  | OSError what _ => String.eqb what "FileNotFoundError"
  | _ => false
  end.

(** The handler [except OSError] of [Path.mkdir] with [exist_ok=True]:
    the error is dropped when the path is a directory. *)
Definition unless_directory (p : path) (e : exn) : M unit :=
  fun fs =>
    if is_directory fs p then (Ok tt, fs, []) else (Raise e, fs, []).

(** [p.mkdir(parents=False, exist_ok=True)]: a missing parent is an
    error. *)
Definition mkdir_exist_ok (p : path) : M unit :=
  try_except (os_mkdir p)
    (fun e =>
       if is_FileNotFoundError e then raise e
       else unless_directory p e).

(** [p.mkdir(parents=True, exist_ok=True)] as [pathlib] does it, for the
    path whose components, last one first, are [rev_parts]: when
    [os.mkdir] finds a parent missing, the parent is made the same way
    and the directory is made again. *)
Fixpoint mkdir_up (rev_parts : list string) : M unit :=
  let p := rev rev_parts in
  try_except (os_mkdir p)
    (fun e =>
       if is_FileNotFoundError e then
         match rev_parts with
         | [] => raise e
         | _ :: above => mkdir_up above ;;; mkdir_exist_ok p
         end
       else unless_directory p e).

(** [p.mkdir(parents=True, exist_ok=True)] *)
Definition mkdir_parents (p : path) : M unit := mkdir_up (rev p).

Definition overwrite (p : path) (text : string) (now : Z) (e : entry) : entry :=
  if path_eqb (e_path e) p
  then {| e_path := p; e_kind := RegularFile text; st_mtime := now |}
  else e.

(** [p.write_text(text, encoding="utf-8")] *)
Definition write_text (p : path) (text : string) : M unit :=
  fun fs =>
    match lookup_parent fs p with
    | Some what => (Raise (OSError what p), fs, [])
    | None =>
        if is_directory fs p
        then (Raise (OSError "IsADirectoryError" p), fs, [])
        else if exists_ fs p
        then (Ok tt, map (overwrite p text (clock h fs)) fs,
              [EvWriteText p text])
        else (Ok tt, create (new_file fs p text) fs, [EvWriteText p text])
    end.

(** [p.read_text(encoding="utf-8")] *)
Definition read_text (fs : filesystem) (p : path) : outcome string :=
  match stat fs p with
  | Ok e =>
      match e_kind e with
      | RegularFile text => Ok text
      | Directory => Raise (OSError "IsADirectoryError" p)
      end
  | Raise x => Raise x
  end.

Definition inside (tmp q : path) : bool :=
  path_eqb q tmp || below tmp q.

(** [shutil.rmtree(tmp)] as the cleanup of a temporary directory calls
    it: everything at and below [tmp] goes, and the directory that held
    [tmp] gets a new modification time; when [tmp] is already gone
    nothing is touched. *)
Definition rmtree (tmp : path) (fs : filesystem) : filesystem :=
  let rest := List.filter (fun e => negb (inside tmp (e_path e))) fs in
  if exists_ fs tmp then map (touch (parent tmp) (clock h fs)) rest
  else rest.

(** [with tempfile.TemporaryDirectory(prefix=...) as tmp: body].  The
    directory is created under the name the host chooses and removed
    when the block is left, whether it returned or raised. *)
Definition with_TemporaryDirectory {A} (prefix : string)
    (body : path -> M A) : M A :=
  fun fs =>
    let tmp := mkdtemp h prefix fs in
    match body tmp (create (new_directory fs tmp) fs) with
    | (r, fs', evs) =>
        (r, rmtree tmp fs', EvMkdtemp tmp :: evs ++ [EvRmtree tmp])
    end.

End Effects.

(** ** json.dumps(obj, indent=2) *)

Module Json.

#[warnings="-register-all"]
Inductive value :=
| Str (s : string)
| Arr (items : list value)
| Obj (members : list (string * value)).

Definition dquote : string := String "034"%char EmptyString.
Definition backslash : string := String "092"%char EmptyString.

Definition hex_digit (n : nat) : ascii :=
  nth n (list_ascii_of_string "0123456789abcdef") "0"%char.

(** [ensure_ascii] escaping of one character. *)
Definition escape_char (c : ascii) : string :=
  let n := nat_of_ascii c in
  if (n =? 34)%nat then backslash +:+ dquote
  else if (n =? 92)%nat then backslash +:+ backslash
  else if (n =? 8)%nat then backslash +:+ "b"
  else if (n =? 12)%nat then backslash +:+ "f"
  else if (n =? 10)%nat then backslash +:+ "n"
  else if (n =? 13)%nat then backslash +:+ "r"
  else if (n =? 9)%nat then backslash +:+ "t"
  else if ((32 <=? n) && (n <=? 126))%nat then String c EmptyString
  else backslash +:+ "u00" +:+
       String (hex_digit (n / 16)) (String (hex_digit (n mod 16)) EmptyString).

Fixpoint escape (s : string) : string :=
  match s with
  | EmptyString => EmptyString
  | String c s' => escape_char c +:+ escape s'
  end.

Definition quoted (s : string) : string := dquote +:+ escape s +:+ dquote.

Fixpoint spaces (n : nat) : string :=
  match n with
  | O => EmptyString
  | S n' => String " "%char (spaces n')
  end.

Definition newline_indent (level : nat) : string :=
  String "010"%char (spaces (2 * level)).

Fixpoint dumps_at (level : nat) (v : value) : string :=
  match v with
  | Str s => quoted s
  | Arr [] => "[]"
  | Arr (first :: others) =>
      "[" +:+ newline_indent (S level) +:+ dumps_at (S level) first +:+
      (fix rest (l : list value) : string :=
         match l with
         | [] => EmptyString
         | x :: l' =>
             "," +:+ newline_indent (S level) +:+ dumps_at (S level) x
             +:+ rest l'
         end) others
      +:+ newline_indent level +:+ "]"
  | Obj [] => "{}"
  | Obj ((k, first) :: others) =>
      "{" +:+ newline_indent (S level) +:+ quoted k +:+ ": " +:+
      dumps_at (S level) first +:+
      (fix rest (l : list (string * value)) : string :=
         match l with
         | [] => EmptyString
         | (k', x) :: l' =>
             "," +:+ newline_indent (S level) +:+ quoted k' +:+ ": " +:+
             dumps_at (S level) x +:+ rest l'
         end) others
      +:+ newline_indent level +:+ "}"
  end.

Definition dumps (v : value) : string := dumps_at 0 v.

End Json.

(** ** main.py *)

Module MainPy.

Record args := {
  pdf_in : rawpath;
  out_mxl : rawpath;
  out_pdf : rawpath;
  audiveris_exe : rawpath;
  musescore_exe : rawpath;
  plugin_qml : rawpath;
  force : bool;
  no_opus : bool
}.

Definition fail_msg (rc : Z) : string :=
  "Command failed with exit code " +:+ Py.str_of_int rc.

Definition echo (tag text : string) : M unit :=
  if Py.truthy (Py.strip text)
  then print [tag +:+ newline +:+ text]
  else ret tt.

Section Pipeline.

Context (h : host).

Definition decoded (raw : string) : string :=
  if Py.truthy raw then decode_replace h raw else "".

Definition run_cmd (cmd : list string) (cwd : option path) : M unit :=
  print [newline +:+ "[RUN]"; Py.join " " cmd] ;;;
  p <- subprocess_run h cmd cwd ;;
  echo "[STDOUT]" (decoded (stdout p)) ;;;
  echo "[STDERR]" (decoded (stderr p)) ;;;
  if returncode p =? 0 then ret tt
  else raise (RuntimeError (fail_msg (returncode p))).

Definition job_json (score_in out_mxl out_pdf plugin_qml : path) : Json.value :=
  Json.Arr
    [Json.Obj
       [("in", Json.Str (str_of_path score_in));
        ("plugin", Json.Str (str_of_path plugin_qml));
        ("out", Json.Arr [Json.Str (str_of_path out_mxl);
                          Json.Str (str_of_path out_pdf)])]].

Definition build_job_json (job_path score_in out_mxl out_pdf plugin_qml : path)
  : M unit :=
  write_text h job_path
    (Json.dumps (job_json score_in out_mxl out_pdf plugin_qml)).

(** The loop over the three tool paths (lines 94-96). *)
Fixpoint require_tools (tools : list (path * string)) : M unit :=
  match tools with
  | [] => ret tt
  | (p, label) :: tools' =>
      found <- exists_now p ;;
      if found then require_tools tools'
      else raise (SystemExit (label +:+ " not found: " +:+ str_of_path p))
  end.

Definition aud_cmd_1 (exe aud_out pdf : path) (force : bool) : list string :=
  [str_of_path exe; "-batch"; "-transcribe"; "-output"; str_of_path aud_out]
  ++ (if force then ["-force"] else [])
  ++ [str_of_path pdf].

Definition opus_option : list string :=
  ["-option"; "org.audiveris.omr.sheet.BookManager.useOpus=true"].

Definition aud_cmd_2 (exe aud_out book : path) (no_opus : bool) : list string :=
  [str_of_path exe; "-batch"; "-export"; "-output"; str_of_path aud_out]
  ++ (if no_opus then [] else opus_option)
  ++ [str_of_path book].

(** The [try] block of lines 122-124. *)
Definition single_pass (aud_out : path) : M path :=
  exported <- reading (fun fs => newest_export fs aud_out) ;;
  print ["[INFO] Audiveris export (single-pass): " +:+ str_of_path exported] ;;;
  ret exported.

(** The [except RuntimeError] block of lines 126-144. *)
Definition two_pass (exe aud_out : path) (no_opus : bool) : M path :=
  book <- reading (fun fs => newest_omr_book fs aud_out) ;;
  print ["[INFO] Audiveris book found: " +:+ str_of_path book] ;;;
  run_cmd (aud_cmd_2 exe aud_out book no_opus) None ;;;
  exported <- reading (fun fs => newest_export fs aud_out) ;;
  print ["[INFO] Audiveris export (two-pass): " +:+ str_of_path exported] ;;;
  ret exported.

(** Lines 108-144: both Audiveris passes. *)
Definition audiveris (exe aud_out pdf : path) (force no_opus : bool) : M path :=
  run_cmd (aud_cmd_1 exe aud_out pdf force) None ;;;
  try_except_RuntimeError (single_pass aud_out) (two_pass exe aud_out no_opus).

(** The body of the [with] block (lines 104-152). *)
Definition workspace_body (exe ms plugin pdf out_mxl out_pdf : path)
    (force no_opus : bool) (tmp : path) : M unit :=
  let aud_out := tmp ++ ["audiveris_out"] in
  mkdir_parents h aud_out ;;;
  exported <- audiveris exe aud_out pdf force no_opus ;;
  let job_path := tmp ++ ["job.json"] in
  build_job_json job_path exported out_mxl out_pdf plugin ;;;
  run_cmd [str_of_path ms; "-j"; str_of_path job_path] (Some tmp).

Definition done_line : string :=
  newline +:+
  String "195"%char (String "162"%char
    (String "197"%char (String "147"%char
      (String "226"%char (String "128"%char (String "166"%char " Done")))))).

(** Lines 154-161. *)
Definition check_outputs (out_mxl out_pdf : path) : M unit :=
  mxl_found <- exists_now out_mxl ;;
  if negb mxl_found
  then raise (SystemExit ("Output MXL not created: " +:+ str_of_path out_mxl))
  else
  pdf_found <- exists_now out_pdf ;;
  if negb pdf_found
  then raise (SystemExit ("Output PDF not created: " +:+ str_of_path out_pdf))
  else
  print [done_line] ;;;
  print ["MXL:"; str_of_path out_mxl] ;;;
  print ["PDF:"; str_of_path out_pdf].

(** Lines 86-96: the input PDF, then the two tools and the plugin. *)
Definition check_inputs (pdf exe ms plugin : path) : M unit :=
  pdf_found <- exists_now pdf ;;
  if negb pdf_found
  then raise (SystemExit ("PDF not found: " +:+ str_of_path pdf))
  else
  require_tools [(exe, "Audiveris.exe"); (ms, "MuseScore.exe");
                 (plugin, "plugin qml")].

Definition main (a : args) : M unit :=
  let pdf := resolve h (pdf_in a) in
  let exe := resolve h (audiveris_exe a) in
  let ms := resolve h (musescore_exe a) in
  let plugin := resolve h (plugin_qml a) in
  let mxl := resolve h (out_mxl a) in
  let pdf_out := resolve h (out_pdf a) in
  check_inputs pdf exe ms plugin ;;;
  mkdir_parents h (parent mxl) ;;;
  mkdir_parents h (parent pdf_out) ;;;
  with_TemporaryDirectory h "omr_tmp_"
    (workspace_body exe ms plugin pdf mxl pdf_out (force a) (no_opus a)) ;;;
  check_outputs mxl pdf_out.

End Pipeline.

End MainPy.

(** ** run.py *)

Module RunPy.

Record args := {
  pdf_in : rawpath;
  out_dir : rawpath;
  dotenv : rawpath
}.

(** One iteration of the loop of [load_dotenv] (lines 17-21). *)
Definition parse_line (env : gmap string string) (raw : string)
  : gmap string string :=
  let line := Py.strip raw in
  if negb (Py.truthy line) || Py.startswith "#" line
     || negb (Py.contains "=" line)
  then env
  else
    match Py.split_once "="%char line with
    | Some (k, v) =>
        <[Py.strip k :=
            Py.strip_char "039"%char (Py.strip_char "034"%char (Py.strip v))]>
          env
    | None => env
    end.

Definition load_dotenv (fs : filesystem) (dotenv_path : path)
  : outcome (gmap string string) :=
  if negb (exists_ fs dotenv_path) then Ok ∅
  else
    match read_text fs dotenv_path with
    | Ok text => Ok (fold_left parse_line (Py.splitlines text) ∅)
    | Raise x => Raise x
    end.

(** Truth value of the result of [env.get(key)]. *)
Definition truthy (v : option string) : bool :=
  match v with
  | Some s => Py.truthy s
  | None => false
  end.

Definition missing_keys_msg (dotenv_path : path) : string :=
  "Missing one of these keys in .env:" +:+ newline +:+
  "  AUDIVERIS_EXE" +:+ newline +:+
  "  MUSESCORE_EXE" +:+ newline +:+
  "  JIANPU_QML" +:+ newline +:+
  "Loaded from: " +:+ str_of_path dotenv_path.

(** Index of the last occurrence of [c] in [s]; [i] is the index of the
    first character of [s]. *)
Fixpoint rfind_from (c : ascii) (s : string) (i : nat) : option nat :=
  match s with
  | EmptyString => None
  | String d s' =>
      match rfind_from c s' (S i) with
      | Some j => Some j
      | None => if Ascii.eqb c d then Some i else None
      end
  end.

(** [p.stem] *)
Definition stem (p : path) : string :=
  let n := name p in
  match rfind_from "."%char n 0 with
  | Some i =>
      if ((0 <? i) && (i <? String.length n - 1))%nat
      then substring 0 i n else n
  | None => n
  end.

Section Runner.

Context (h : host).

Definition dotenv_path (a : args) : path :=
  if negb (is_absolute (dotenv a))
  then resolve h (joinpath (script_dir h) (dotenv a))
  else resolve h (dotenv a).

Definition pipeline_cmd (pdf out_mxl out_pdf : path)
    (audiveris_exe musescore_exe plugin_qml : string) : list string :=
  [sys_executable h; str_of_path (script_dir h ++ ["main.py"]);
   "--pdf-in"; str_of_path pdf;
   "--out-mxl"; str_of_path out_mxl;
   "--out-pdf"; str_of_path out_pdf;
   "--audiveris-exe"; audiveris_exe;
   "--musescore-exe"; musescore_exe;
   "--plugin-qml"; plugin_qml].

(** Lines 50-72, reached with the three configured values. *)
Definition delegate (a : args) (audiveris_exe musescore_exe plugin_qml : string)
  : M unit :=
  let pdf := resolve h (pdf_in a) in
  pdf_found <- exists_now pdf ;;
  if negb pdf_found
  then raise (SystemExit ("PDF not found: " +:+ str_of_path pdf))
  else
  let out := resolve h (out_dir a) in
  mkdir_parents h out ;;;
  let out_mxl := out ++ [stem pdf +:+ "_jianpu.mxl"] in
  let out_pdf := out ++ [stem pdf +:+ "_jianpu.pdf"] in
  let cmd := pipeline_cmd pdf out_mxl out_pdf
               audiveris_exe musescore_exe plugin_qml in
  print [newline +:+ "[RUN]"; Py.join " " cmd] ;;;
  p <- subprocess_run h cmd None ;;
  if returncode p =? 0 then ret tt
  else raise (CalledProcessError (returncode p) cmd).

Definition main (a : args) : M unit :=
  env <- reading (fun fs => load_dotenv fs (dotenv_path a)) ;;
  let audiveris_exe := env !! "AUDIVERIS_EXE" in
  let musescore_exe := env !! "MUSESCORE_EXE" in
  let plugin_qml := env !! "JIANPU_QML" in
  if negb (truthy audiveris_exe && truthy musescore_exe && truthy plugin_qml)
  then raise (SystemExit (missing_keys_msg (dotenv_path a)))
  else
    delegate a (default "" audiveris_exe) (default "" musescore_exe)
               (default "" plugin_qml).

End Runner.

End RunPy.

(** ** Vocabulary of the statements *)

(** [n] ends with the extension [ext] (written with its dot). *)
Definition has_extension (ext n : string) : Prop :=
  exists front, n = front +:+ ext.

(** The three extensions of an exported score. *)
Definition recognized (n : string) : Prop :=
  has_extension ".mxl" n \/ has_extension ".musicxml" n
  \/ has_extension ".xml" n.

(** No wildcard occurs in [s]. *)
Fixpoint literal (s : string) : bool :=
  match s with
  | EmptyString => true
  | String c s' =>
      negb (Ascii.eqb c "*") && negb (Ascii.eqb c "?") && literal s'
  end.

(** The timestamp [stat] reports for [p]. *)
Definition mtime_of (fs : filesystem) (p : path) : Z :=
  match stat fs p with
  | Ok e => st_mtime e
  | Raise _ => 0
  end.

(** An entry of the tree below [root]. *)
Definition entry_below (fs : filesystem) (root : path) (e : entry) : Prop :=
  In e fs /\ below root (e_path e) = true.

(** The commands of the child processes in a trace, in order. *)
Fixpoint spawned (evs : list event) : list (list string) :=
  match evs with
  | [] => []
  | EvSpawn cmd _ _ :: evs' => cmd :: spawned evs'
  | _ :: evs' => spawned evs'
  end.


(** The three components of the result of running a computation. *)
Definition outcome_of {A} (res : outcome A * filesystem * list event)
  : outcome A := fst (fst res).
Definition fs_of {A} (res : outcome A * filesystem * list event)
  : filesystem := snd (fst res).
Definition trace_of {A} (res : outcome A * filesystem * list event)
  : list event := snd res.

Definition raised {A} (r : outcome A) : option exn :=
  match r with
  | Ok _ => None
  | Raise e => Some e
  end.

Definition not_spawn (ev : event) : bool :=
  match ev with EvSpawn _ _ _ => false | _ => true end.

Definition not_mkdtemp (ev : event) : bool :=
  match ev with EvMkdtemp _ => false | _ => true end.

(** Not a child process started with an explicit working directory. *)
Definition not_spawn_in_cwd (ev : event) : bool :=
  match ev with EvSpawn _ (Some _) _ => false | _ => true end.

(** What may still happen once a child process has failed: the echo of
    its captured output and the removal of the workspace. *)
Definition winding_down (ev : event) : bool :=
  match ev with
  | EvPrint t => Py.startswith "[STDOUT]" t || Py.startswith "[STDERR]" t
  | EvRmtree _ => true
  | _ => false
  end.

(** Every event of every run of [m] satisfies [P]. *)
Definition emits {A} (P : event -> bool) (m : M A) : Prop :=
  forall fs, Forall (fun ev => P ev = true) (trace_of (m fs)).

(** A trace and the exception it ended with, if any, are fail-fast when
    a child process with a non-zero exit status is followed only by
    winding down and its failure is the exception raised. *)
Definition fail_fast_run (evs : list event) (x : option exn) : Prop :=
  forall pre cmd cwd rc post,
    evs = pre ++ EvSpawn cmd cwd rc :: post -> rc <> 0 ->
    x = Some (RuntimeError (MainPy.fail_msg rc))
    /\ Forall (fun ev => winding_down ev = true) post.

Definition fail_fast {A} (m : M A) : Prop :=
  forall fs, fail_fast_run (trace_of (m fs)) (raised (outcome_of (m fs))).

(** The computation leaves the file system as it found it. *)
Definition read_only {A} (m : M A) : Prop :=
  forall fs, fs_of (m fs) = fs.

(** The lines [run_cmd] prints for the captured output of a process. *)
Definition echo_events (tag text : string) : list event :=
  if Py.truthy (Py.strip text)
  then [EvPrint (Py.join " " [tag +:+ newline +:+ text])]
  else [].

Definition captured_echo (h : host) (p : completed_process) : list event :=
  echo_events "[STDOUT]" (MainPy.decoded h (stdout p)) ++
  echo_events "[STDERR]" (MainPy.decoded h (stderr p)).

(** Every temporary directory acquired during the run has been removed
    by its end: the removal is in the trace and nothing is left at or
    below the directory. *)
Definition workspace_released {A} (res : outcome A * filesystem * list event)
  : Prop :=
  forall tmp,
    In (EvMkdtemp tmp) (trace_of res) ->
    In (EvRmtree tmp) (trace_of res)
    /\ forall e, In e (fs_of res) -> inside tmp (e_path e) = false.

(** The keys [run.py] needs from the configuration. *)
Definition required_keys : list string :=
  ["AUDIVERIS_EXE"; "MUSESCORE_EXE"; "JIANPU_QML"].

(** ** Concrete trees, tools and requests *)

Module Scenario.

Definition file (p : path) (mtime : Z) : entry :=
  {| e_path := p; e_kind := RegularFile ""; st_mtime := mtime |}.

Definition folder (p : path) (mtime : Z) : entry :=
  {| e_path := p; e_kind := Directory; st_mtime := mtime |}.

Definition workspace : path := ["tmp"; "omr_tmp_run1"].

Definition aud_out : path := workspace ++ ["audiveris_out"].

(** An output directory with two scores of equal, latest time, an older
    score, a newer log and a book; one score lies outside the root. *)
Definition scores : filesystem :=
  [folder ["tmp"] 1; folder workspace 2; folder aud_out 3;
   folder (aud_out ++ ["score"]) 4;
   file (aud_out ++ ["score"; "score.omr"]) 10;
   file (aud_out ++ ["score"; "score.xml"]) 20;
   file (aud_out ++ ["score"; "old.musicxml"]) 5;
   file (aud_out ++ ["score"; "score.mxl"]) 20;
   file (aud_out ++ ["score"; "score.log"]) 30;
   file ["tmp"; "elsewhere.mxl"] 99].

(** An output directory that holds a book and a log, no score. *)
Definition book_only : filesystem :=
  [folder ["tmp"] 1; folder workspace 2; folder aud_out 3;
   file (aud_out ++ ["score.omr"]) 10;
   file (aud_out ++ ["score.log"]) 11].


Definition quiet (status : Z) : completed_process :=
  {| returncode := status; stdout := ""; stderr := "" |}.

(** A process creates the files [new], one after the other. *)
Definition writes (new : list entry) (fs : filesystem) : filesystem :=
  fold_left (fun s e => create e s) new fs.

(** Stand-ins for the two tools.  The engine writes a book when it
    transcribes, and a score too when [direct] is set; asked to export,
    it writes the score.  The editor writes the files [typeset] and
    exits with [editor_status]. *)
Definition tools (direct : bool) (editor_status : Z) (typeset : list path)
    (cmd : list string) (cwd : option path) (fs : filesystem)
  : filesystem * completed_process :=
  if existsb (String.eqb "-transcribe") cmd then
    (writes ([file (aud_out ++ ["score.omr"]) 10]
             ++ (if direct then [file (aud_out ++ ["score.mxl"]) 11] else []))
            fs,
     {| returncode := 0; stdout := "1 sheet"; stderr := "" |})
  else if existsb (String.eqb "-export") cmd then
    (writes [file (aud_out ++ ["score.mxl"]) 12] fs, quiet 0)
  else
    (writes (map (fun p => file p 13) typeset) fs,
     {| returncode := editor_status; stdout := "";
        stderr := if editor_status =? 0 then "" else "plugin failed" |}).

Definition machine (direct : bool) (editor_status : Z) (typeset : list path)
  : host :=
  {| spawn := tools direct editor_status typeset;
     decode_replace := fun raw => raw;
     mkdtemp := fun prefix _ => ["tmp"; prefix +:+ "run1"];
     clock := fun _ => 50;
     resolve := parts;
     script_dir := ["app"; "backend"];
     sys_executable := "/usr/bin/python3" |}.

(** A process that does nothing and exits with [status]. *)
Definition exits_with (status : Z) : host :=
  {| spawn := fun _ _ fs => (fs, quiet status);
     decode_replace := fun raw => raw;
     mkdtemp := fun prefix _ => ["tmp"; prefix +:+ "run1"];
     clock := fun _ => 50;
     resolve := parts;
     script_dir := ["app"; "backend"];
     sys_executable := "/usr/bin/python3" |}.

Definition absolute (p : path) : rawpath :=
  {| is_absolute := true; parts := p |}.

Definition relative (p : path) : rawpath :=
  {| is_absolute := false; parts := p |}.

Definition wanted_mxl : path := ["out"; "score_jianpu.mxl"].
Definition wanted_pdf : path := ["out"; "score_jianpu.pdf"].

Definition request : MainPy.args :=
  {| MainPy.pdf_in := absolute ["in"; "score.pdf"];
     MainPy.out_mxl := absolute wanted_mxl;
     MainPy.out_pdf := absolute wanted_pdf;
     MainPy.audiveris_exe := absolute ["opt"; "audiveris"];
     MainPy.musescore_exe := absolute ["opt"; "mscore"];
     MainPy.plugin_qml := absolute ["opt"; "solfa.qml"];
     MainPy.force := false;
     MainPy.no_opus := false |}.

Definition disk : filesystem :=
  [folder ["in"] 1; file ["in"; "score.pdf"] 2; folder ["opt"] 1;
   file ["opt"; "audiveris"] 1; file ["opt"; "mscore"] 1;
   file ["opt"; "solfa.qml"] 1; folder ["tmp"] 1].

(** The state in which the Audiveris passes start. *)
Definition staged : filesystem :=
  map (touch ["tmp"] 50) disk
  ++ [folder ["out"] 50; folder workspace 50; folder aud_out 50].

Definition runner_request : RunPy.args :=
  {| RunPy.pdf_in := absolute ["in"; "score.pdf"];
     RunPy.out_dir := relative ["output"];
     RunPy.dotenv := relative [".env"] |}.

Definition dotenv_file : path := ["app"; "backend"; ".env"].

(** A configuration with two of the three keys. *)
Definition partial_config : string :=
  "# tools" +:+ newline +:+
  "AUDIVERIS_EXE = '/opt/audiveris'" +:+ newline +:+
  "MUSESCORE_EXE=/opt/mscore" +:+ newline.

Definition configured : filesystem :=
  disk ++ [folder ["app"] 1; folder ["app"; "backend"] 1;
           {| e_path := dotenv_file; e_kind := RegularFile partial_config;
              st_mtime := 3 |}].

End Scenario.


(** ** More vocabulary *)

(** The commands of the OMR engine in one run: the transcription, then
    possibly the export from a book. *)
Definition engine_commands (exe aud_out pdf : path) (force no_opus : bool)
    (cmds : list (list string)) : Prop :=
  cmds = [MainPy.aud_cmd_1 exe aud_out pdf force]
  \/ exists book,
       cmds = [MainPy.aud_cmd_1 exe aud_out pdf force;
               MainPy.aud_cmd_2 exe aud_out book no_opus].

(** The command of the notation editor for a workspace. *)
Definition editor_command (ms tmp : path) : list string :=
  [str_of_path ms; "-j"; str_of_path (tmp ++ ["job.json"])].

(** The message of the first missing input, in the order [main.py]
    checks them. *)
Definition first_missing_input (fs : filesystem) (pdf exe ms plugin : path)
  : string :=
  if negb (exists_ fs pdf) then "PDF not found: " +:+ str_of_path pdf
  else if negb (exists_ fs exe)
  then "Audiveris.exe not found: " +:+ str_of_path exe
  else if negb (exists_ fs ms)
  then "MuseScore.exe not found: " +:+ str_of_path ms
  else "plugin qml not found: " +:+ str_of_path plugin.

(** A regular file, as opposed to a directory. *)
Definition regular (e : entry) : bool :=
  match e_kind e with
  | RegularFile _ => true
  | Directory => false
  end.

(** A directory is recorded at [q]. *)
Definition directory_at (fs : filesystem) (q : path) : Prop :=
  exists e, stat fs q = Ok e /\ e_kind e = Directory.

(** A regular file is recorded at [q]. *)
Definition file_at (fs : filesystem) (q : path) : Prop :=
  exists e, stat fs q = Ok e /\ regular e = true.

(** What is recorded at [q]: nothing, or an entry that is a regular
    file ([Some true]) or a directory ([Some false]). *)
Definition kind_at (fs : filesystem) (q : path) : option bool :=
  match stat fs q with
  | Ok e => Some (regular e)
  | Raise _ => None
  end.

(** [e'] is what became of the entry [e] when nothing was done to it
    but, if it is a directory, giving it another modification time:
    a regular file is unchanged, a directory is a directory at the same
    path. *)
Definition retimed (e e' : entry) : Prop :=
  e' = e
  \/ (e_kind e = Directory /\ e_kind e' = Directory
      /\ e_path e' = e_path e).

(** The entry [e] is still in [fs], up to the modification time of a
    directory. *)
Definition survives (e : entry) (fs : filesystem) : Prop :=
  exists e', In e' fs /\ retimed e e'.

(** The file system [fs'] is [fs] with directories added at its end:
    the entries of [fs] are all there, in place and in order, up to the
    modification time of a directory, and [evs] reports the additions
    in order. *)
Definition grown (fs fs' : filesystem) (evs : list event) : Prop :=
  exists kept added,
    fs' = kept ++ added
    /\ Forall2 retimed fs kept
    /\ Forall (fun e => e_kind e = Directory) added
    /\ evs = map (fun e => EvMkdir (e_path e)) added.

(** Nothing is left to do for [os.mkdir(p)]: [p] is a directory and the
    call fails with an error other than [FileNotFoundError]. *)
Definition settled (h : host) (p : path) (fs : filesystem) : Prop :=
  is_directory fs p = true
  /\ exists x, os_mkdir h p fs = (Raise x, fs, [])
               /\ is_FileNotFoundError x = false.

(** The computation never removes or rewrites the entry [e]. *)
Definition keeps (e : entry) {A} (m : M A) : Prop :=
  forall fs, survives e fs -> survives e (fs_of (m fs)).

(** Every character of [s] belongs to the class [f] ([s] may be
    empty). *)
Fixpoint all_chars (f : ascii -> bool) (s : string) : bool :=
  match s with
  | EmptyString => true
  | String c s' => f c && all_chars f s'
  end.

(** Every character of [s] is white space. *)
Definition all_space (s : string) : bool := all_chars Py.isspace s.


(** What a line of the configuration file assigns, if anything: the key
    and the value that [parse_line] stores for it. *)
Definition assignment (raw : string) : option (string * string) :=
  let line := Py.strip raw in
  if negb (Py.truthy line) || Py.startswith "#" line
     || negb (Py.contains "=" line)
  then None
  else
    match Py.split_once "="%char line with
    | Some (k, v) =>
        Some (Py.strip k,
              Py.strip_char "039"%char
                (Py.strip_char "034"%char (Py.strip v)))
    | None => None
    end.

(** The value of the last line that assigns [key]. *)
Definition last_assignment (key : string) (lines : list string)
  : option string :=
  fold_left
    (fun found raw =>
       match assignment raw with
       | Some (k, v) => if String.eqb k key then Some v else found
       | None => found
       end)
    lines None.

Module Cases.

(** A configuration in which the third key is assigned the empty
    value. *)
Definition empty_plugin_config : string :=
  "AUDIVERIS_EXE=/opt/audiveris" +:+ newline +:+
  "MUSESCORE_EXE=/opt/mscore" +:+ newline +:+
  "JIANPU_QML=" +:+ newline.

(** A complete configuration, with spacing, quoting, a comment and a
    key assigned twice. *)
Definition full_config : string :=
  "# tools" +:+ newline +:+
  "AUDIVERIS_EXE=/old/audiveris" +:+ newline +:+ newline +:+
  "  AUDIVERIS_EXE = '/opt/audiveris'  " +:+ newline +:+
  "MUSESCORE_EXE=" +:+ String "034"%char "/opt/mscore"
    +:+ String "034"%char newline +:+
  "JIANPU_QML=/opt/solfa.qml".

Definition with_config (text : string) : filesystem :=
  Scenario.disk ++
  [Scenario.folder ["app"] 1; Scenario.folder ["app"; "backend"] 1;
   {| e_path := Scenario.dotenv_file; e_kind := RegularFile text;
      st_mtime := 3 |}].

(** A tree in which the configuration path is a directory. *)
Definition dotenv_is_folder : filesystem :=
  Scenario.disk ++
  [Scenario.folder ["app"] 1; Scenario.folder ["app"; "backend"] 1;
   Scenario.folder Scenario.dotenv_file 1].

(** An output directory in which a folder is called [scan.xml] and is
    the newest entry; a score and a log lie beside it. *)
Definition folder_beside_score : filesystem :=
  [Scenario.folder ["tmp"] 1; Scenario.folder Scenario.workspace 2;
   Scenario.folder Scenario.aud_out 3;
   Scenario.file (Scenario.aud_out ++ ["old.mxl"]) 10;
   Scenario.file (Scenario.aud_out ++ ["scan.log"]) 11;
   Scenario.folder (Scenario.aud_out ++ ["scan.xml"]) 12].

(** An output directory in which a folder is called [scan.xml] and no
    regular file has a recognized extension. *)
Definition folder_without_score : filesystem :=
  [Scenario.folder ["tmp"] 1; Scenario.folder Scenario.workspace 2;
   Scenario.folder Scenario.aud_out 3;
   Scenario.file (Scenario.aud_out ++ ["scan.log"]) 11;
   Scenario.folder (Scenario.aud_out ++ ["scan.xml"]) 12;
   Scenario.file (Scenario.aud_out ++ ["scan.xml"; "scan.omr"]) 13].

End Cases.

(** Reading back a JSON string body written by [Json.escape]: the left
    inverse used to show that the encoding loses nothing. *)
Definition hex_value (c : ascii) : option nat :=
  let n := nat_of_ascii c in
  if ((48 <=? n) && (n <=? 57))%nat then Some (n - 48)%nat
  else if ((97 <=? n) && (n <=? 102))%nat then Some (n - 87)%nat
  else None.

Fixpoint json_unescape (s : string) : option string :=
  match s with
  | EmptyString => Some EmptyString
  | String c s1 =>
      if Ascii.eqb c "092" then
        match s1 with
        | String e s2 =>
            let simple (d : ascii) := option_map (String d) (json_unescape s2) in
            if Ascii.eqb e "034" then simple "034"%char
            else if Ascii.eqb e "092" then simple "092"%char
            else if Ascii.eqb e "b" then simple "008"%char
            else if Ascii.eqb e "f" then simple "012"%char
            else if Ascii.eqb e "n" then simple "010"%char
            else if Ascii.eqb e "r" then simple "013"%char
            else if Ascii.eqb e "t" then simple "009"%char
            else if Ascii.eqb e "u" then
              match s2 with
              | String "0" (String "0" (String h1 (String h2 s3))) =>
                  match hex_value h1, hex_value h2 with
                  | Some a, Some b =>
                      option_map (String (ascii_of_nat (16 * a + b)))
                                 (json_unescape s3)
                  | _, _ => None
                  end
              | _ => None
              end
            else None
        | EmptyString => None
        end
      else if Ascii.eqb c "034" then None
      else option_map (String c) (json_unescape s1)
  end.

(** ** Pattern matching and enumeration *)

Lemma append_nil_l s : "" +:+ s = s.
Proof. reflexivity. Qed.

Lemma append_cons c s t : String c s +:+ t = String c (s +:+ t).
Proof. reflexivity. Qed.

Lemma append_nil_r s : s +:+ "" = s.
Proof.
  induction s as [|c s IH]; [reflexivity|].
  rewrite append_cons, IH. reflexivity.
Qed.

Ltac simpl_append :=
  repeat (rewrite ?append_nil_l, ?append_cons, ?append_nil_r in *).

Lemma fnmatch_literal pat s :
  literal pat = true -> fnmatch pat s = true <-> pat = s.
Proof.
  revert s. induction pat as [|c pat IH]; intros s Hlit.
  - destruct s; simpl; split; congruence.
  - simpl in Hlit.
    apply andb_prop in Hlit as [Hc Hlit].
    apply andb_prop in Hc as [Hstar Hq].
    apply negb_true_iff in Hstar, Hq.
    assert (Hstep : fnmatch (String c pat) s =
                    match s with
                    | String d s' => Ascii.eqb c d && fnmatch pat s'
                    | EmptyString => false
                    end).
    { apply Ascii.eqb_neq in Hstar, Hq.
      destruct c as [[] [] [] [] [] [] [] []]; try reflexivity;
        congruence. }
    rewrite Hstep. destruct s as [|d s'].
    + split; congruence.
    + rewrite andb_true_iff, Ascii.eqb_eq, (IH s' Hlit).
      split; [intros [-> ->]; reflexivity | intros [= -> ->]; auto].
Qed.

Lemma fnmatch_star pat s :
  fnmatch (String "*" pat) s = true <->
  exists front back, s = front +:+ back /\ fnmatch pat back = true.
Proof.
  induction s as [|d s IH].
  - simpl. rewrite orb_false_r. split.
    + intros H. exists EmptyString, EmptyString. auto.
    + intros (front & back & Heq & H).
      destruct front; [|discriminate]. simpl_append. subst back. exact H.
  - change (fnmatch (String "*" pat) (String d s))
      with (fnmatch pat (String d s) || fnmatch (String "*" pat) s).
    rewrite orb_true_iff, IH. split.
    + intros [H | (front & back & -> & H)].
      * exists EmptyString, (String d s). auto.
      * exists (String d front), back. auto.
    + intros (front & back & Heq & H). destruct front as [|c front].
      * simpl_append. subst back. left. exact H.
      * simpl_append. injection Heq as -> ->. right. eauto.
Qed.

(** A pattern [*ext] selects exactly the names with that extension. *)
Lemma fnmatch_extension ext n :
  literal ext = true ->
  fnmatch (String "*" ext) n = true <-> has_extension ext n.
Proof.
  intros Hlit. rewrite fnmatch_star. unfold has_extension. split.
  - intros (front & back & -> & H).
    apply fnmatch_literal in H; [subst back; eauto | assumption].
  - intros [front ->]. exists front, ext. split; [reflexivity|].
    apply fnmatch_literal; auto.
Qed.


Lemma path_eqb_eq p q : path_eqb p q = true <-> p = q.
Proof. unfold path_eqb. apply bool_decide_eq_true. Qed.

Lemma in_rglob_entries fs root pat e :
  In e (rglob_entries fs root pat) <->
  entry_below fs root e /\ fnmatch pat (name (e_path e)) = true.
Proof.
  unfold rglob_entries, entry_below.
  rewrite List.filter_In, andb_true_iff. tauto.
Qed.

Lemma in_rglob fs root pat p :
  In p (rglob fs root pat) <->
  exists e, e_path e = p /\ entry_below fs root e
            /\ fnmatch pat (name p) = true.
Proof.
  unfold rglob. rewrite in_map_iff. split.
  - intros (e & <- & He). apply in_rglob_entries in He. exists e. tauto.
  - intros (e & <- & He). exists e. split; [reflexivity|].
    apply in_rglob_entries. exact He.
Qed.

(** [stat] succeeds on every path of the tree, with an entry at that
    path. *)
Lemma stat_present fs e :
  In e fs -> exists e0, stat fs (e_path e) = Ok e0
                        /\ In e0 fs /\ e_path e0 = e_path e.
Proof.
  intros Hin. unfold stat.
  destruct (List.find _ fs) as [e0|] eqn:Hfind.
  - apply List.find_some in Hfind as [H0 Heq].
    apply path_eqb_eq in Heq. eauto.
  - exfalso. apply (List.find_none _ _ Hfind) in Hin.
    assert (path_eqb (e_path e) (e_path e) = true) by (apply path_eqb_eq; auto).
    congruence.
Qed.

(** In a tree where a path names one entry, [stat] returns that entry. *)
Lemma stat_unique fs e :
  List.NoDup (map e_path fs) -> In e fs -> stat fs (e_path e) = Ok e.
Proof.
  intros Hnd Hin. destruct (stat_present fs e Hin) as (e0 & Hst & Hin0 & Hp).
  rewrite Hst. f_equal.
  clear Hst. induction fs as [|x fs IH]; [contradiction|].
  simpl in Hnd. apply List.NoDup_cons_iff in Hnd as [Hx Hnd].
  destruct Hin as [-> | Hin], Hin0 as [-> | Hin0]; auto.
  - exfalso. apply Hx. rewrite <- Hp. apply in_map. exact Hin0.
  - exfalso. apply Hx. rewrite Hp. apply in_map. exact Hin.
Qed.

Lemma mtime_key_present fs e :
  In e fs -> mtime_key fs (e_path e) = Ok (mtime_of fs (e_path e)).
Proof.
  intros Hin. unfold mtime_key, mtime_of.
  destruct (stat_present fs e Hin) as (e0 & -> & _). reflexivity.
Qed.

Lemma mtime_key_rglob fs root pat p :
  In p (rglob fs root pat) -> mtime_key fs p = Ok (mtime_of fs p).
Proof.
  intros Hin. apply in_rglob in Hin as (e & <- & [Hin _] & _).
  apply mtime_key_present. exact Hin.
Qed.

(** ** The built-in [max] *)

Lemma max_scan_spec {A} (key : A -> outcome Z) (k : A -> Z) l :
  (forall x, In x l -> key x = Ok (k x)) ->
  forall best,
  exists p, max_scan key best (k best) l = Ok p /\
    ((p = best /\ forall q, In q l -> k q <= k best) \/
     (exists l1 l2, l = l1 ++ p :: l2 /\ k best < k p /\
        (forall q, In q l1 -> k q < k p) /\
        (forall q, In q l2 -> k q <= k p))).
Proof.
  induction l as [|x l IH]; intros Hkey best.
  - exists best. split; [reflexivity|]. left. split; [reflexivity|].
    intros q [].
  - simpl. rewrite (Hkey x (or_introl eq_refl)).
    assert (Hkey' : forall y, In y l -> key y = Ok (k y))
      by (intros y Hy; apply Hkey; right; exact Hy).
    destruct (Z.ltb_spec (k best) (k x)) as [Hlt | Hge].
    + destruct (IH Hkey' x) as (p & Hp & Hcase). exists p.
      split; [exact Hp|]. right.
      destruct Hcase as [[-> Hall] | (l1 & l2 & -> & Hlt' & H1 & H2)].
      * exists [], l. repeat split; auto. intros q [].
      * exists (x :: l1), l2. repeat split; auto; [lia|].
        intros q [<- | Hq]; auto.
    + destruct (IH Hkey' best) as (p & Hp & Hcase). exists p.
      split; [exact Hp|].
      destruct Hcase as [[-> Hall] | (l1 & l2 & -> & Hlt' & H1 & H2)].
      * left. split; [reflexivity|]. intros q [<- | Hq]; auto.
      * right. exists (x :: l1), l2. repeat split; auto.
        intros q [<- | Hq]; [lia | auto].
Qed.

(** [max] returns the first item whose key is maximal. *)
Lemma py_max_spec {A} (key : A -> outcome Z) (k : A -> Z) l :
  (forall x, In x l -> key x = Ok (k x)) ->
  l <> [] ->
  exists p l1 l2, py_max key l = Ok p /\ l = l1 ++ p :: l2 /\
    (forall q, In q l1 -> k q < k p) /\
    (forall q, In q l2 -> k q <= k p).
Proof.
  intros Hkey Hne. destruct l as [|x l]; [congruence|].
  simpl. rewrite (Hkey x (or_introl eq_refl)).
  destruct (max_scan_spec key k l) with (best := x)
    as (p & Hp & Hcase).
  { intros y Hy. apply Hkey. right. exact Hy. }
  destruct Hcase as [[-> Hall] | (l1 & l2 & -> & Hlt & H1 & H2)].
  - exists x, [], l. repeat split; auto. intros q [].
  - exists p, (x :: l1), l2. repeat split; auto.
    intros q [<- | Hq]; auto.
Qed.

(** ** The artifact lookups *)

Lemma in_rglob_extension fs root ext p :
  literal ext = true ->
  In p (rglob fs root (String "*" ext)) <->
  exists e, e_path e = p /\ entry_below fs root e
            /\ has_extension ext (name p).
Proof.
  intros Hlit. rewrite in_rglob.
  split; intros (e & ? & ? & Hm); exists e; (split; [|split]); auto;
    apply (fnmatch_extension ext (name p) Hlit); exact Hm.
Qed.

Lemma in_export_candidates fs root p :
  In p (export_candidates fs root) <->
  exists e, e_path e = p /\ entry_below fs root e /\ recognized (name p).
Proof.
  unfold export_candidates, recognized.
  change "*.mxl" with (String "*" ".mxl").
  change "*.musicxml" with (String "*" ".musicxml").
  change "*.xml" with (String "*" ".xml").
  rewrite !in_app_iff, !in_rglob_extension by reflexivity.
  split.
  - intros [(e & ? & ? & ?) | [(e & ? & ? & ?) | (e & ? & ? & ?)]];
      exists e; tauto.
  - intros (e & ? & ? & [? | [? | ?]]); [left | right; left | right; right];
      exists e; tauto.
Qed.

Lemma mtime_key_candidate fs root p :
  In p (export_candidates fs root) -> mtime_key fs p = Ok (mtime_of fs p).
Proof.
  intros Hin. apply in_export_candidates in Hin as (e & <- & [Hin _] & _).
  apply mtime_key_present. exact Hin.
Qed.

(** The result of a successful lookup splits the enumeration: strictly
    older candidates before it, none newer after it. *)
Lemma newest_export_split fs root :
  export_candidates fs root <> [] ->
  exists p before after,
    newest_export fs root = Ok p /\
    export_candidates fs root = before ++ p :: after /\
    (forall q, In q before -> mtime_of fs q < mtime_of fs p) /\
    (forall q, In q after -> mtime_of fs q <= mtime_of fs p).
Proof.
  intros Hne. unfold newest_export.
  destruct (py_max_spec (mtime_key fs) (mtime_of fs)
              (export_candidates fs root))
    as (p & l1 & l2 & Hp & Hsplit & H1 & H2).
  - intros x Hx. eapply mtime_key_candidate. exact Hx.
  - exact Hne.
  - exists p, l1, l2.
    destruct (export_candidates fs root) eqn:Hc; [congruence|].
    auto.
Qed.

Lemma newest_export_empty fs root :
  export_candidates fs root = [] ->
  newest_export fs root = Raise (RuntimeError (no_export_msg root)).
Proof. intros H. unfold newest_export. rewrite H. reflexivity. Qed.

(** The lookup returns a path or raises its own [RuntimeError]; [stat]
    never fails inside it. *)
Lemma newest_export_cases fs root :
  (exists p, newest_export fs root = Ok p /\ In p (export_candidates fs root))
  \/ (export_candidates fs root = [] /\
      newest_export fs root = Raise (RuntimeError (no_export_msg root))).
Proof.
  destruct (export_candidates fs root) eqn:Hc.
  - right. split; [reflexivity|]. apply newest_export_empty. exact Hc.
  - left. destruct (newest_export_split fs root) as (x & l1 & l2 & Hp & Hs & _).
    + congruence.
    + exists x. split; [exact Hp|]. rewrite <- Hc, Hs.
      apply in_app_iff. right. left. reflexivity.
Qed.

Lemma newest_omr_book_cases fs root :
  (exists p, newest_omr_book fs root = Ok p /\ In p (rglob fs root "*.omr")
             /\ forall b, In b (rglob fs root "*.omr") ->
                          mtime_of fs b <= mtime_of fs p)
  \/ (rglob fs root "*.omr" = [] /\
      newest_omr_book fs root = Raise (RuntimeError (no_book_msg fs root))).
Proof.
  unfold newest_omr_book.
  destruct (rglob fs root "*.omr") as [|b books] eqn:Hb.
  - right. auto.
  - left.
    destruct (py_max_spec (mtime_key fs) (mtime_of fs) (b :: books))
      as (p & l1 & l2 & Hp & Hs & H1 & H2).
    + intros x Hx. rewrite <- Hb in Hx. eapply mtime_key_rglob. exact Hx.
    + discriminate.
    + exists p. split; [exact Hp|]. rewrite Hs. split.
      * apply in_app_iff. right. left. reflexivity.
      * intros c Hc. apply in_app_iff in Hc as [Hc | [<- | Hc]];
          [apply Z.lt_le_incl, H1, Hc | lia | apply H2, Hc].
Qed.

(** C2.  In a tree where a path names one entry and which holds at least
    one entry, regular file or directory, with a recognized extension
    below the root, [newest_export] returns the path of an entry below
    the root that has a recognized extension and whose modification time
    is maximal among all such entries, directories included; this holds
    in whatever order the entries are enumerated. *)
Theorem newest_export_latest fs fs' out_dir :
  List.NoDup (map e_path fs) ->
  Permutation fs fs' ->
  (exists c, entry_below fs out_dir c /\ recognized (name (e_path c))) ->
  exists e,
    newest_export fs' out_dir = Ok (e_path e) /\
    entry_below fs out_dir e /\
    recognized (name (e_path e)) /\
    forall c, entry_below fs out_dir c -> recognized (name (e_path c)) ->
              st_mtime c <= st_mtime e.
Proof.
  intros Hnd Hperm (c0 & [Hc0 Hb0] & Hr0).
  assert (Hnd' : List.NoDup (map e_path fs')).
  { eapply Permutation_NoDup; [|exact Hnd]. apply Permutation_map. exact Hperm. }
  assert (Hin : forall x, In x fs <-> In x fs').
  { intros x. split; apply Permutation_in; [|symmetry]; exact Hperm. }
  assert (Hcand : forall c, entry_below fs out_dir c ->
                            recognized (name (e_path c)) ->
                            In (e_path c) (export_candidates fs' out_dir)).
  { intros c [Hc Hb] Hr. apply in_export_candidates. exists c.
    repeat split; auto. apply Hin. exact Hc. }
  destruct (newest_export_split fs' out_dir)
    as (p & before & after & Hp & Hsplit & Hbefore & Hafter).
  { intros Hnil. specialize (Hcand c0 (conj Hc0 Hb0) Hr0).
    rewrite Hnil in Hcand. destruct Hcand. }
  assert (Hpin : In p (export_candidates fs' out_dir)).
  { rewrite Hsplit. apply in_app_iff. right. left. reflexivity. }
  apply in_export_candidates in Hpin as (e & <- & [He Hb] & Hr).
  assert (Hmt : forall x, In x fs' -> mtime_of fs' (e_path x) = st_mtime x).
  { intros x Hx. unfold mtime_of. rewrite (stat_unique fs' x Hnd' Hx).
    reflexivity. }
  exists e. split; [exact Hp|]. split; [split; [apply Hin; exact He | exact Hb]|].
  split; [exact Hr|].
  intros c Hc Hrc. pose proof (Hcand c Hc Hrc) as Hc'.
  destruct Hc as [Hc _]. apply Hin in Hc.
  rewrite <- (Hmt c Hc), <- (Hmt e He).
  rewrite Hsplit in Hc'. apply in_app_iff in Hc' as [Hc' | [Hc' | Hc']].
  - apply Z.lt_le_incl. apply Hbefore. exact Hc'.
  - rewrite Hc'. lia.
  - apply Hafter. exact Hc'.
Qed.

(** C3.  When no entry below the root, regular file or directory, has a
    recognized extension (an empty tree included), [newest_export]
    raises [RuntimeError] with the message naming the root; and on every
    tree it either returns a path or raises exactly that error. *)
Theorem newest_export_not_found fs out_dir :
  ((forall e, entry_below fs out_dir e -> ~ recognized (name (e_path e))) ->
   newest_export fs out_dir = Raise (RuntimeError (no_export_msg out_dir)))
  /\ ((exists p, newest_export fs out_dir = Ok p)
      \/ newest_export fs out_dir
         = Raise (RuntimeError (no_export_msg out_dir))).
Proof.
  split.
  - intros Hnone. apply newest_export_empty.
    destruct (export_candidates fs out_dir) as [|p l] eqn:Hc; [reflexivity|].
    exfalso.
    assert (Hp : In p (export_candidates fs out_dir))
      by (rewrite Hc; left; reflexivity).
    apply in_export_candidates in Hp as (e & <- & He & Hr).
    exact (Hnone e He Hr).
  - destruct (newest_export_cases fs out_dir) as [(p & Hp & _) | [_ H]];
      eauto.
Qed.


(** C9.  The candidates are enumerated with the [.mxl] matches first,
    then the [.musicxml] matches, then the [.xml] matches, and the path
    returned is the first of that enumeration whose modification time is
    maximal: everything before it is strictly older, nothing after it is
    newer.  Hence when an [.mxl] match has the maximal time, an [.mxl]
    match is returned. *)
Theorem newest_export_first_of_ties fs out_dir p :
  newest_export fs out_dir = Ok p ->
  exists before after,
    rglob fs out_dir "*.mxl" ++ rglob fs out_dir "*.musicxml"
      ++ rglob fs out_dir "*.xml" = before ++ p :: after
    /\ (forall q, In q before -> mtime_of fs q < mtime_of fs p)
    /\ (forall q, In q after -> mtime_of fs q <= mtime_of fs p)
    /\ (forall m, In m (rglob fs out_dir "*.mxl") ->
                  mtime_of fs m = mtime_of fs p ->
                  In p (rglob fs out_dir "*.mxl")).
Proof.
  intros Hres.
  destruct (newest_export_split fs out_dir)
    as (p' & before & after & Hp & Hsplit & Hbefore & Hafter).
  { intros Hnil. rewrite (newest_export_empty _ _ Hnil) in Hres.
    discriminate. }
  rewrite Hres in Hp. injection Hp as <-.
  exists before, after. unfold export_candidates in Hsplit.
  repeat split; auto.
  intros m Hm Heq.
  apply List.app_eq_app in Hsplit as [tail [[Hmxl Hrest] | [Hb Hrest]]].
  - destruct tail as [|t tail].
    + rewrite app_nil_r in Hmxl. subst before.
      specialize (Hbefore m Hm). lia.
    + injection Hrest as <- _. rewrite Hmxl.
      apply in_app_iff. right. left. reflexivity.
  - exfalso. assert (Hin : In m before).
    { rewrite Hb. apply in_app_iff. left. exact Hm. }
    specialize (Hbefore m Hin). lia.
Qed.

(** ** Traces of computations *)

Lemma app_eq_middle {A} (a b pre post : list A) (x : A) :
  a ++ b = pre ++ x :: post ->
  (exists post1, a = pre ++ x :: post1 /\ post = post1 ++ b)
  \/ (exists pre2, pre = a ++ pre2 /\ b = pre2 ++ x :: post).
Proof.
  intros H. apply List.app_eq_app in H as [l [[Ha Hb] | [Hpre Hb]]].
  - destruct l as [|y l].
    + right. exists []. rewrite app_nil_r in Ha. subst a.
      rewrite app_nil_r. auto.
    + injection Hb as <- ->. left. exists l. auto.
  - right. exists l. auto.
Qed.

Lemma trace_of_triple {A} (r : outcome A) fs evs : trace_of (r, fs, evs) = evs.
Proof. reflexivity. Qed.

Lemma fs_of_triple {A} (r : outcome A) fs evs : fs_of (r, fs, evs) = fs.
Proof. reflexivity. Qed.

Lemma outcome_of_triple {A} (r : outcome A) fs evs :
  outcome_of (r, fs, evs) = r.
Proof. reflexivity. Qed.

Ltac project :=
  rewrite ?trace_of_triple, ?fs_of_triple, ?outcome_of_triple in *.

Lemma bind_run {A B} (m : M A) (k : A -> M B) fs :
  bind m k fs =
  match outcome_of (m fs) with
  | Ok a =>
      (outcome_of (k a (fs_of (m fs))), fs_of (k a (fs_of (m fs))),
       trace_of (m fs) ++ trace_of (k a (fs_of (m fs))))
  | Raise e => (Raise e, fs_of (m fs), trace_of (m fs))
  end.
Proof.
  unfold bind, outcome_of, fs_of, trace_of.
  destruct (m fs) as [[[a|e] fs1] ev1]; simpl; [|reflexivity].
  destruct (k a fs1) as [[r fs2] ev2]. reflexivity.
Qed.

Lemma try_run {A} (body handler : M A) fs :
  try_except_RuntimeError body handler fs =
  match outcome_of (body fs) with
  | Raise (RuntimeError _) =>
      (outcome_of (handler (fs_of (body fs))),
       fs_of (handler (fs_of (body fs))),
       trace_of (body fs) ++ trace_of (handler (fs_of (body fs))))
  | _ => body fs
  end.
Proof.
  unfold try_except_RuntimeError, outcome_of, fs_of, trace_of.
  destruct (body fs) as [[[a|[]] fs1] ev1]; simpl; try reflexivity.
  destruct (handler fs1) as [[r fs2] ev2]. reflexivity.
Qed.

Lemma try_except_run {A} (body : M A) (handler : exn -> M A) fs :
  try_except body handler fs =
  match outcome_of (body fs) with
  | Raise e =>
      (outcome_of (handler e (fs_of (body fs))),
       fs_of (handler e (fs_of (body fs))),
       trace_of (body fs) ++ trace_of (handler e (fs_of (body fs))))
  | Ok _ => body fs
  end.
Proof.
  unfold try_except, outcome_of, fs_of, trace_of.
  destruct (body fs) as [[[a|e] fs1] ev1]; simpl; [reflexivity|].
  destruct (handler e fs1) as [[r fs2] ev2]. reflexivity.
Qed.

Section Emits.

Context (P : event -> bool).

Lemma emits_ret {A} (a : A) : emits P (ret a).
Proof. intros fs. constructor. Qed.

Lemma emits_raise {A} e : emits P (@raise A e).
Proof. intros fs. constructor. Qed.

Lemma emits_reading {A} (f : filesystem -> outcome A) : emits P (reading f).
Proof. intros fs. constructor. Qed.

Lemma emits_emit ev : P ev = true -> emits P (emit ev).
Proof. intros H fs. repeat constructor. exact H. Qed.

Lemma emits_bind {A B} (m : M A) (k : A -> M B) :
  emits P m -> (forall a, emits P (k a)) -> emits P (bind m k).
Proof.
  intros Hm Hk fs. rewrite bind_run. specialize (Hm fs).
  destruct (outcome_of (m fs)) as [a|e]; [|exact Hm].
  apply Forall_app. split; [exact Hm | apply Hk].
Qed.

Lemma emits_try {A} (body handler : M A) :
  emits P body -> emits P handler ->
  emits P (try_except_RuntimeError body handler).
Proof.
  intros Hb Hh fs. rewrite try_run. specialize (Hb fs).
  destruct (outcome_of (body fs)) as [a|[]]; try exact Hb.
  apply Forall_app. split; [exact Hb | apply Hh].
Qed.

Hypothesis P_print : forall t, P (EvPrint t) = true.

Lemma emits_print args : emits P (print args).
Proof. apply emits_emit, P_print. Qed.

Lemma emits_echo tag text : emits P (MainPy.echo tag text).
Proof.
  unfold MainPy.echo. destruct (Py.truthy _);
    [apply emits_print | apply emits_ret].
Qed.

Lemma emits_exists_now p : emits P (exists_now p).
Proof. apply emits_reading. Qed.

Lemma emits_require_tools tools : emits P (MainPy.require_tools tools).
Proof.
  induction tools as [|[p label] tools IH]; simpl.
  - apply emits_ret.
  - apply emits_bind; [apply emits_exists_now|].
    intros [|]; [exact IH | apply emits_raise].
Qed.

Lemma emits_check_inputs pdf exe ms plugin :
  emits P (MainPy.check_inputs pdf exe ms plugin).
Proof.
  unfold MainPy.check_inputs.
  apply emits_bind; [apply emits_exists_now|].
  intros [|]; cbn [negb]; [apply emits_require_tools | apply emits_raise].
Qed.

Lemma emits_check_outputs mxl pdf : emits P (MainPy.check_outputs mxl pdf).
Proof.
  unfold MainPy.check_outputs.
  apply emits_bind; [apply emits_exists_now|].
  intros [|]; cbn [negb]; [|apply emits_raise].
  apply emits_bind; [apply emits_exists_now|].
  intros [|]; cbn [negb]; [|apply emits_raise].
  repeat (apply emits_bind; [apply emits_print | intros _]).
  apply emits_print.
Qed.

Variable h : host.

Hypothesis P_mkdir : forall q, P (EvMkdir q) = true.

Lemma emits_try_except {A} (body : M A) (handler : exn -> M A) :
  emits P body -> (forall e, emits P (handler e)) ->
  emits P (try_except body handler).
Proof.
  intros Hb Hh fs. rewrite try_except_run. specialize (Hb fs).
  destruct (outcome_of (body fs)) as [a|e]; [exact Hb|].
  apply Forall_app. split; [exact Hb | apply Hh].
Qed.

Lemma emits_os_mkdir p : emits P (os_mkdir h p).
Proof.
  intros fs. unfold os_mkdir, trace_of.
  destruct (lookup_parent fs p); [|destruct (occupied fs p)]; simpl;
    repeat constructor. apply P_mkdir.
Qed.

Lemma emits_unless_directory p e : emits P (unless_directory p e).
Proof.
  intros fs. unfold unless_directory, trace_of.
  destruct (is_directory fs p); constructor.
Qed.

Lemma emits_mkdir_exist_ok p : emits P (mkdir_exist_ok h p).
Proof.
  apply emits_try_except; [apply emits_os_mkdir|].
  intros e. destruct (is_FileNotFoundError e);
    [apply emits_raise | apply emits_unless_directory].
Qed.

Lemma emits_mkdir_up rev_parts : emits P (mkdir_up h rev_parts).
Proof.
  induction rev_parts as [|c above IH]; cbn [mkdir_up];
    (apply emits_try_except; [apply emits_os_mkdir|]);
    intros e; destruct (is_FileNotFoundError e);
    try apply emits_raise; try apply emits_unless_directory.
  apply emits_bind; [exact IH | intros _; apply emits_mkdir_exist_ok].
Qed.

Lemma emits_mkdir_parents p : emits P (mkdir_parents h p).
Proof. apply emits_mkdir_up. Qed.

Hypothesis P_write : forall p t, P (EvWriteText p t) = true.

Lemma emits_write_text p text : emits P (write_text h p text).
Proof.
  intros fs. unfold write_text, trace_of.
  destruct (lookup_parent fs p);
    [|destruct (is_directory fs p); [|destruct (exists_ fs p)]]; simpl;
    repeat constructor; apply P_write.
Qed.

Lemma emits_subprocess_run cmd cwd :
  (forall rc, P (EvSpawn cmd cwd rc) = true) ->
  emits P (subprocess_run h cmd cwd).
Proof.
  intros Hs fs. unfold subprocess_run, trace_of.
  destruct (spawn h cmd cwd fs) as [fs' p]. simpl.
  repeat constructor. apply Hs.
Qed.

Lemma emits_run_cmd cmd cwd :
  (forall rc, P (EvSpawn cmd cwd rc) = true) ->
  emits P (MainPy.run_cmd h cmd cwd).
Proof.
  intros Hs. unfold MainPy.run_cmd.
  apply emits_bind; [apply emits_print | intros _].
  apply emits_bind; [apply emits_subprocess_run, Hs | intros p].
  apply emits_bind; [apply emits_echo | intros _].
  apply emits_bind; [apply emits_echo | intros _].
  destruct (returncode p =? 0); [apply emits_ret | apply emits_raise].
Qed.

Lemma emits_single_pass aud_out : emits P (MainPy.single_pass aud_out).
Proof.
  unfold MainPy.single_pass.
  apply emits_bind; [apply emits_reading | intros exported].
  apply emits_bind; [apply emits_print | intros _]. apply emits_ret.
Qed.

Lemma emits_two_pass exe aud_out no_opus :
  (forall cmd rc, P (EvSpawn cmd None rc) = true) ->
  emits P (MainPy.two_pass h exe aud_out no_opus).
Proof.
  intros Hs. unfold MainPy.two_pass.
  apply emits_bind; [apply emits_reading | intros book].
  apply emits_bind; [apply emits_print | intros _].
  apply emits_bind; [apply emits_run_cmd; intros; apply Hs | intros _].
  apply emits_bind; [apply emits_reading | intros exported].
  apply emits_bind; [apply emits_print | intros _]. apply emits_ret.
Qed.

Lemma emits_audiveris exe aud_out pdf force no_opus :
  (forall cmd rc, P (EvSpawn cmd None rc) = true) ->
  emits P (MainPy.audiveris h exe aud_out pdf force no_opus).
Proof.
  intros Hs. unfold MainPy.audiveris.
  apply emits_bind; [apply emits_run_cmd; intros; apply Hs | intros _].
  apply emits_try; [apply emits_single_pass | apply emits_two_pass, Hs].
Qed.

Lemma emits_build_job_json job score mxl pdf plugin :
  emits P (MainPy.build_job_json h job score mxl pdf plugin).
Proof. apply emits_write_text. Qed.

End Emits.

(** ** The process invoker *)

Lemma echo_run tag text fs :
  MainPy.echo tag text fs = (Ok tt, fs, echo_events tag text).
Proof.
  unfold MainPy.echo, echo_events.
  destruct (Py.truthy (Py.strip text)); reflexivity.
Qed.

Lemma run_cmd_run h cmd cwd fs :
  MainPy.run_cmd h cmd cwd fs =
  (if returncode (snd (spawn h cmd cwd fs)) =? 0 then Ok tt
   else Raise (RuntimeError
                 (MainPy.fail_msg (returncode (snd (spawn h cmd cwd fs))))),
   fst (spawn h cmd cwd fs),
   [EvPrint (Py.join " " [newline +:+ "[RUN]"; Py.join " " cmd]);
    EvSpawn cmd cwd (returncode (snd (spawn h cmd cwd fs)))]
   ++ captured_echo h (snd (spawn h cmd cwd fs))).
Proof.
  unfold MainPy.run_cmd, bind, print, emit, subprocess_run, captured_echo.
  destruct (spawn h cmd cwd fs) as [fs1 p]. simpl fst. simpl snd.
  rewrite !echo_run.
  destruct (returncode p =? 0); unfold ret, raise; cbn [app];
    rewrite app_nil_r; reflexivity.
Qed.

Lemma echo_events_winding_down tag text :
  Py.startswith "[STD" tag = true ->
  tag = "[STDOUT]" \/ tag = "[STDERR]" ->
  Forall (fun ev => winding_down ev = true) (echo_events tag text).
Proof.
  intros _ Htag. unfold echo_events.
  destruct (Py.truthy _); [|constructor].
  repeat constructor.
  destruct Htag as [-> | ->]; reflexivity.
Qed.

Lemma captured_echo_winding_down h p :
  Forall (fun ev => winding_down ev = true) (captured_echo h p).
Proof.
  apply Forall_app. split; apply echo_events_winding_down; auto.
Qed.

Lemma append_inj_l p a b : p +:+ a = p +:+ b -> a = b.
Proof.
  induction p as [|c p IH]; simpl_append; [auto|].
  intros [= H]. auto.
Qed.

(** The message of a failed command determines the exit status. *)
Lemma fail_msg_inj rc rc' :
  MainPy.fail_msg rc = MainPy.fail_msg rc' -> rc = rc'.
Proof.
  unfold MainPy.fail_msg, Py.str_of_int. intros H.
  apply append_inj_l in H.
  assert (Hi : Z.to_int rc = Z.to_int rc').
  { pose proof (NilEmpty.isi (Z.to_int rc)) as H1.
    pose proof (NilEmpty.isi (Z.to_int rc')) as H2.
    rewrite H in H1. congruence. }
  rewrite <- (DecimalZ.of_to rc), <- (DecimalZ.of_to rc'), Hi. reflexivity.
Qed.

(** ** Failing fast *)

Lemma fail_fast_run_quiet evs x :
  Forall (fun ev => not_spawn ev = true) evs -> fail_fast_run evs x.
Proof.
  intros Hq pre cmd cwd rc post Heq _. exfalso.
  rewrite Heq in Hq. apply Forall_app in Hq as [_ Hq].
  inversion Hq as [|? ? Hs _]. discriminate Hs.
Qed.

Lemma fail_fast_quiet {A} (m : M A) : emits not_spawn m -> fail_fast m.
Proof. intros Hm fs. apply fail_fast_run_quiet, Hm. Qed.

Lemma fail_fast_bind {A B} (m : M A) (k : A -> M B) :
  fail_fast m -> (forall a, fail_fast (k a)) -> fail_fast (bind m k).
Proof.
  intros Hm Hk fs. rewrite bind_run. specialize (Hm fs).
  destruct (outcome_of (m fs)) as [a|e]; [|exact Hm].
  unfold trace_of at 1, outcome_of at 1. simpl.
  intros pre cmd cwd rc post Heq Hrc.
  apply app_eq_middle in Heq as [(post1 & H1 & _) | (pre2 & _ & H2)].
  - destruct (Hm _ _ _ _ _ H1 Hrc) as [Habs _]. discriminate Habs.
  - exact (Hk a _ _ _ _ _ _ H2 Hrc).
Qed.

Lemma fail_fast_try {A} (body handler : M A) :
  emits not_spawn body -> fail_fast handler ->
  fail_fast (try_except_RuntimeError body handler).
Proof.
  intros Hb Hh fs. rewrite try_run. specialize (Hb fs).
  destruct (outcome_of (body fs)) as [a|[]];
    try (apply fail_fast_run_quiet; exact Hb).
  unfold trace_of at 1, outcome_of at 1. simpl.
  intros pre cmd cwd rc post Heq Hrc.
  apply app_eq_middle in Heq as [(post1 & H1 & _) | (pre2 & _ & H2)].
  - exfalso. rewrite H1 in Hb. apply Forall_app in Hb as [_ Hb].
    inversion Hb as [|? ? Hs _]. discriminate Hs.
  - exact (Hh _ _ _ _ _ _ H2 Hrc).
Qed.

Lemma fail_fast_run_cmd h cmd cwd : fail_fast (MainPy.run_cmd h cmd cwd).
Proof.
  intros fs. rewrite run_cmd_run.
  unfold trace_of, outcome_of. simpl fst. simpl snd.
  intros pre c d rc post Heq Hrc.
  destruct pre as [|e0 pre]; [discriminate|].
  injection Heq as _ Heq.
  destruct pre as [|e1 pre].
  - injection Heq as <- <- <- <-.
    apply Z.eqb_neq in Hrc. rewrite Hrc. split; [reflexivity|].
    apply captured_echo_winding_down.
  - injection Heq as _ Heq. exfalso.
    pose proof (captured_echo_winding_down h (snd (spawn h cmd cwd fs))) as Hw.
    rewrite Heq in Hw. apply Forall_app in Hw as [_ Hw].
    inversion Hw as [|? ? Hs _]. discriminate Hs.
Qed.

Lemma fail_fast_with {A} h prefix (body : path -> M A) :
  (forall tmp, fail_fast (body tmp)) ->
  fail_fast (with_TemporaryDirectory h prefix body).
Proof.
  intros Hb fs. unfold with_TemporaryDirectory.
  specialize (Hb (mkdtemp h prefix fs)
                 (create (new_directory h fs (mkdtemp h prefix fs)) fs)).
  destruct (body _ _) as [[r fs'] evs].
  unfold trace_of, outcome_of in *. simpl in *.
  intros pre cmd cwd rc post Heq Hrc.
  destruct pre as [|e0 pre]; [discriminate|].
  injection Heq as _ Heq.
  apply app_eq_middle in Heq as [(post1 & H1 & ->) | (pre2 & _ & H2)].
  - destruct (Hb _ _ _ _ _ H1 Hrc) as [Hr Hw]. split; [exact Hr|].
    apply Forall_app. split; [exact Hw|]. repeat constructor.
  - exfalso. destruct pre2 as [|? [|]]; discriminate.
Qed.

Lemma fail_fast_audiveris h exe aud_out pdf force no_opus :
  fail_fast (MainPy.audiveris h exe aud_out pdf force no_opus).
Proof.
  unfold MainPy.audiveris.
  apply fail_fast_bind; [apply fail_fast_run_cmd | intros _].
  apply fail_fast_try.
  - apply emits_single_pass. reflexivity.
  - unfold MainPy.two_pass.
    apply fail_fast_bind;
      [apply fail_fast_quiet, emits_reading | intros book].
    apply fail_fast_bind;
      [apply fail_fast_quiet, emits_print; reflexivity | intros _].
    apply fail_fast_bind; [apply fail_fast_run_cmd | intros _].
    apply fail_fast_quiet.
    apply emits_bind; [apply emits_reading | intros exported].
    apply emits_bind; [apply emits_print; reflexivity | intros _].
    apply emits_ret.
Qed.

Lemma fail_fast_workspace_body h exe ms plugin pdf mxl pdf_out force no_opus tmp :
  fail_fast
    (MainPy.workspace_body h exe ms plugin pdf mxl pdf_out force no_opus tmp).
Proof.
  unfold MainPy.workspace_body.
  apply fail_fast_bind;
    [apply fail_fast_quiet, emits_mkdir_parents; reflexivity | intros _].
  apply fail_fast_bind; [apply fail_fast_audiveris | intros exported].
  apply fail_fast_bind;
    [apply fail_fast_quiet, emits_build_job_json; reflexivity | intros _].
  apply fail_fast_run_cmd.
Qed.

Lemma fail_fast_main h a : fail_fast (MainPy.main h a).
Proof.
  unfold MainPy.main.
  apply fail_fast_bind;
    [apply fail_fast_quiet, emits_check_inputs; reflexivity | intros _].
  apply fail_fast_bind;
    [apply fail_fast_quiet, emits_mkdir_parents; reflexivity | intros _].
  apply fail_fast_bind;
    [apply fail_fast_quiet, emits_mkdir_parents; reflexivity | intros _].
  apply fail_fast_bind.
  - apply fail_fast_with. intros tmp. apply fail_fast_workspace_body.
  - intros _. apply fail_fast_quiet, emits_check_outputs. reflexivity.
Qed.

(** ** The scoped workspace *)

Lemma with_run {A} h prefix (body : path -> M A) fs :
  with_TemporaryDirectory h prefix body fs =
  let tmp := mkdtemp h prefix fs in
  let res := body tmp (create (new_directory h fs tmp) fs) in
  (outcome_of res, rmtree h tmp (fs_of res),
   EvMkdtemp tmp :: trace_of res ++ [EvRmtree tmp]).
Proof.
  unfold with_TemporaryDirectory, outcome_of, fs_of, trace_of.
  destruct (body _ _) as [[r fs'] evs]. reflexivity.
Qed.

Lemma touch_path d now e : e_path (touch d now e) = e_path e.
Proof.
  unfold touch. destruct (e_kind e); [reflexivity|].
  destruct (path_eqb (e_path e) d); reflexivity.
Qed.

Lemma touch_kind d now e : e_kind (touch d now e) = e_kind e.
Proof.
  unfold touch. destruct (e_kind e) eqn:Hk; [exact Hk|].
  destruct (path_eqb (e_path e) d); [reflexivity | exact Hk].
Qed.

Lemma rmtree_clears h tmp fs e :
  In e (rmtree h tmp fs) -> inside tmp (e_path e) = false.
Proof.
  unfold rmtree. intros Hin.
  assert (Hleft : forall x,
            In x (List.filter (fun e => negb (inside tmp (e_path e))) fs) ->
            inside tmp (e_path x) = false).
  { intros x Hx. apply List.filter_In in Hx as [_ H].
    apply negb_true_iff. exact H. }
  destruct (exists_ fs tmp); [|exact (Hleft e Hin)].
  apply in_map_iff in Hin as (x & <- & Hx).
  rewrite touch_path. exact (Hleft x Hx).
Qed.

Lemma emits_not_in {A} (P : event -> bool) (m : M A) fs ev :
  emits P m -> P ev = false -> ~ In ev (trace_of (m fs)).
Proof.
  intros Hm Hev Hin. specialize (Hm fs).
  rewrite List.Forall_forall in Hm. apply Hm in Hin. congruence.
Qed.

Lemma read_only_check_outputs mxl pdf : read_only (MainPy.check_outputs mxl pdf).
Proof.
  intros fs. unfold MainPy.check_outputs, bind, exists_now, reading, fs_of.
  cbn [fst snd]. destruct (exists_ fs mxl); cbn [negb]; [|reflexivity].
  destruct (exists_ fs pdf); reflexivity.
Qed.

Lemma no_mkdtemp_workspace_body h exe ms plugin pdf mxl pdf_out force no_opus tmp :
  emits not_mkdtemp
    (MainPy.workspace_body h exe ms plugin pdf mxl pdf_out force no_opus tmp).
Proof.
  unfold MainPy.workspace_body.
  apply emits_bind; [apply emits_mkdir_parents; reflexivity | intros _].
  apply emits_bind; [apply emits_audiveris; reflexivity | intros exported].
  apply emits_bind; [apply emits_build_job_json; reflexivity | intros _].
  apply emits_run_cmd; reflexivity.
Qed.

Lemma released_quiet {A} (m : M A) fs :
  emits not_mkdtemp m -> workspace_released (m fs).
Proof.
  intros Hm tmp Hin. exfalso.
  eapply emits_not_in; [exact Hm | | exact Hin]. reflexivity.
Qed.

Lemma released_after {A B} (m : M A) (k : A -> M B) fs :
  emits not_mkdtemp m ->
  (forall a s, workspace_released (k a s)) ->
  workspace_released (bind m k fs).
Proof.
  intros Hm Hk. rewrite bind_run.
  pose proof (released_quiet m fs Hm) as Hq.
  destruct (outcome_of (m fs)) as [a|e]; [|exact Hq].
  intros tmp. project. rewrite !in_app_iff. intros [Hin | Hin].
  - exfalso. eapply emits_not_in; [exact Hm | | exact Hin]. reflexivity.
  - destruct (Hk a _ tmp Hin) as [Hr Hc]. split; [right; exact Hr | exact Hc].
Qed.

Lemma released_before {A B} (m : M A) (k : A -> M B) fs :
  workspace_released (m fs) ->
  (forall a, emits not_mkdtemp (k a)) ->
  (forall a, read_only (k a)) ->
  workspace_released (bind m k fs).
Proof.
  intros Hm Hk Hro. rewrite bind_run.
  destruct (outcome_of (m fs)) as [a|e]; [|exact Hm].
  intros tmp. project. rewrite Hro, !in_app_iff. intros [Hin | Hin].
  - destruct (Hm tmp Hin) as [Hr Hc]. split; [left; exact Hr | exact Hc].
  - exfalso. eapply emits_not_in; [apply Hk | | exact Hin]. reflexivity.
Qed.

(** The [with] block removes its directory however its body ends. *)
Lemma released_with {A} h prefix (body : path -> M A) fs :
  (forall t, emits not_mkdtemp (body t)) ->
  workspace_released (with_TemporaryDirectory h prefix body fs).
Proof.
  intros Hb. rewrite with_run. cbv zeta.
  set (t := mkdtemp h prefix fs). set (res := body t _).
  intros tmp. project. intros [[= ->] | Hin].
  - split.
    + right. apply in_app_iff. right. left. reflexivity.
    + intros e. apply rmtree_clears.
  - exfalso. apply in_app_iff in Hin as [Hin | [Hin | []]]; [|discriminate].
    eapply emits_not_in; [apply (Hb t) | | exact Hin]. reflexivity.
Qed.

(** Once [main] has acquired its workspace, the workspace is removed by
    the time [main] ends, however it ends. *)
Lemma main_workspace_released h a fs :
  workspace_released (MainPy.main h a fs).
Proof.
  unfold MainPy.main.
  apply released_after; [apply emits_check_inputs; reflexivity | intros _ s0].
  apply released_after; [apply emits_mkdir_parents; reflexivity | intros _ s1].
  apply released_after; [apply emits_mkdir_parents; reflexivity | intros _ s2].
  apply released_before.
  - apply released_with. intros t. apply no_mkdtemp_workspace_body.
  - intros _. apply emits_check_outputs. reflexivity.
  - intros _. apply read_only_check_outputs.
Qed.

Lemma raised_some {A} (r : outcome A) e : raised r = Some e -> r = Raise e.
Proof. destruct r; simpl; congruence. Qed.

Lemma spawned_app a b : spawned (a ++ b) = spawned a ++ spawned b.
Proof.
  induction a as [|[] a IH]; simpl; try exact IH; [reflexivity|].
  rewrite IH. reflexivity.
Qed.

Lemma spawned_winding_down evs :
  Forall (fun ev => winding_down ev = true) evs -> spawned evs = [].
Proof.
  induction 1 as [|[] evs Hev _ IH]; simpl; auto. discriminate Hev.
Qed.

Lemma spawned_echo h p : spawned (captured_echo h p) = [].
Proof. apply spawned_winding_down, captured_echo_winding_down. Qed.

(** C5.  In every run of [main]: a child process that exits with a
    non-zero status makes [main] end with the [RuntimeError] of that
    status, and after that process the trace holds nothing but the echo
    of its captured output and the removal of the workspace; and a
    workspace that was acquired is removed by the end of the run,
    whether the run succeeded or failed. *)
Theorem main_stops_and_cleans_up h a fs :
  (forall pre cmd cwd rc post,
     trace_of (MainPy.main h a fs) = pre ++ EvSpawn cmd cwd rc :: post ->
     rc <> 0 ->
     outcome_of (MainPy.main h a fs)
     = Raise (RuntimeError (MainPy.fail_msg rc))
     /\ Forall (fun ev => winding_down ev = true) post)
  /\ (forall tmp,
        In (EvMkdtemp tmp) (trace_of (MainPy.main h a fs)) ->
        In (EvRmtree tmp) (trace_of (MainPy.main h a fs))
        /\ forall e, In e (fs_of (MainPy.main h a fs)) ->
                     inside tmp (e_path e) = false).
Proof.
  split.
  - intros pre cmd cwd rc post Heq Hrc.
    destruct (fail_fast_main h a fs _ _ _ _ _ Heq Hrc) as [Hr Hw].
    split; [apply raised_some; exact Hr | exact Hw].
  - apply main_workspace_released.
Qed.

(** C6.  [run_cmd] returns normally when the child process
    exits with status zero.  When it exits with another status,
    [run_cmd] raises a [RuntimeError] whose message is built from the
    exit status alone, and determines it; the command is printed on the
    [[RUN]] line and is not part of the error.  In [main] such a failure
    ends the run with that error and no process is started after it. *)
Theorem run_cmd_exit_status h cmd cwd fs :
  let p := snd (spawn h cmd cwd fs) in
  (returncode p = 0 -> outcome_of (MainPy.run_cmd h cmd cwd fs) = Ok tt)
  /\ (returncode p <> 0 ->
      outcome_of (MainPy.run_cmd h cmd cwd fs)
      = Raise (RuntimeError ("Command failed with exit code " +:+
                             Py.str_of_int (returncode p))))
  /\ (forall rc rc', MainPy.fail_msg rc = MainPy.fail_msg rc' -> rc = rc')
  /\ In (EvPrint (Py.join " " [newline +:+ "[RUN]"; Py.join " " cmd]))
        (trace_of (MainPy.run_cmd h cmd cwd fs))
  /\ (forall a fs0 pre c d rc post,
        trace_of (MainPy.main h a fs0) = pre ++ EvSpawn c d rc :: post ->
        rc <> 0 ->
        outcome_of (MainPy.main h a fs0)
        = Raise (RuntimeError (MainPy.fail_msg rc))
        /\ spawned post = []).
Proof.
  cbv zeta. rewrite run_cmd_run. project.
  split; [|split; [|split; [|split]]].
  - intros ->. reflexivity.
  - intros Hrc. apply Z.eqb_neq in Hrc. rewrite Hrc. reflexivity.
  - apply fail_msg_inj.
  - left. reflexivity.
  - intros a fs0 pre c d rc post Heq Hrc.
    destruct (fail_fast_main h a fs0 _ _ _ _ _ Heq Hrc) as [Hr Hw].
    split; [apply raised_some; exact Hr | apply spawned_winding_down, Hw].
Qed.

(** ** The export strategy *)

Lemma single_pass_run aud_out fs :
  MainPy.single_pass aud_out fs =
  match newest_export fs aud_out with
  | Ok exported =>
      (Ok exported, fs,
       [EvPrint (Py.join " " ["[INFO] Audiveris export (single-pass): "
                              +:+ str_of_path exported])])
  | Raise e => (Raise e, fs, [])
  end.
Proof.
  unfold MainPy.single_pass, bind, reading, print, emit, ret.
  destruct (newest_export fs aud_out); reflexivity.
Qed.

Lemma two_pass_run h exe aud_out no_opus fs :
  MainPy.two_pass h exe aud_out no_opus fs =
  match newest_omr_book fs aud_out with
  | Raise e => (Raise e, fs, [])
  | Ok book =>
      let cmd2 := MainPy.aud_cmd_2 exe aud_out book no_opus in
      let fs2 := fst (spawn h cmd2 None fs) in
      let p2 := snd (spawn h cmd2 None fs) in
      let evs :=
        EvPrint (Py.join " " ["[INFO] Audiveris book found: "
                              +:+ str_of_path book])
        :: EvPrint (Py.join " " [newline +:+ "[RUN]"; Py.join " " cmd2])
        :: EvSpawn cmd2 None (returncode p2) :: captured_echo h p2 in
      if returncode p2 =? 0 then
        match newest_export fs2 aud_out with
        | Ok exported =>
            (Ok exported, fs2,
             evs ++ [EvPrint (Py.join " "
                        ["[INFO] Audiveris export (two-pass): "
                         +:+ str_of_path exported])])
        | Raise e => (Raise e, fs2, evs)
        end
      else (Raise (RuntimeError (MainPy.fail_msg (returncode p2))), fs2, evs)
  end.
Proof.
  unfold MainPy.two_pass, bind, reading, print, emit, ret.
  destruct (newest_omr_book fs aud_out) as [book|e]; [|reflexivity].
  rewrite run_cmd_run. cbv zeta.
  destruct (returncode _ =? 0); [|reflexivity].
  destruct (newest_export _ aud_out); cbn [app]; rewrite ?app_nil_r;
    reflexivity.
Qed.

(** C1.  After a successful transcription pass, the engine is run a
    second time exactly when the lookup of an exported score fails and a
    project book is found.  If the lookup succeeds, its result is the
    export and only the first command was run.  If it fails and no book
    is found, the [RuntimeError] of the book lookup ends the pipeline
    and only the first command was run.  Otherwise the second command is
    the export command for the newest book, with the OPUS option unless
    [no_opus] is set, and the export is what the lookup returns on the
    file system left by that command. *)
Theorem audiveris_export_strategy h exe aud_out pdf force no_opus fs :
  let cmd1 := MainPy.aud_cmd_1 exe aud_out pdf force in
  let fs1 := fst (spawn h cmd1 None fs) in
  let run := MainPy.audiveris h exe aud_out pdf force no_opus fs in
  returncode (snd (spawn h cmd1 None fs)) = 0 ->
  match newest_export fs1 aud_out with
  | Ok exported =>
      outcome_of run = Ok exported /\ fs_of run = fs1
      /\ spawned (trace_of run) = [cmd1]
  | Raise _ =>
      match newest_omr_book fs1 aud_out with
      | Raise e =>
          outcome_of run = Raise e
          /\ e = RuntimeError (no_book_msg fs1 aud_out)
          /\ spawned (trace_of run) = [cmd1]
      | Ok book =>
          let cmd2 :=
            [str_of_path exe; "-batch"; "-export"; "-output";
             str_of_path aud_out]
            ++ (if no_opus then []
                else ["-option";
                      "org.audiveris.omr.sheet.BookManager.useOpus=true"])
            ++ [str_of_path book] in
          let fs2 := fst (spawn h cmd2 None fs1) in
          let rc2 := returncode (snd (spawn h cmd2 None fs1)) in
          spawned (trace_of run) = [cmd1; cmd2]
          /\ fs_of run = fs2
          /\ In book (rglob fs1 aud_out "*.omr")
          /\ (forall b, In b (rglob fs1 aud_out "*.omr") ->
                        mtime_of fs1 b <= mtime_of fs1 book)
          /\ outcome_of run
             = (if rc2 =? 0 then newest_export fs2 aud_out
                else Raise (RuntimeError (MainPy.fail_msg rc2)))
      end
  end.
Proof.
  cbv zeta. intros Hrc. unfold MainPy.audiveris.
  rewrite bind_run, run_cmd_run. project. rewrite Hrc.
  change (0 =? 0) with true. cbv iota.
  set (cmd1 := MainPy.aud_cmd_1 exe aud_out pdf force).
  set (fs1 := fst (spawn h cmd1 None fs)).
  rewrite try_run, single_pass_run.
  destruct (newest_export_cases fs1 aud_out) as [(p & Hp & _) | [_ Hp]];
    rewrite Hp; project.
  - rewrite !spawned_app, spawned_echo. simpl. auto.
  - rewrite two_pass_run.
    destruct (newest_omr_book_cases fs1 aud_out)
      as [(b & Hb & Hin & Hmax) | [_ Hb]];
      rewrite Hb; project.
    + cbv zeta.
      change (MainPy.aud_cmd_2 exe aud_out b no_opus)
        with ([str_of_path exe; "-batch"; "-export"; "-output";
               str_of_path aud_out]
              ++ (if no_opus then [] else MainPy.opus_option)
              ++ [str_of_path b]).
      unfold MainPy.opus_option.
      set (cmd2 := _ ++ _ ++ [str_of_path b]).
      assert (Hsp : forall tail,
                spawned tail = [] ->
                spawned
                  (([EvPrint (Py.join " " [newline +:+ "[RUN]";
                                           Py.join " " cmd1]);
                     EvSpawn cmd1 None 0]
                    ++ captured_echo h (snd (spawn h cmd1 None fs)))
                   ++ (EvPrint (Py.join " "
                                  ["[INFO] Audiveris book found: "
                                   +:+ str_of_path b])
                       :: EvPrint (Py.join " " [newline +:+ "[RUN]";
                                                Py.join " " cmd2])
                       :: EvSpawn cmd2 None
                            (returncode (snd (spawn h cmd2 None fs1)))
                       :: captured_echo h (snd (spawn h cmd2 None fs1)))
                      ++ tail)
                = [cmd1; cmd2]).
      { intros tail Ht. rewrite !spawned_app. cbn [spawned app].
        rewrite ?spawned_app, !spawned_echo, Ht. reflexivity. }
      destruct (returncode (snd (spawn h cmd2 None fs1)) =? 0).
      * destruct (newest_export (fst (spawn h cmd2 None fs1)) aud_out);
          project; (split; [|auto]).
        -- rewrite <- app_assoc. rewrite app_assoc. apply Hsp. reflexivity.
        -- rewrite <- (app_nil_r (_ :: _ :: _ :: captured_echo _ _)).
           apply Hsp. reflexivity.
      * project. split; [|auto].
        rewrite <- (app_nil_r (_ :: _ :: _ :: captured_echo _ _)).
        apply Hsp. reflexivity.
    + rewrite app_nil_r, !spawned_app, spawned_echo. simpl. auto.
Qed.

(** ** The final validation *)

Lemma check_outputs_run mxl pdf fs :
  outcome_of (MainPy.check_outputs mxl pdf fs) =
  if negb (exists_ fs mxl)
  then Raise (SystemExit ("Output MXL not created: " +:+ str_of_path mxl))
  else if negb (exists_ fs pdf)
  then Raise (SystemExit ("Output PDF not created: " +:+ str_of_path pdf))
  else Ok tt.
Proof.
  unfold MainPy.check_outputs, bind, exists_now, reading, print, emit, raise.
  destruct (exists_ fs mxl); cbn [negb]; [|reflexivity].
  destruct (exists_ fs pdf); reflexivity.
Qed.

(** An event that [m] never emits belongs to the continuation. *)
Lemma bind_after_quiet {A B} P ev (m : M A) (k : A -> M B) fs :
  emits P m -> P ev = false ->
  In ev (trace_of (bind m k fs)) ->
  exists a s,
    In ev (trace_of (k a s))
    /\ outcome_of (bind m k fs) = outcome_of (k a s)
    /\ fs_of (bind m k fs) = fs_of (k a s).
Proof.
  intros Hm Hev. rewrite bind_run.
  destruct (outcome_of (m fs)) as [a|e]; project.
  - intros Hin. apply in_app_iff in Hin as [Hin | Hin].
    + exfalso. exact (emits_not_in P m fs ev Hm Hev Hin).
    + exists a, (fs_of (m fs)). auto.
  - intros Hin. exfalso. exact (emits_not_in P m fs ev Hm Hev Hin).
Qed.

Lemma run_cmd_returned h cmd cwd fs c d :
  In (EvSpawn c (Some d) 0) (trace_of (MainPy.run_cmd h cmd cwd fs)) ->
  outcome_of (MainPy.run_cmd h cmd cwd fs) = Ok tt.
Proof.
  rewrite run_cmd_run. project.
  intros [Hin | [Hin | Hin]]; [discriminate | |].
  - injection Hin as _ _ ->. reflexivity.
  - exfalso.
    pose proof (captured_echo_winding_down h (snd (spawn h cmd cwd fs))) as Hw.
    rewrite List.Forall_forall in Hw. apply Hw in Hin. discriminate Hin.
Qed.

Lemma workspace_body_returned h exe ms plugin pdf mxl pdf_out force no_opus
    tmp fs c d :
  let run := MainPy.workspace_body h exe ms plugin pdf mxl pdf_out
               force no_opus tmp fs in
  In (EvSpawn c (Some d) 0) (trace_of run) -> outcome_of run = Ok tt.
Proof.
  cbv zeta. unfold MainPy.workspace_body. intros Hin.
  eapply (bind_after_quiet not_spawn_in_cwd) in Hin
    as (? & s0 & Hin & -> & _);
    [|apply emits_mkdir_parents; reflexivity | reflexivity].
  eapply (bind_after_quiet not_spawn_in_cwd) in Hin
    as (exported & s1 & Hin & -> & _);
    [|apply emits_audiveris; reflexivity | reflexivity].
  eapply (bind_after_quiet not_spawn_in_cwd) in Hin
    as (? & s2 & Hin & -> & _);
    [|apply emits_build_job_json; reflexivity | reflexivity].
  eapply run_cmd_returned. exact Hin.
Qed.

(** C7.  When the notation editor, the one child process run
    in the workspace, has exited with status zero, [main] checks the
    requested outputs in order: if the MXL output does not exist it
    raises [SystemExit] naming that path alone, whether or not the PDF
    exists; otherwise, if the PDF output does not exist, it raises
    [SystemExit] naming the PDF path; otherwise it returns. *)
Theorem main_checks_outputs_in_order h a fs :
  let run := MainPy.main h a fs in
  let mxl := resolve h (MainPy.out_mxl a) in
  let pdf := resolve h (MainPy.out_pdf a) in
  (exists cmd tmp, In (EvSpawn cmd (Some tmp) 0) (trace_of run)) ->
  outcome_of run =
  if negb (exists_ (fs_of run) mxl)
  then Raise (SystemExit ("Output MXL not created: " +:+ str_of_path mxl))
  else if negb (exists_ (fs_of run) pdf)
  then Raise (SystemExit ("Output PDF not created: " +:+ str_of_path pdf))
  else Ok tt.
Proof.
  cbv zeta. intros (cmd & tmp & Hin). unfold MainPy.main in *.
  eapply (bind_after_quiet not_spawn_in_cwd) in Hin
    as (? & s0 & Hin & -> & ->);
    [|apply emits_check_inputs; reflexivity | reflexivity].
  eapply (bind_after_quiet not_spawn_in_cwd) in Hin
    as (? & s1 & Hin & -> & ->);
    [|apply emits_mkdir_parents; reflexivity | reflexivity].
  eapply (bind_after_quiet not_spawn_in_cwd) in Hin
    as (? & s2 & Hin & -> & ->);
    [|apply emits_mkdir_parents; reflexivity | reflexivity].
  revert Hin. rewrite bind_run, with_run. cbv zeta. project.
  set (t := mkdtemp h "omr_tmp_" s2).
  set (res := MainPy.workspace_body _ _ _ _ _ _ _ _ _ _ _).
  assert (Hbody : In (EvSpawn cmd (Some tmp) 0) (trace_of res) ->
                  outcome_of res = Ok tt).
  { apply workspace_body_returned. }
  destruct (outcome_of res) as [[]|e] eqn:Hres; project.
  - intros _. rewrite !read_only_check_outputs. apply check_outputs_run.
  - intros [Hin | Hin]; [discriminate|].
    apply in_app_iff in Hin as [Hin | [Hin | []]]; [|discriminate].
    apply Hbody in Hin. discriminate Hin.
Qed.

(** ** run.py: the configuration *)

Lemma contains_here needle s :
  Py.startswith needle s = true -> Py.contains needle s = true.
Proof. intros H. destruct s; simpl; rewrite H; reflexivity. Qed.

Lemma contains_later needle c s :
  Py.contains needle s = true -> Py.contains needle (String c s) = true.
Proof. intros H. simpl. rewrite H. apply orb_true_r. Qed.

Lemma missing_keys_msg_lists_all p k :
  In k required_keys -> Py.contains k (RunPy.missing_keys_msg p) = true.
Proof.
  unfold RunPy.missing_keys_msg.
  intros [<- | [<- | [<- | []]]]; simpl_append;
    repeat first [apply contains_here; reflexivity | apply contains_later].
Qed.

Lemma main_missing_config h a fs env :
  RunPy.load_dotenv fs (RunPy.dotenv_path h a) = Ok env ->
  RunPy.truthy (env !! "AUDIVERIS_EXE") && RunPy.truthy (env !! "MUSESCORE_EXE")
    && RunPy.truthy (env !! "JIANPU_QML") = false ->
  RunPy.main h a fs =
  (Raise (SystemExit (RunPy.missing_keys_msg (RunPy.dotenv_path h a))), fs, []).
Proof.
  intros Hload Hfalse. unfold RunPy.main, bind, reading.
  rewrite Hload, Hfalse. reflexivity.
Qed.

(** C4.  When the configuration read by [load_dotenv] lacks
    any of the three required keys, [main] of [run.py] raises
    [SystemExit] before anything else happens: the file system is
    untouched and no process is started.  The message is the same
    whichever keys are missing: it lists all three required keys and the
    resolved path of the configuration file. *)
Theorem missing_configuration_is_fatal h a fs env :
  RunPy.load_dotenv fs (RunPy.dotenv_path h a) = Ok env ->
  (exists k, In k required_keys /\ env !! k = None) ->
  RunPy.main h a fs =
  (Raise (SystemExit
     ("Missing one of these keys in .env:" +:+ newline +:+
      "  AUDIVERIS_EXE" +:+ newline +:+
      "  MUSESCORE_EXE" +:+ newline +:+
      "  JIANPU_QML" +:+ newline +:+
      "Loaded from: " +:+ str_of_path (RunPy.dotenv_path h a))),
   fs, [])
  /\ forall k, In k required_keys ->
       Py.contains k (RunPy.missing_keys_msg (RunPy.dotenv_path h a)) = true.
Proof.
  intros Hload (k & Hk & Hnone). split.
  - apply (main_missing_config h a fs env Hload).
    destruct Hk as [<- | [<- | [<- | []]]]; rewrite Hnone; simpl;
      rewrite ?andb_false_r; reflexivity.
  - intros k'. apply missing_keys_msg_lists_all.
Qed.

(** C10.  When the configuration file does not exist, [load_dotenv]
    returns the empty mapping instead of raising, and [main] of [run.py]
    ends with the missing-keys [SystemExit], whose message lists the
    required keys and the resolved path of the configuration file. *)
Theorem absent_dotenv_is_missing_keys h a fs :
  exists_ fs (RunPy.dotenv_path h a) = false ->
  RunPy.load_dotenv fs (RunPy.dotenv_path h a) = Ok ∅
  /\ RunPy.main h a fs =
     (Raise (SystemExit
        ("Missing one of these keys in .env:" +:+ newline +:+
         "  AUDIVERIS_EXE" +:+ newline +:+
         "  MUSESCORE_EXE" +:+ newline +:+
         "  JIANPU_QML" +:+ newline +:+
         "Loaded from: " +:+ str_of_path (RunPy.dotenv_path h a))),
      fs, []).
Proof.
  intros Habsent.
  assert (Hload : RunPy.load_dotenv fs (RunPy.dotenv_path h a) = Ok ∅).
  { unfold RunPy.load_dotenv. rewrite Habsent. reflexivity. }
  split; [exact Hload|].
  apply (main_missing_config h a fs ∅ Hload). reflexivity.
Qed.

(** ** The theorems at work on concrete runs *)

Lemma recognized_iff n :
  recognized n <->
  fnmatch "*.mxl" n || fnmatch "*.musicxml" n || fnmatch "*.xml" n = true.
Proof.
  unfold recognized. rewrite !orb_true_iff.
  change "*.mxl" with (String "*" ".mxl").
  change "*.musicxml" with (String "*" ".musicxml").
  change "*.xml" with (String "*" ".xml").
  rewrite !fnmatch_extension by reflexivity. tauto.
Qed.

Ltac distinct_paths :=
  repeat (apply List.NoDup_cons;
          [simpl; intros Hdup;
           repeat (destruct Hdup as [Hdup | Hdup]; [discriminate Hdup|]);
           exact Hdup
          |]);
  apply List.NoDup_nil.

Lemma newest_export_latest_witness :
  exists e,
    newest_export (rev Scenario.scores) Scenario.aud_out = Ok (e_path e) /\
    entry_below Scenario.scores Scenario.aud_out e /\
    recognized (name (e_path e)) /\
    forall c, entry_below Scenario.scores Scenario.aud_out c ->
              recognized (name (e_path c)) -> st_mtime c <= st_mtime e.
Proof.
  apply (newest_export_latest Scenario.scores (rev Scenario.scores)
           Scenario.aud_out).
  - distinct_paths.
  - apply Permutation_rev.
  - exists (Scenario.file (Scenario.aud_out ++ ["score"; "score.xml"]) 20).
    split; [split; [simpl; tauto | reflexivity]|].
    right. right. exists "score". reflexivity.
Defined.

Lemma newest_export_not_found_witness :
  newest_export Scenario.book_only Scenario.aud_out
  = Raise (RuntimeError
             "No MusicXML export found under: /tmp/omr_tmp_run1/audiveris_out").
Proof.
  apply (proj1 (newest_export_not_found Scenario.book_only Scenario.aud_out)).
  intros e [Hin Hbelow] Hrec. apply recognized_iff in Hrec.
  simpl in Hin.
  repeat (destruct Hin as [<- | Hin];
          [vm_compute in Hrec; vm_compute in Hbelow; congruence|]).
  exact Hin.
Defined.


Lemma newest_export_first_of_ties_witness :
  let p := Scenario.aud_out ++ ["score"; "score.mxl"] in
  exists before after,
    rglob Scenario.scores Scenario.aud_out "*.mxl"
      ++ rglob Scenario.scores Scenario.aud_out "*.musicxml"
      ++ rglob Scenario.scores Scenario.aud_out "*.xml" = before ++ p :: after
    /\ (forall q, In q before ->
                  mtime_of Scenario.scores q < mtime_of Scenario.scores p)
    /\ (forall q, In q after ->
                  mtime_of Scenario.scores q <= mtime_of Scenario.scores p)
    /\ (forall m, In m (rglob Scenario.scores Scenario.aud_out "*.mxl") ->
                  mtime_of Scenario.scores m = mtime_of Scenario.scores p ->
                  In p (rglob Scenario.scores Scenario.aud_out "*.mxl")).
Proof.
  apply (newest_export_first_of_ties Scenario.scores Scenario.aud_out).
  reflexivity.
Defined.

Lemma main_stops_and_cleans_up_witness :
  let run := MainPy.main (Scenario.machine true 3 []) Scenario.request
               Scenario.disk in
  outcome_of run = Raise (RuntimeError (MainPy.fail_msg 3))
  /\ Forall (fun ev => winding_down ev = true)
       [EvPrint ("[STDERR]" +:+ newline +:+ "plugin failed");
        EvRmtree Scenario.workspace]
  /\ In (EvRmtree Scenario.workspace) (trace_of run)
  /\ forall e, In e (fs_of run) ->
               inside Scenario.workspace (e_path e) = false.
Proof.
  cbv zeta.
  destruct (main_stops_and_cleans_up (Scenario.machine true 3 [])
              Scenario.request Scenario.disk) as [Hfail Hclean].
  split; [|split].
  - apply (Hfail
             (firstn 9 (trace_of (MainPy.main (Scenario.machine true 3 [])
                                    Scenario.request Scenario.disk)))
             ["/opt/mscore"; "-j"; "/tmp/omr_tmp_run1/job.json"]
             (Some Scenario.workspace) 3
             [EvPrint ("[STDERR]" +:+ newline +:+ "plugin failed");
              EvRmtree Scenario.workspace]);
      [vm_compute; reflexivity | discriminate].
  - apply (Hfail
             (firstn 9 (trace_of (MainPy.main (Scenario.machine true 3 [])
                                    Scenario.request Scenario.disk)))
             ["/opt/mscore"; "-j"; "/tmp/omr_tmp_run1/job.json"]
             (Some Scenario.workspace) 3
             [EvPrint ("[STDERR]" +:+ newline +:+ "plugin failed");
              EvRmtree Scenario.workspace]);
      [vm_compute; reflexivity | discriminate].
  - apply Hclean. vm_compute. tauto.
Defined.

Lemma run_cmd_exit_status_witness :
  outcome_of (MainPy.run_cmd (Scenario.exits_with 0)
                ["/opt/mscore"; "-j"; "job.json"] None Scenario.disk)
  = Ok tt
  /\ outcome_of (MainPy.run_cmd (Scenario.exits_with 2)
                   ["/opt/mscore"; "-j"; "job.json"] None Scenario.disk)
     = Raise (RuntimeError "Command failed with exit code 2")
  /\ (outcome_of (MainPy.main (Scenario.machine true 3 []) Scenario.request
                    Scenario.disk)
      = Raise (RuntimeError (MainPy.fail_msg 3))
      /\ spawned [EvPrint ("[STDERR]" +:+ newline +:+ "plugin failed");
                  EvRmtree Scenario.workspace] = []).
Proof.
  split; [|split].
  - apply (proj1 (run_cmd_exit_status (Scenario.exits_with 0)
                    ["/opt/mscore"; "-j"; "job.json"] None Scenario.disk)).
    reflexivity.
  - apply (proj1 (proj2 (run_cmd_exit_status (Scenario.exits_with 2)
                    ["/opt/mscore"; "-j"; "job.json"] None Scenario.disk))).
    discriminate.
  - apply (proj2 (proj2 (proj2 (proj2
             (run_cmd_exit_status (Scenario.machine true 3 []) [] None []))))
             Scenario.request Scenario.disk
             (firstn 9 (trace_of (MainPy.main (Scenario.machine true 3 [])
                                    Scenario.request Scenario.disk)))
             ["/opt/mscore"; "-j"; "/tmp/omr_tmp_run1/job.json"]
             (Some Scenario.workspace) 3);
      [vm_compute; reflexivity | discriminate].
Defined.

(** C6, counterexample to an error that carries the command: the error
    of a failed command is the same whatever the command was, and does
    not contain it. *)
Lemma run_cmd_error_omits_command :
  outcome_of (MainPy.run_cmd (Scenario.exits_with 2)
                ["/opt/audiveris"; "-batch"] None [])
  = Raise (RuntimeError "Command failed with exit code 2")
  /\ outcome_of (MainPy.run_cmd (Scenario.exits_with 2)
                   ["/opt/mscore"; "-j"; "job.json"] None [])
     = Raise (RuntimeError "Command failed with exit code 2")
  /\ Py.contains "/opt/audiveris" "Command failed with exit code 2" = false
  /\ Py.contains "/opt/mscore" "Command failed with exit code 2" = false.
Proof. repeat split. Qed.

Lemma audiveris_export_strategy_witness :
  let run := MainPy.audiveris (Scenario.machine false 0 [])
               ["opt"; "audiveris"] Scenario.aud_out ["in"; "score.pdf"]
               false false Scenario.staged in
  spawned (trace_of run)
  = [["/opt/audiveris"; "-batch"; "-transcribe"; "-output";
      "/tmp/omr_tmp_run1/audiveris_out"; "/in/score.pdf"];
     ["/opt/audiveris"; "-batch"; "-export"; "-output";
      "/tmp/omr_tmp_run1/audiveris_out"; "-option";
      "org.audiveris.omr.sheet.BookManager.useOpus=true";
      "/tmp/omr_tmp_run1/audiveris_out/score.omr"]]
  /\ outcome_of run = Ok (Scenario.aud_out ++ ["score.mxl"]).
Proof.
  generalize (audiveris_export_strategy (Scenario.machine false 0 [])
                ["opt"; "audiveris"] Scenario.aud_out ["in"; "score.pdf"]
                false false Scenario.staged eq_refl).
  vm_compute. intros (Hcmds & _ & _ & _ & Hout). split; assumption.
Defined.

Lemma main_checks_outputs_in_order_witness :
  outcome_of (MainPy.main (Scenario.machine true 0 [Scenario.wanted_mxl])
                Scenario.request Scenario.disk)
  = Raise (SystemExit "Output PDF not created: /out/score_jianpu.pdf").
Proof.
  etransitivity.
  - apply (main_checks_outputs_in_order
             (Scenario.machine true 0 [Scenario.wanted_mxl])
             Scenario.request Scenario.disk).
    exists ["/opt/mscore"; "-j"; "/tmp/omr_tmp_run1/job.json"],
           Scenario.workspace.
    vm_compute. tauto.
  - vm_compute. reflexivity.
Defined.

(** C7, counterexample to an error that names every missing output:
    the editor has returned, both outputs are absent, and the error
    names the MXL output only. *)
Lemma missing_pdf_goes_unreported :
  let run := MainPy.main (Scenario.machine true 0 []) Scenario.request
               Scenario.disk in
  In (EvSpawn ["/opt/mscore"; "-j"; "/tmp/omr_tmp_run1/job.json"]
              (Some Scenario.workspace) 0) (trace_of run)
  /\ exists_ (fs_of run) Scenario.wanted_mxl = false
  /\ exists_ (fs_of run) Scenario.wanted_pdf = false
  /\ outcome_of run
     = Raise (SystemExit "Output MXL not created: /out/score_jianpu.mxl")
  /\ Py.contains (str_of_path Scenario.wanted_pdf)
       "Output MXL not created: /out/score_jianpu.mxl" = false.
Proof. vm_compute. tauto. Qed.

Lemma missing_configuration_is_fatal_witness :
  RunPy.main (Scenario.exits_with 0) Scenario.runner_request
    Scenario.configured
  = (Raise (SystemExit
       ("Missing one of these keys in .env:" +:+ newline +:+
        "  AUDIVERIS_EXE" +:+ newline +:+
        "  MUSESCORE_EXE" +:+ newline +:+
        "  JIANPU_QML" +:+ newline +:+
        "Loaded from: " +:+ str_of_path Scenario.dotenv_file)),
     Scenario.configured, []).
Proof.
  apply (proj1 (missing_configuration_is_fatal (Scenario.exits_with 0)
                  Scenario.runner_request Scenario.configured
                  (fold_left RunPy.parse_line
                     (Py.splitlines Scenario.partial_config) ∅)
                  eq_refl
                  (ex_intro _ "JIANPU_QML"
                     (conj (or_intror (or_intror (or_introl eq_refl)))
                           eq_refl)))).
Defined.

(** C4, counterexample to a failure that names exactly the missing
    keys: two keys are configured, one is missing, and the failure names
    the configured keys as well. *)
Lemma configured_keys_are_named_too :
  exists env msg,
    RunPy.load_dotenv Scenario.configured Scenario.dotenv_file = Ok env
    /\ env !! "AUDIVERIS_EXE" = Some "/opt/audiveris"
    /\ env !! "MUSESCORE_EXE" = Some "/opt/mscore"
    /\ env !! "JIANPU_QML" = None
    /\ outcome_of (RunPy.main (Scenario.exits_with 0)
                     Scenario.runner_request Scenario.configured)
       = Raise (SystemExit msg)
    /\ Py.contains "AUDIVERIS_EXE" msg = true
    /\ Py.contains "MUSESCORE_EXE" msg = true.
Proof.
  eexists. eexists. split; [reflexivity|].
  vm_compute. repeat split.
Qed.

Lemma absent_dotenv_is_missing_keys_witness :
  RunPy.load_dotenv Scenario.disk Scenario.dotenv_file = Ok ∅
  /\ RunPy.main (Scenario.exits_with 0) Scenario.runner_request Scenario.disk
     = (Raise (SystemExit
          ("Missing one of these keys in .env:" +:+ newline +:+
           "  AUDIVERIS_EXE" +:+ newline +:+
           "  MUSESCORE_EXE" +:+ newline +:+
           "  JIANPU_QML" +:+ newline +:+
           "Loaded from: " +:+ str_of_path Scenario.dotenv_file)),
        Scenario.disk, []).
Proof.
  apply (absent_dotenv_is_missing_keys (Scenario.exits_with 0)
           Scenario.runner_request Scenario.disk).
  reflexivity.
Defined.

(** C2, counterexample to a result that is always a file: the tree
    holds a score and a log, and [newest_export] returns a directory.
    The folder [scan.xml] is newer than the score, and no regular file
    of the tree is at the path returned. *)
Lemma newest_export_returns_folder :
  let fs := Cases.folder_beside_score in
  let root := Scenario.aud_out in
  (exists c, entry_below fs root c /\ regular c = true
             /\ recognized (name (e_path c)))
  /\ (exists c, entry_below fs root c /\ regular c = true
                /\ ~ recognized (name (e_path c)))
  /\ newest_export fs root = Ok (root ++ ["scan.xml"])
  /\ directory_at fs (root ++ ["scan.xml"])
  /\ ~ exists f, In f fs /\ regular f = true
                 /\ newest_export fs root = Ok (e_path f).
Proof.
  cbv zeta. split; [|split; [|split; [|split]]].
  - exists (Scenario.file (Scenario.aud_out ++ ["old.mxl"]) 10).
    split; [split; [simpl; tauto | reflexivity]|].
    split; [reflexivity|]. left. exists "old". reflexivity.
  - exists (Scenario.file (Scenario.aud_out ++ ["scan.log"]) 11).
    split; [split; [simpl; tauto | reflexivity]|].
    split; [reflexivity|]. rewrite recognized_iff. vm_compute. discriminate.
  - reflexivity.
  - exists (Scenario.folder (Scenario.aud_out ++ ["scan.xml"]) 12).
    split; reflexivity.
  - intros (f & Hin & Hreg & Hres). simpl in Hin.
    repeat (destruct Hin as [<- | Hin];
            [vm_compute in Hreg; vm_compute in Hres; congruence|]).
    exact Hin.
Qed.

(** C3, counterexample to a failure on every tree without a recognized
    file: no regular file of the tree has a recognized extension, and
    [newest_export] does not fail; it returns the folder [scan.xml]. *)
Lemma newest_export_accepts_folder :
  let fs := Cases.folder_without_score in
  let root := Scenario.aud_out in
  (forall e, entry_below fs root e -> regular e = true ->
             ~ recognized (name (e_path e)))
  /\ newest_export fs root = Ok (root ++ ["scan.xml"])
  /\ directory_at fs (root ++ ["scan.xml"]).
Proof.
  cbv zeta. split; [|split].
  - intros e [Hin Hbelow] Hreg Hrec. apply recognized_iff in Hrec.
    simpl in Hin.
    repeat (destruct Hin as [<- | Hin];
            [vm_compute in Hrec; vm_compute in Hreg; congruence|]).
    exact Hin.
  - reflexivity.
  - exists (Scenario.folder (Scenario.aud_out ++ ["scan.xml"]) 12).
    split; reflexivity.
Qed.

(** ** More on the lookups *)

(** X1.  In a tree where a path names one entry and which holds at least
    one [.omr] entry below the root, [newest_omr_book] returns the path
    of an [.omr] entry below the root whose modification time is maximal
    among all such entries, in whatever order the entries are
    enumerated. *)
Theorem newest_omr_book_latest fs fs' out_dir :
  List.NoDup (map e_path fs) ->
  Permutation fs fs' ->
  (exists c, entry_below fs out_dir c
             /\ has_extension ".omr" (name (e_path c))) ->
  exists e,
    newest_omr_book fs' out_dir = Ok (e_path e) /\
    entry_below fs out_dir e /\
    has_extension ".omr" (name (e_path e)) /\
    forall c, entry_below fs out_dir c ->
              has_extension ".omr" (name (e_path c)) ->
              st_mtime c <= st_mtime e.
Proof.
  intros Hnd Hperm (c0 & [Hc0 Hb0] & Hx0).
  assert (Hnd' : List.NoDup (map e_path fs')).
  { eapply Permutation_NoDup; [|exact Hnd].
    apply Permutation_map. exact Hperm. }
  assert (Hin : forall x, In x fs <-> In x fs').
  { intros x. split; apply Permutation_in; [|symmetry]; exact Hperm. }
  assert (Hbook : forall c, entry_below fs out_dir c ->
                            has_extension ".omr" (name (e_path c)) ->
                            In (e_path c) (rglob fs' out_dir "*.omr")).
  { intros c [Hc Hb] Hx.
    apply (in_rglob_extension fs' out_dir ".omr" (e_path c) eq_refl).
    exists c. split; [reflexivity|]. split; [|exact Hx].
    split; [apply Hin; exact Hc | exact Hb]. }
  destruct (newest_omr_book_cases fs' out_dir)
    as [(p & Hp & Hpin & Hmax) | [Hnil _]].
  2:{ specialize (Hbook c0 (conj Hc0 Hb0) Hx0). rewrite Hnil in Hbook.
      destruct Hbook. }
  apply (in_rglob_extension fs' out_dir ".omr" p eq_refl) in Hpin
    as (e & <- & [He Hb] & Hx).
  assert (Hmt : forall x, In x fs' -> mtime_of fs' (e_path x) = st_mtime x).
  { intros x Hx'. unfold mtime_of. rewrite (stat_unique fs' x Hnd' Hx').
    reflexivity. }
  exists e. split; [exact Hp|].
  split; [split; [apply Hin; exact He | exact Hb]|].
  split; [exact Hx|].
  intros c Hc Hxc. pose proof (Hbook c Hc Hxc) as Hc'.
  destruct Hc as [Hc _]. apply Hin in Hc.
  rewrite <- (Hmt c Hc), <- (Hmt e He). apply Hmax. exact Hc'.
Qed.

Lemma newest_omr_book_latest_witness :
  exists e,
    newest_omr_book (rev Scenario.scores) Scenario.aud_out = Ok (e_path e) /\
    entry_below Scenario.scores Scenario.aud_out e /\
    has_extension ".omr" (name (e_path e)) /\
    forall c, entry_below Scenario.scores Scenario.aud_out c ->
              has_extension ".omr" (name (e_path c)) ->
              st_mtime c <= st_mtime e.
Proof.
  apply (newest_omr_book_latest Scenario.scores (rev Scenario.scores)
           Scenario.aud_out).
  - distinct_paths.
  - apply Permutation_rev.
  - exists (Scenario.file (Scenario.aud_out ++ ["score"; "score.omr"]) 10).
    split; [split; [simpl; tauto | reflexivity]|].
    exists "score". reflexivity.
Defined.

(** ** The shape of a run of [main.py] *)

Lemma spawned_quiet evs :
  Forall (fun ev => not_spawn ev = true) evs -> spawned evs = [].
Proof.
  induction 1 as [|[] evs Hev _ IH]; simpl; auto. discriminate Hev.
Qed.

Lemma audiveris_run h exe aud_out pdf force no_opus fs :
  MainPy.audiveris h exe aud_out pdf force no_opus fs =
  let cmd1 := MainPy.aud_cmd_1 exe aud_out pdf force in
  let fs1 := fst (spawn h cmd1 None fs) in
  let p1 := snd (spawn h cmd1 None fs) in
  let ev1 := [EvPrint (Py.join " " [newline +:+ "[RUN]"; Py.join " " cmd1]);
              EvSpawn cmd1 None (returncode p1)] ++ captured_echo h p1 in
  if returncode p1 =? 0 then
    match newest_export fs1 aud_out with
    | Ok exported =>
        (Ok exported, fs1,
         ev1 ++ [EvPrint (Py.join " "
                   ["[INFO] Audiveris export (single-pass): "
                    +:+ str_of_path exported])])
    | Raise _ =>
        (outcome_of (MainPy.two_pass h exe aud_out no_opus fs1),
         fs_of (MainPy.two_pass h exe aud_out no_opus fs1),
         ev1 ++ trace_of (MainPy.two_pass h exe aud_out no_opus fs1))
    end
  else (Raise (RuntimeError (MainPy.fail_msg (returncode p1))), fs1, ev1).
Proof.
  cbv zeta. unfold MainPy.audiveris.
  rewrite bind_run, run_cmd_run. project.
  destruct (returncode _ =? 0); [|reflexivity].
  rewrite try_run, single_pass_run.
  destruct (newest_export_cases
              (fst (spawn h (MainPy.aud_cmd_1 exe aud_out pdf force) None fs))
              aud_out)
    as [(p & Hp & _) | [_ Hp]]; rewrite Hp; project.
  - reflexivity.
  - reflexivity.
Qed.

(** What the two passes have run, and what they return when they
    succeed. *)
Lemma audiveris_schedule h exe aud_out pdf force no_opus fs :
  let run := MainPy.audiveris h exe aud_out pdf force no_opus fs in
  let cmd1 := MainPy.aud_cmd_1 exe aud_out pdf force in
  (spawned (trace_of run) = [cmd1]
   \/ exists book,
        spawned (trace_of run)
        = [cmd1; MainPy.aud_cmd_2 exe aud_out book no_opus])
  /\ forall exported,
       outcome_of run = Ok exported ->
       In exported (export_candidates (fs_of run) aud_out).
Proof.
  cbv zeta. rewrite audiveris_run. cbv zeta.
  set (cmd1 := MainPy.aud_cmd_1 exe aud_out pdf force).
  set (fs1 := fst (spawn h cmd1 None fs)).
  set (p1 := snd (spawn h cmd1 None fs)).
  assert (H1 : forall tail, spawned tail = [] ->
            spawned (([EvPrint (Py.join " " [newline +:+ "[RUN]";
                                             Py.join " " cmd1]);
                       EvSpawn cmd1 None (returncode p1)]
                      ++ captured_echo h p1) ++ tail) = [cmd1]).
  { intros tail Ht. rewrite !spawned_app. cbn [spawned app].
    rewrite spawned_echo, Ht. reflexivity. }
  destruct (returncode p1 =? 0).
  - destruct (newest_export_cases fs1 aud_out) as [(p & Hp & Hin) | [_ Hp]];
      rewrite Hp; project.
    + split; [left; apply H1; reflexivity|].
      intros exported [= <-]. exact Hin.
    + rewrite two_pass_run.
      destruct (newest_omr_book fs1 aud_out) as [book|e]; project.
      * cbv zeta.
        set (cmd2 := MainPy.aud_cmd_2 exe aud_out book no_opus).
        set (fs2 := fst (spawn h cmd2 None fs1)).
        set (p2 := snd (spawn h cmd2 None fs1)).
        assert (H2 : forall tail, spawned tail = [] ->
                  spawned
                    (([EvPrint (Py.join " " [newline +:+ "[RUN]";
                                             Py.join " " cmd1]);
                       EvSpawn cmd1 None (returncode p1)]
                      ++ captured_echo h p1)
                     ++ (EvPrint (Py.join " "
                                    ["[INFO] Audiveris book found: "
                                     +:+ str_of_path book])
                         :: EvPrint (Py.join " " [newline +:+ "[RUN]";
                                                  Py.join " " cmd2])
                         :: EvSpawn cmd2 None (returncode p2)
                         :: captured_echo h p2) ++ tail)
                  = [cmd1; cmd2]).
        { intros tail Ht. rewrite !spawned_app. cbn [spawned app].
          rewrite ?spawned_app, !spawned_echo, Ht. reflexivity. }
        destruct (returncode p2 =? 0).
        -- destruct (newest_export_cases fs2 aud_out)
             as [(p & Hq & Hin) | [_ Hq]]; rewrite Hq; project.
           ++ split.
              ** right. exists book. rewrite <- app_assoc, app_assoc.
                 apply H2. reflexivity.
              ** intros exported [= <-]. exact Hin.
           ++ split; [|discriminate]. right. exists book.
              rewrite <- (app_nil_r (_ :: _ :: _ :: captured_echo _ _)).
              apply H2. reflexivity.
        -- project. split; [|discriminate]. right. exists book.
           rewrite <- (app_nil_r (_ :: _ :: _ :: captured_echo _ _)).
           apply H2. reflexivity.
      * split; [|discriminate]. left. apply H1. reflexivity.
  - project. split; [|discriminate]. left.
    rewrite <- (app_nil_r (_ ++ captured_echo h p1)). apply H1. reflexivity.
Qed.

Lemma write_text_trace h p text fs :
  trace_of (write_text h p text fs) =
  match outcome_of (write_text h p text fs) with
  | Ok _ => [EvWriteText p text]
  | Raise _ => []
  end.
Proof.
  unfold write_text, trace_of, outcome_of.
  destruct (lookup_parent fs p);
    [|destruct (is_directory fs p); [|destruct (exists_ fs p)]];
    reflexivity.
Qed.

Lemma workspace_body_run h exe ms plugin pdf mxl pdf_out force no_opus tmp fs :
  MainPy.workspace_body h exe ms plugin pdf mxl pdf_out force no_opus tmp fs =
  let aud_out := tmp ++ ["audiveris_out"] in
  let job := tmp ++ ["job.json"] in
  let r0 := mkdir_parents h aud_out fs in
  match outcome_of r0 with
  | Raise e => (Raise e, fs_of r0, trace_of r0)
  | Ok _ =>
      let r1 := MainPy.audiveris h exe aud_out pdf force no_opus (fs_of r0) in
      match outcome_of r1 with
      | Raise e => (Raise e, fs_of r1, trace_of r0 ++ trace_of r1)
      | Ok exported =>
          let r2 := MainPy.build_job_json h job exported mxl pdf_out plugin
                      (fs_of r1) in
          match outcome_of r2 with
          | Raise e =>
              (Raise e, fs_of r2, trace_of r0 ++ trace_of r1 ++ trace_of r2)
          | Ok _ =>
              let r3 := MainPy.run_cmd h
                          [str_of_path ms; "-j"; str_of_path job]
                          (Some tmp) (fs_of r2) in
              (outcome_of r3, fs_of r3,
               trace_of r0 ++ trace_of r1 ++ trace_of r2 ++ trace_of r3)
          end
      end
  end.
Proof.
  cbv zeta. unfold MainPy.workspace_body.
  rewrite bind_run.
  destruct (outcome_of (mkdir_parents h _ fs)) as [[]|e]; [|reflexivity].
  rewrite bind_run.
  destruct (outcome_of (MainPy.audiveris _ _ _ _ _ _ _)) as [exported|e];
    project; [|reflexivity].
  rewrite bind_run.
  destruct (outcome_of (MainPy.build_job_json _ _ _ _ _ _ _)) as [[]|e];
    project; reflexivity.
Qed.

Lemma check_inputs_run pdf exe ms plugin fs :
  MainPy.check_inputs pdf exe ms plugin fs =
  (if exists_ fs pdf && exists_ fs exe && exists_ fs ms && exists_ fs plugin
   then Ok tt
   else Raise (SystemExit (first_missing_input fs pdf exe ms plugin)),
   fs, []).
Proof.
  unfold MainPy.check_inputs, MainPy.require_tools, first_missing_input,
    bind, exists_now, reading, ret, raise.
  destruct (exists_ fs pdf); cbn [negb andb]; [|reflexivity].
  destruct (exists_ fs exe); cbn [negb andb]; [|reflexivity].
  destruct (exists_ fs ms); cbn [negb andb]; [|reflexivity].
  destruct (exists_ fs plugin); reflexivity.
Qed.

Lemma main_run h a fs :
  MainPy.main h a fs =
  let pdf := resolve h (MainPy.pdf_in a) in
  let exe := resolve h (MainPy.audiveris_exe a) in
  let ms := resolve h (MainPy.musescore_exe a) in
  let plugin := resolve h (MainPy.plugin_qml a) in
  let mxl := resolve h (MainPy.out_mxl a) in
  let pdf_out := resolve h (MainPy.out_pdf a) in
  let r0 := MainPy.check_inputs pdf exe ms plugin fs in
  match outcome_of r0 with
  | Raise e => (Raise e, fs_of r0, trace_of r0)
  | Ok _ =>
  let r1 := mkdir_parents h (parent mxl) (fs_of r0) in
  match outcome_of r1 with
  | Raise e => (Raise e, fs_of r1, trace_of r0 ++ trace_of r1)
  | Ok _ =>
  let r2 := mkdir_parents h (parent pdf_out) (fs_of r1) in
  match outcome_of r2 with
  | Raise e => (Raise e, fs_of r2, trace_of r0 ++ trace_of r1 ++ trace_of r2)
  | Ok _ =>
  let r3 := with_TemporaryDirectory h "omr_tmp_"
              (MainPy.workspace_body h exe ms plugin pdf mxl pdf_out
                 (MainPy.force a) (MainPy.no_opus a)) (fs_of r2) in
  match outcome_of r3 with
  | Raise e =>
      (Raise e, fs_of r3,
       trace_of r0 ++ trace_of r1 ++ trace_of r2 ++ trace_of r3)
  | Ok _ =>
  let r4 := MainPy.check_outputs mxl pdf_out (fs_of r3) in
  (outcome_of r4, fs_of r4,
   trace_of r0 ++ trace_of r1 ++ trace_of r2 ++ trace_of r3 ++ trace_of r4)
  end end end end.
Proof.
  cbv zeta. unfold MainPy.main.
  rewrite bind_run.
  destruct (outcome_of (MainPy.check_inputs _ _ _ _ fs)) as [[]|e];
    [|reflexivity].
  rewrite bind_run.
  destruct (outcome_of (mkdir_parents h _ _)) as [[]|e]; project;
    [|reflexivity].
  rewrite bind_run.
  destruct (outcome_of (mkdir_parents h _ _)) as [[]|e]; project;
    [|reflexivity].
  rewrite bind_run.
  destruct (outcome_of (with_TemporaryDirectory h _ _ _)) as [[]|e]; project;
    reflexivity.
Qed.

(** X2.  When the input PDF, the Audiveris executable, the MuseScore
    executable or the plugin does not exist, [main] raises [SystemExit]
    naming the first one missing, in that order, and has done nothing:
    no directory is created, no process is started, nothing is
    printed. *)
Theorem main_rejects_missing_inputs h a fs :
  let pdf := resolve h (MainPy.pdf_in a) in
  let exe := resolve h (MainPy.audiveris_exe a) in
  let ms := resolve h (MainPy.musescore_exe a) in
  let plugin := resolve h (MainPy.plugin_qml a) in
  exists_ fs pdf && exists_ fs exe && exists_ fs ms && exists_ fs plugin
  = false ->
  MainPy.main h a fs =
  (Raise (SystemExit
     (if negb (exists_ fs pdf)
      then "PDF not found: " +:+ str_of_path pdf
      else if negb (exists_ fs exe)
      then "Audiveris.exe not found: " +:+ str_of_path exe
      else if negb (exists_ fs ms)
      then "MuseScore.exe not found: " +:+ str_of_path ms
      else "plugin qml not found: " +:+ str_of_path plugin)),
   fs, []).
Proof.
  cbv zeta. intros Hmissing.
  rewrite main_run. cbv zeta.
  rewrite check_inputs_run, Hmissing. project. reflexivity.
Qed.

Lemma main_rejects_missing_inputs_witness :
  MainPy.main (Scenario.exits_with 0) Scenario.request
    (List.filter (fun e => negb (path_eqb (e_path e) ["opt"; "mscore"]))
                 Scenario.disk)
  = (Raise (SystemExit "MuseScore.exe not found: /opt/mscore"),
     List.filter (fun e => negb (path_eqb (e_path e) ["opt"; "mscore"]))
                 Scenario.disk,
     []).
Proof.
  apply (main_rejects_missing_inputs (Scenario.exits_with 0) Scenario.request).
  reflexivity.
Defined.

Lemma run_cmd_spawned h cmd cwd fs :
  spawned (trace_of (MainPy.run_cmd h cmd cwd fs)) = [cmd].
Proof.
  rewrite run_cmd_run. project. rewrite spawned_app, spawned_echo.
  reflexivity.
Qed.

Lemma workspace_body_schedule h exe ms plugin pdf mxl pdf_out force no_opus
    tmp fs :
  let run := MainPy.workspace_body h exe ms plugin pdf mxl pdf_out
               force no_opus tmp fs in
  (spawned (trace_of run) = [] /\ exists e, outcome_of run = Raise e)
  \/ exists engine,
       engine_commands exe (tmp ++ ["audiveris_out"]) pdf force no_opus engine
       /\ ((spawned (trace_of run) = engine
            /\ exists e, outcome_of run = Raise e)
           \/ spawned (trace_of run) = engine ++ [editor_command ms tmp]).
Proof.
  cbv zeta. rewrite workspace_body_run. cbv zeta.
  set (aud_out := tmp ++ ["audiveris_out"]).
  set (r0 := mkdir_parents h aud_out fs).
  assert (H0 : spawned (trace_of r0) = []).
  { apply spawned_quiet. apply emits_mkdir_parents. reflexivity. }
  destruct (outcome_of r0) as [[]|e0]; project; [|left; eauto].
  set (r1 := MainPy.audiveris h exe aud_out pdf force no_opus (fs_of r0)).
  destruct (audiveris_schedule h exe aud_out pdf force no_opus (fs_of r0))
    as [Heng _]. fold r1 in Heng.
  right. exists (spawned (trace_of r1)). split; [exact Heng|].
  destruct (outcome_of r1) as [exported|e1]; project.
  2:{ left. rewrite spawned_app, H0. eauto. }
  set (r2 := MainPy.build_job_json h _ exported mxl pdf_out plugin (fs_of r1)).
  assert (H2 : spawned (trace_of r2) = []).
  { apply spawned_quiet. apply emits_build_job_json. reflexivity. }
  destruct (outcome_of r2) as [[]|e2]; project.
  - right. rewrite !spawned_app, H0, H2, run_cmd_spawned. reflexivity.
  - left. rewrite !spawned_app, H0, H2, app_nil_r. eauto.
Qed.

(** X3.  A run of [main] starts at most three child processes, always in
    the same order: the transcription command, then possibly the export
    command for a book, then possibly the notation editor on the job
    file of the workspace.  The editor never runs before the engine and
    no command is run twice. *)
Theorem main_process_schedule h a fs :
  let exe := resolve h (MainPy.audiveris_exe a) in
  let ms := resolve h (MainPy.musescore_exe a) in
  let pdf := resolve h (MainPy.pdf_in a) in
  let run := MainPy.main h a fs in
  spawned (trace_of run) = []
  \/ exists tmp engine,
       In (EvMkdtemp tmp) (trace_of run)
       /\ engine_commands exe (tmp ++ ["audiveris_out"]) pdf
            (MainPy.force a) (MainPy.no_opus a) engine
       /\ (spawned (trace_of run) = engine
           \/ spawned (trace_of run) = engine ++ [editor_command ms tmp]).
Proof.
  cbv zeta. rewrite main_run. cbv zeta.
  set (r0 := MainPy.check_inputs _ _ _ _ fs).
  assert (H0 : spawned (trace_of r0) = []).
  { apply spawned_quiet. apply emits_check_inputs; reflexivity. }
  destruct (outcome_of r0) as [[]|e0]; project; [|left; exact H0].
  set (r1 := mkdir_parents h _ (fs_of r0)).
  assert (H1 : spawned (trace_of r1) = []).
  { apply spawned_quiet. apply emits_mkdir_parents. reflexivity. }
  destruct (outcome_of r1) as [[]|e1]; project.
  2:{ left. rewrite spawned_app, H0, H1. reflexivity. }
  set (r2 := mkdir_parents h _ (fs_of r1)).
  assert (H2 : spawned (trace_of r2) = []).
  { apply spawned_quiet. apply emits_mkdir_parents. reflexivity. }
  destruct (outcome_of r2) as [[]|e2]; project.
  2:{ left. rewrite !spawned_app, H0, H1, H2. reflexivity. }
  rewrite with_run. cbv zeta. project.
  set (tmp := mkdtemp h "omr_tmp_" (fs_of r2)).
  set (body := MainPy.workspace_body _ _ _ _ _ _ _ _ _ tmp _).
  assert (Hsp : forall tail, spawned tail = [] ->
            spawned (trace_of r0 ++ trace_of r1 ++ trace_of r2 ++
                     (EvMkdtemp tmp :: trace_of body ++ [EvRmtree tmp])
                     ++ tail)
            = spawned (trace_of body)).
  { intros tail Ht. rewrite !spawned_app, H0, H1, H2. cbn [spawned app].
    rewrite spawned_app, Ht. cbn [spawned]. rewrite !app_nil_r.
    reflexivity. }
  assert (Hmk : forall tail,
            In (EvMkdtemp tmp)
               (trace_of r0 ++ trace_of r1 ++ trace_of r2 ++
                (EvMkdtemp tmp :: trace_of body ++ [EvRmtree tmp])
                ++ tail)).
  { intros tail. rewrite !in_app_iff. do 3 right. left. left. reflexivity. }
  assert (Hout : forall s,
            spawned (trace_of (MainPy.check_outputs
                                 (resolve h (MainPy.out_mxl a))
                                 (resolve h (MainPy.out_pdf a)) s)) = []).
  { intros s. apply spawned_quiet. apply emits_check_outputs. reflexivity. }
  pose proof (workspace_body_schedule h
                (resolve h (MainPy.audiveris_exe a))
                (resolve h (MainPy.musescore_exe a))
                (resolve h (MainPy.plugin_qml a))
                (resolve h (MainPy.pdf_in a))
                (resolve h (MainPy.out_mxl a))
                (resolve h (MainPy.out_pdf a))
                (MainPy.force a) (MainPy.no_opus a) tmp
                (create (new_directory h (fs_of r2) tmp) (fs_of r2))) as Hbody.
  cbv zeta in Hbody. fold body in Hbody.
  assert (Hgoal : forall tail, spawned tail = [] ->
            spawned (trace_of r0 ++ trace_of r1 ++ trace_of r2 ++
                     (EvMkdtemp tmp :: trace_of body ++ [EvRmtree tmp])
                     ++ tail) = []
            \/ exists tmp0 engine,
                 In (EvMkdtemp tmp0)
                    (trace_of r0 ++ trace_of r1 ++ trace_of r2 ++
                     (EvMkdtemp tmp :: trace_of body ++ [EvRmtree tmp])
                     ++ tail)
                 /\ engine_commands (resolve h (MainPy.audiveris_exe a))
                      (tmp0 ++ ["audiveris_out"])
                      (resolve h (MainPy.pdf_in a))
                      (MainPy.force a) (MainPy.no_opus a) engine
                 /\ (spawned (trace_of r0 ++ trace_of r1 ++ trace_of r2 ++
                       (EvMkdtemp tmp :: trace_of body ++ [EvRmtree tmp])
                       ++ tail) = engine
                     \/ spawned (trace_of r0 ++ trace_of r1 ++ trace_of r2 ++
                          (EvMkdtemp tmp :: trace_of body ++ [EvRmtree tmp])
                          ++ tail)
                        = engine ++ [editor_command
                                       (resolve h (MainPy.musescore_exe a))
                                       tmp0])).
  { intros tail Ht. rewrite (Hsp tail Ht).
    destruct Hbody as [[Hnil _] | (engine & Heng & Hcase)].
    - left. exact Hnil.
    - right. exists tmp, engine. split; [apply Hmk|]. split; [exact Heng|].
      destruct Hcase as [[Hs _] | Hs]; auto. }
  destruct (outcome_of body) as [[]|eb]; project.
  - apply Hgoal. apply Hout.
  - rewrite <- (app_nil_r (EvMkdtemp tmp :: trace_of body ++ [EvRmtree tmp])).
    apply Hgoal. reflexivity.
Qed.

Lemma check_outputs_full_run mxl pdf fs :
  MainPy.check_outputs mxl pdf fs =
  if negb (exists_ fs mxl)
  then (Raise (SystemExit ("Output MXL not created: " +:+ str_of_path mxl)),
        fs, [])
  else if negb (exists_ fs pdf)
  then (Raise (SystemExit ("Output PDF not created: " +:+ str_of_path pdf)),
        fs, [])
  else (Ok tt, fs,
        [EvPrint (Py.join " " [MainPy.done_line]);
         EvPrint (Py.join " " ["MXL:"; str_of_path mxl]);
         EvPrint (Py.join " " ["PDF:"; str_of_path pdf])]).
Proof.
  unfold MainPy.check_outputs, bind, exists_now, reading, print, emit, raise.
  destruct (exists_ fs mxl); cbn [negb]; [|reflexivity].
  destruct (exists_ fs pdf); reflexivity.
Qed.

Lemma main_spawns_succeeded h a fs cmd cwd rc :
  outcome_of (MainPy.main h a fs) = Ok tt ->
  In (EvSpawn cmd cwd rc) (trace_of (MainPy.main h a fs)) -> rc = 0.
Proof.
  intros Hok Hin. destruct (Z.eq_dec rc 0) as [|Hrc]; [assumption|].
  apply in_split in Hin as (pre & post & Heq).
  destruct (fail_fast_main h a fs _ _ _ _ _ Heq Hrc) as [Hr _].
  rewrite Hok in Hr. discriminate Hr.
Qed.

(** X4.  When [main] returns normally, both requested outputs exist,
    every child process exited with status zero, the processes run were
    the engine commands followed by the notation editor, the workspace
    is gone, and the run ends with the three lines that report the
    outputs. *)
Theorem main_success h a fs :
  let exe := resolve h (MainPy.audiveris_exe a) in
  let ms := resolve h (MainPy.musescore_exe a) in
  let pdf := resolve h (MainPy.pdf_in a) in
  let mxl := resolve h (MainPy.out_mxl a) in
  let pdf_out := resolve h (MainPy.out_pdf a) in
  let run := MainPy.main h a fs in
  outcome_of run = Ok tt ->
  exists_ (fs_of run) mxl = true
  /\ exists_ (fs_of run) pdf_out = true
  /\ (forall cmd cwd rc, In (EvSpawn cmd cwd rc) (trace_of run) -> rc = 0)
  /\ (exists tmp engine,
        engine_commands exe (tmp ++ ["audiveris_out"]) pdf
          (MainPy.force a) (MainPy.no_opus a) engine
        /\ spawned (trace_of run) = engine ++ [editor_command ms tmp]
        /\ In (EvRmtree tmp) (trace_of run)
        /\ forall e, In e (fs_of run) -> inside tmp (e_path e) = false)
  /\ (exists before,
        trace_of run
        = before ++ [EvPrint MainPy.done_line;
                     EvPrint ("MXL: " +:+ str_of_path mxl);
                     EvPrint ("PDF: " +:+ str_of_path pdf_out)]).
Proof.
  cbv zeta. intros Hok.
  split; [|split; [|split; [|split]]].
  3:{ intros cmd cwd rc. apply main_spawns_succeeded. exact Hok. }
  all: pose proof (main_workspace_released h a fs) as Hrel;
    revert Hok Hrel;
    rewrite main_run; cbv zeta;
    set (r0 := MainPy.check_inputs _ _ _ _ fs);
    destruct (outcome_of r0) as [[]|e0]; project; [|discriminate];
    set (r1 := mkdir_parents h _ (fs_of r0));
    destruct (outcome_of r1) as [[]|e1]; project; [|discriminate];
    set (r2 := mkdir_parents h _ (fs_of r1));
    destruct (outcome_of r2) as [[]|e2]; project; [|discriminate];
    set (r3 := with_TemporaryDirectory h _ _ (fs_of r2));
    destruct (outcome_of r3) as [[]|e3] eqn:H3; project; [|discriminate];
    rewrite check_outputs_full_run;
    destruct (exists_ (fs_of r3) (resolve h (MainPy.out_mxl a))) eqn:Hmxl;
    cbn [negb]; project; [|discriminate];
    destruct (exists_ (fs_of r3) (resolve h (MainPy.out_pdf a))) eqn:Hpdf;
    cbn [negb]; project; [|discriminate];
    intros _ Hrel.
  - exact Hmxl.
  - exact Hpdf.
  - assert (Hbody : exists tmp engine,
              engine_commands (resolve h (MainPy.audiveris_exe a))
                (tmp ++ ["audiveris_out"]) (resolve h (MainPy.pdf_in a))
                (MainPy.force a) (MainPy.no_opus a) engine
              /\ spawned (trace_of r3) = engine ++ [editor_command
                     (resolve h (MainPy.musescore_exe a)) tmp]
              /\ In (EvMkdtemp tmp) (trace_of r3)).
    { revert H3. unfold r3. rewrite with_run. cbv zeta. project.
      set (tmp := mkdtemp h "omr_tmp_" (fs_of r2)).
      intros Hb.
      destruct (workspace_body_schedule h
                  (resolve h (MainPy.audiveris_exe a))
                  (resolve h (MainPy.musescore_exe a))
                  (resolve h (MainPy.plugin_qml a))
                  (resolve h (MainPy.pdf_in a))
                  (resolve h (MainPy.out_mxl a))
                  (resolve h (MainPy.out_pdf a))
                  (MainPy.force a) (MainPy.no_opus a) tmp
                  (create (new_directory h (fs_of r2) tmp) (fs_of r2)))
        as [[_ [e He]] | (engine & Heng & [[_ [e He]] | Hs])];
        try (cbv zeta in He; rewrite Hb in He; discriminate He).
      exists tmp, engine. split; [exact Heng|]. split.
      - cbn [spawned]. rewrite spawned_app. cbn [spawned].
        rewrite app_nil_r. exact Hs.
      - left. reflexivity. }
    destruct Hbody as (tmp & engine & Heng & Hs & Hmk).
    assert (Hq : forall {A} (m : M A) s,
              emits not_spawn m -> spawned (trace_of (m s)) = []).
    { intros A m s Hm. apply spawned_quiet, Hm. }
    exists tmp, engine. split; [exact Heng|]. split.
    + rewrite !spawned_app. unfold r0, r1, r2.
      rewrite (Hq _ (MainPy.check_inputs _ _ _ _)),
              !(Hq _ (mkdir_parents h _)), Hs;
        try (apply emits_mkdir_parents; reflexivity);
        try (apply emits_check_inputs; reflexivity).
      cbn. rewrite app_nil_r. reflexivity.
    + apply (Hrel tmp). project. rewrite !in_app_iff. do 3 right. left.
      exact Hmk.
  - exists (trace_of r0 ++ trace_of r1 ++ trace_of r2 ++ trace_of r3).
    rewrite <- !app_assoc. reflexivity.
Qed.

Lemma main_success_witness :
  let run := MainPy.main
               (Scenario.machine false 0
                  [Scenario.wanted_mxl; Scenario.wanted_pdf])
               Scenario.request Scenario.disk in
  exists_ (fs_of run) Scenario.wanted_mxl = true
  /\ exists_ (fs_of run) Scenario.wanted_pdf = true
  /\ (forall cmd cwd rc, In (EvSpawn cmd cwd rc) (trace_of run) -> rc = 0)
  /\ (exists tmp engine,
        engine_commands ["opt"; "audiveris"] (tmp ++ ["audiveris_out"])
          ["in"; "score.pdf"] false false engine
        /\ spawned (trace_of run)
           = engine ++ [editor_command ["opt"; "mscore"] tmp]
        /\ In (EvRmtree tmp) (trace_of run)
        /\ forall e, In e (fs_of run) -> inside tmp (e_path e) = false)
  /\ (exists before,
        trace_of run
        = before ++ [EvPrint MainPy.done_line;
                     EvPrint ("MXL: " +:+ str_of_path Scenario.wanted_mxl);
                     EvPrint ("PDF: " +:+ str_of_path Scenario.wanted_pdf)]).
Proof.
  apply (main_success
           (Scenario.machine false 0 [Scenario.wanted_mxl; Scenario.wanted_pdf])
           Scenario.request Scenario.disk).
  reflexivity.
Defined.

Lemma not_in_quiet {A} P (m : M A) fs ev :
  emits P m -> P ev = false -> ~ In ev (trace_of (m fs)).
Proof. apply emits_not_in. Qed.

Lemma workspace_body_editor h exe ms plugin pdf mxl pdf_out force no_opus
    tmp fs cmd cwd rc :
  let run := MainPy.workspace_body h exe ms plugin pdf mxl pdf_out
               force no_opus tmp fs in
  In (EvSpawn cmd (Some cwd) rc) (trace_of run) ->
  cwd = tmp /\ cmd = editor_command ms tmp
  /\ exists exported before after,
       trace_of run
       = before ++
         EvWriteText (tmp ++ ["job.json"])
           (Json.dumps (MainPy.job_json exported mxl pdf_out plugin))
         :: EvPrint (Py.join " " [newline +:+ "[RUN]"; Py.join " " cmd])
         :: EvSpawn cmd (Some cwd) rc :: after
       /\ below (tmp ++ ["audiveris_out"]) exported = true
       /\ recognized (name exported).
Proof.
  cbv zeta. rewrite workspace_body_run. cbv zeta.
  set (aud_out := tmp ++ ["audiveris_out"]).
  set (job := tmp ++ ["job.json"]).
  set (r0 := mkdir_parents h aud_out fs).
  assert (H0 : ~ In (EvSpawn cmd (Some cwd) rc) (trace_of r0)).
  { apply (not_in_quiet not_spawn_in_cwd);
      [apply emits_mkdir_parents; reflexivity | reflexivity]. }
  destruct (outcome_of r0) as [[]|e0]; project; [|tauto].
  set (r1 := MainPy.audiveris h exe aud_out pdf force no_opus (fs_of r0)).
  assert (H1 : ~ In (EvSpawn cmd (Some cwd) rc) (trace_of r1)).
  { apply (not_in_quiet not_spawn_in_cwd);
      [apply emits_audiveris; reflexivity | reflexivity]. }
  destruct (audiveris_schedule h exe aud_out pdf force no_opus (fs_of r0))
    as [_ Hexp]. fold r1 in Hexp.
  destruct (outcome_of r1) as [exported|e1]; project.
  2:{ rewrite in_app_iff. tauto. }
  specialize (Hexp exported eq_refl).
  apply in_export_candidates in Hexp as (e & Hpath & [_ Hbelow] & Hrec).
  rewrite Hpath in Hbelow.
  set (r2 := MainPy.build_job_json h job exported mxl pdf_out plugin (fs_of r1)).
  assert (H2 : ~ In (EvSpawn cmd (Some cwd) rc) (trace_of r2)).
  { apply (not_in_quiet not_spawn_in_cwd);
      [apply emits_build_job_json; reflexivity | reflexivity]. }
  pose proof (write_text_trace h job
                (Json.dumps (MainPy.job_json exported mxl pdf_out plugin))
                (fs_of r1)) as Hw.
  fold (MainPy.build_job_json h job exported mxl pdf_out plugin (fs_of r1))
    in Hw. fold r2 in Hw.
  destruct (outcome_of r2) as [[]|e2]; project.
  2:{ rewrite !in_app_iff. tauto. }
  rewrite Hw, run_cmd_run. project.
  rewrite !in_app_iff. intros [Hin | [Hin | [Hin | [Hin | Hin]]]]; try tauto.
  - destruct Hin as [Hin | []]. discriminate Hin.
  - destruct Hin as [Hin | [Hin | []]]; [discriminate Hin|].
    injection Hin as <- <- <-.
    split; [reflexivity|]. split; [reflexivity|].
    exists exported, (trace_of r0 ++ trace_of r1),
      (captured_echo h
         (snd (spawn h [str_of_path ms; "-j"; str_of_path job] (Some tmp)
                 (fs_of r2)))).
    split; [|split; assumption].
    rewrite <- !app_assoc. reflexivity.
  - exfalso.
    pose proof (captured_echo_winding_down h
                  (snd (spawn h [str_of_path ms; "-j"; str_of_path job]
                          (Some tmp) (fs_of r2)))) as Hwd.
    rewrite List.Forall_forall in Hwd. apply Hwd in Hin. discriminate Hin.
Qed.

(** X5.  Whenever [main] starts a process with a working directory, that
    process is the notation editor: its command is the editor on
    [job.json] of the workspace, its working directory is the
    workspace acquired earlier in the run, and the event just before its
    [[RUN]] line is the writing of that job file, whose text is the job
    for a score with a recognized extension found below
    [audiveris_out], the plugin and the two requested outputs. *)
Theorem editor_invocation h a fs cmd cwd rc :
  let ms := resolve h (MainPy.musescore_exe a) in
  let plugin := resolve h (MainPy.plugin_qml a) in
  let mxl := resolve h (MainPy.out_mxl a) in
  let pdf_out := resolve h (MainPy.out_pdf a) in
  In (EvSpawn cmd (Some cwd) rc) (trace_of (MainPy.main h a fs)) ->
  cmd = [str_of_path ms; "-j"; str_of_path (cwd ++ ["job.json"])]
  /\ exists exported before after,
       trace_of (MainPy.main h a fs)
       = before ++
         EvWriteText (cwd ++ ["job.json"])
           (Json.dumps (MainPy.job_json exported mxl pdf_out plugin))
         :: EvPrint (Py.join " " [newline +:+ "[RUN]"; Py.join " " cmd])
         :: EvSpawn cmd (Some cwd) rc :: after
       /\ In (EvMkdtemp cwd) before
       /\ below (cwd ++ ["audiveris_out"]) exported = true
       /\ recognized (name exported).
Proof.
  cbv zeta. rewrite main_run. cbv zeta.
  set (r0 := MainPy.check_inputs _ _ _ _ fs).
  assert (Hq : forall {A} (m : M A) s,
            emits not_spawn_in_cwd m ->
            ~ In (EvSpawn cmd (Some cwd) rc) (trace_of (m s))).
  { intros A m s Hm. apply (not_in_quiet not_spawn_in_cwd); auto. }
  assert (H0 : ~ In (EvSpawn cmd (Some cwd) rc) (trace_of r0)).
  { apply Hq. apply emits_check_inputs; reflexivity. }
  destruct (outcome_of r0) as [[]|e0]; project; [|tauto].
  set (r1 := mkdir_parents h _ (fs_of r0)).
  assert (H1 : ~ In (EvSpawn cmd (Some cwd) rc) (trace_of r1)).
  { apply Hq. apply emits_mkdir_parents; reflexivity. }
  destruct (outcome_of r1) as [[]|e1]; project.
  2:{ rewrite in_app_iff. tauto. }
  set (r2 := mkdir_parents h _ (fs_of r1)).
  assert (H2 : ~ In (EvSpawn cmd (Some cwd) rc) (trace_of r2)).
  { apply Hq. apply emits_mkdir_parents; reflexivity. }
  destruct (outcome_of r2) as [[]|e2]; project.
  2:{ rewrite !in_app_iff. tauto. }
  rewrite with_run. cbv zeta. project.
  set (tmp := mkdtemp h "omr_tmp_" (fs_of r2)).
  set (body := MainPy.workspace_body _ _ _ _ _ _ _ _ _ tmp _).
  assert (Hbody : In (EvSpawn cmd (Some cwd) rc) (trace_of body) ->
            forall tail,
            cmd = [str_of_path (resolve h (MainPy.musescore_exe a)); "-j";
                   str_of_path (cwd ++ ["job.json"])]
            /\ exists exported before after,
                 trace_of r0 ++ trace_of r1 ++ trace_of r2 ++
                 (EvMkdtemp tmp :: trace_of body ++ [EvRmtree tmp]) ++ tail
                 = before ++
                   EvWriteText (cwd ++ ["job.json"])
                     (Json.dumps
                        (MainPy.job_json exported
                           (resolve h (MainPy.out_mxl a))
                           (resolve h (MainPy.out_pdf a))
                           (resolve h (MainPy.plugin_qml a))))
                   :: EvPrint (Py.join " " [newline +:+ "[RUN]";
                                            Py.join " " cmd])
                   :: EvSpawn cmd (Some cwd) rc :: after
                 /\ In (EvMkdtemp cwd) before
                 /\ below (cwd ++ ["audiveris_out"]) exported = true
                 /\ recognized (name exported)).
  { intros Hin tail.
    apply workspace_body_editor in Hin
      as (-> & Hcmd & exported & before & after & Heq & Hbelow & Hrec).
    split; [exact Hcmd|].
    exists exported,
      (trace_of r0 ++ trace_of r1 ++ trace_of r2 ++ EvMkdtemp tmp :: before),
      (after ++ [EvRmtree tmp] ++ tail).
    split; [|split; [|split; assumption]].
    - fold body in Heq. rewrite Heq.
      repeat (rewrite <- ?app_assoc, <- ?app_comm_cons). reflexivity.
    - rewrite !in_app_iff. do 3 right. left. reflexivity. }
  assert (Hout : forall s,
            ~ In (EvSpawn cmd (Some cwd) rc)
                 (trace_of (MainPy.check_outputs
                              (resolve h (MainPy.out_mxl a))
                              (resolve h (MainPy.out_pdf a)) s))).
  { intros s. apply Hq. apply emits_check_outputs; reflexivity. }
  destruct (outcome_of body) as [[]|eb]; project.
  - intros Hin. apply Hbody.
    rewrite !in_app_iff in Hin.
    destruct Hin as [Hin | [Hin | [Hin | [Hin | Hin]]]]; try tauto.
    + destruct Hin as [Hin | Hin]; [discriminate Hin|].
      apply in_app_iff in Hin as [Hin | [Hin | []]];
        [exact Hin | discriminate Hin].
    + exfalso. exact (Hout _ Hin).
  - intros Hin.
    rewrite <- (app_nil_r (EvMkdtemp tmp :: trace_of body ++ [EvRmtree tmp])).
    apply Hbody.
    rewrite !in_app_iff in Hin.
    destruct Hin as [Hin | [Hin | [Hin | Hin]]]; try tauto.
    destruct Hin as [Hin | Hin]; [discriminate Hin|].
    apply in_app_iff in Hin as [Hin | [Hin | []]];
      [exact Hin | discriminate Hin].
Qed.

Lemma editor_invocation_witness :
  let run := MainPy.main (Scenario.machine true 3 []) Scenario.request
               Scenario.disk in
  let cmd := ["/opt/mscore"; "-j"; "/tmp/omr_tmp_run1/job.json"] in
  exists exported before after,
    trace_of run
    = before ++
      EvWriteText (Scenario.workspace ++ ["job.json"])
        (Json.dumps (MainPy.job_json exported Scenario.wanted_mxl
                       Scenario.wanted_pdf ["opt"; "solfa.qml"]))
      :: EvPrint (Py.join " " [newline +:+ "[RUN]"; Py.join " " cmd])
      :: EvSpawn cmd (Some Scenario.workspace) 3 :: after
    /\ In (EvMkdtemp Scenario.workspace) before
    /\ below (Scenario.workspace ++ ["audiveris_out"]) exported = true
    /\ recognized (name exported).
Proof.
  cbv zeta.
  apply (editor_invocation (Scenario.machine true 3 []) Scenario.request
           Scenario.disk
           ["/opt/mscore"; "-j"; "/tmp/omr_tmp_run1/job.json"]
           Scenario.workspace 3).
  vm_compute. tauto.
Defined.

(** ** Entries under creation, removal and rewriting *)

Lemma retimed_refl e : retimed e e.
Proof. left. reflexivity. Qed.

Lemma retimed_trans e1 e2 e3 :
  retimed e1 e2 -> retimed e2 e3 -> retimed e1 e3.
Proof.
  intros [->|(Hk1 & Hk2 & Hp2)] [->|(Hk2' & Hk3 & Hp3)].
  - left. reflexivity.
  - right. auto.
  - right. auto.
  - right. repeat split; [exact Hk1 | exact Hk3 | congruence].
Qed.

Lemma retimed_path e e' : retimed e e' -> e_path e' = e_path e.
Proof. intros [->|(_ & _ & H)]; [reflexivity | exact H]. Qed.

Lemma retimed_regular e e' : regular e = true -> retimed e e' -> e' = e.
Proof.
  unfold regular. intros Hr [->|(Hk & _)]; [reflexivity|].
  rewrite Hk in Hr. discriminate Hr.
Qed.

Lemma retimed_touch d now e : retimed e (touch d now e).
Proof.
  unfold touch. destruct (e_kind e) eqn:Hk; [left; reflexivity|].
  destruct (path_eqb (e_path e) d); [|left; reflexivity].
  right. auto.
Qed.

Lemma survives_regular e fs : regular e = true -> survives e fs -> In e fs.
Proof.
  intros Hr (e' & Hin & Hre). rewrite <- (retimed_regular e e' Hr Hre).
  exact Hin.
Qed.

Lemma survives_here e fs : In e fs -> survives e fs.
Proof. intros Hin. exists e. split; [exact Hin | apply retimed_refl]. Qed.

Lemma survives_app e fs more : survives e fs -> survives e (fs ++ more).
Proof.
  intros (e' & Hin & Hre). exists e'. split; [|exact Hre].
  apply in_or_app. left. exact Hin.
Qed.

Lemma survives_touch e d now fs :
  survives e fs -> survives e (map (touch d now) fs).
Proof.
  intros (e' & Hin & Hre). exists (touch d now e'). split.
  - apply in_map. exact Hin.
  - apply (retimed_trans _ _ _ Hre). apply retimed_touch.
Qed.

Lemma survives_create e x fs : survives e fs -> survives e (create x fs).
Proof. intros H. unfold create. apply survives_app, survives_touch, H. Qed.

Lemma survives_overwrite e p text now fs :
  e_path e <> p -> survives e fs ->
  survives e (map (overwrite p text now) fs).
Proof.
  intros Hne (e' & Hin & Hre). exists e'. split; [|exact Hre].
  apply in_map_iff. exists e'. split; [|exact Hin].
  unfold overwrite.
  destruct (path_eqb (e_path e') p) eqn:Heq; [|reflexivity].
  apply path_eqb_eq in Heq. rewrite (retimed_path _ _ Hre) in Heq.
  contradiction.
Qed.

Lemma survives_rmtree h e tmp fs :
  inside tmp (e_path e) = false -> survives e fs ->
  survives e (rmtree h tmp fs).
Proof.
  intros Hout (e' & Hin & Hre). unfold rmtree.
  assert (Hleft : survives e
            (List.filter (fun x => negb (inside tmp (e_path x))) fs)).
  { exists e'. split; [|exact Hre]. apply List.filter_In.
    split; [exact Hin|]. rewrite (retimed_path _ _ Hre), Hout. reflexivity. }
  destruct (exists_ fs tmp); [apply survives_touch|]; exact Hleft.
Qed.

Lemma survives_writes e new fs :
  survives e fs -> survives e (Scenario.writes new fs).
Proof.
  unfold Scenario.writes. revert fs.
  induction new as [|x new IH]; intros fs H; [exact H|].
  simpl. apply IH, survives_create, H.
Qed.

(** ** What [main.py] leaves alone *)

Section Keeps.

Context (h : host) (e : entry).

Lemma keeps_read_only {A} (m : M A) : read_only m -> keeps e m.
Proof. intros Hro fs Hin. rewrite Hro. exact Hin. Qed.

Lemma keeps_bind {A B} (m : M A) (k : A -> M B) :
  keeps e m -> (forall a, keeps e (k a)) -> keeps e (bind m k).
Proof.
  intros Hm Hk fs Hin. rewrite bind_run. specialize (Hm fs Hin).
  destruct (outcome_of (m fs)) as [a|x]; project; [|exact Hm].
  apply Hk. exact Hm.
Qed.

Lemma keeps_try {A} (body handler : M A) :
  keeps e body -> keeps e handler ->
  keeps e (try_except_RuntimeError body handler).
Proof.
  intros Hb Hh fs Hin. rewrite try_run. specialize (Hb fs Hin).
  destruct (outcome_of (body fs)) as [a|[]]; project; try exact Hb.
  apply Hh. exact Hb.
Qed.

Lemma keeps_try_except {A} (body : M A) (handler : exn -> M A) :
  keeps e body -> (forall x, keeps e (handler x)) ->
  keeps e (try_except body handler).
Proof.
  intros Hb Hh fs Hin. rewrite try_except_run. specialize (Hb fs Hin).
  destruct (outcome_of (body fs)) as [a|x]; project; [exact Hb|].
  apply Hh. exact Hb.
Qed.

Lemma keeps_ret {A} (a : A) : keeps e (ret a).
Proof. intros fs Hin. exact Hin. Qed.

Lemma keeps_raise {A} x : keeps e (@raise A x).
Proof. intros fs Hin. exact Hin. Qed.

Lemma keeps_reading {A} (f : filesystem -> outcome A) : keeps e (reading f).
Proof. intros fs Hin. exact Hin. Qed.

Lemma keeps_print args : keeps e (print args).
Proof. intros fs Hin. exact Hin. Qed.

Lemma keeps_echo tag text : keeps e (MainPy.echo tag text).
Proof.
  unfold MainPy.echo. destruct (Py.truthy _);
    [apply keeps_print | apply keeps_ret].
Qed.

Lemma keeps_os_mkdir p : keeps e (os_mkdir h p).
Proof.
  intros fs Hin. unfold os_mkdir, fs_of.
  destruct (lookup_parent fs p); [|destruct (occupied fs p)]; simpl; auto.
  apply survives_create. exact Hin.
Qed.

Lemma keeps_unless_directory p x : keeps e (unless_directory p x).
Proof.
  intros fs Hin. unfold unless_directory, fs_of.
  destruct (is_directory fs p); exact Hin.
Qed.

Lemma keeps_mkdir_exist_ok p : keeps e (mkdir_exist_ok h p).
Proof.
  apply keeps_try_except; [apply keeps_os_mkdir|].
  intros x. destruct (is_FileNotFoundError x);
    [apply keeps_raise | apply keeps_unless_directory].
Qed.

Lemma keeps_mkdir_up rev_parts : keeps e (mkdir_up h rev_parts).
Proof.
  induction rev_parts as [|c above IH]; cbn [mkdir_up];
    (apply keeps_try_except; [apply keeps_os_mkdir|]);
    intros x; destruct (is_FileNotFoundError x);
    try apply keeps_raise; try apply keeps_unless_directory.
  apply keeps_bind; [exact IH | intros _; apply keeps_mkdir_exist_ok].
Qed.

Lemma keeps_mkdir_parents p : keeps e (mkdir_parents h p).
Proof. apply keeps_mkdir_up. Qed.

Lemma keeps_write_text p text :
  e_path e <> p -> keeps e (write_text h p text).
Proof.
  intros Hne fs Hin. unfold write_text, fs_of.
  destruct (lookup_parent fs p);
    [|destruct (is_directory fs p); [|destruct (exists_ fs p)]];
    simpl; auto.
  - apply survives_overwrite; assumption.
  - apply survives_create. exact Hin.
Qed.

Hypothesis spawn_keeps :
  forall cmd cwd fs, survives e fs -> survives e (fst (spawn h cmd cwd fs)).

Lemma keeps_run_cmd cmd cwd : keeps e (MainPy.run_cmd h cmd cwd).
Proof.
  intros fs Hin. rewrite run_cmd_run. project. apply spawn_keeps. exact Hin.
Qed.

Lemma keeps_audiveris exe aud_out pdf force no_opus :
  keeps e (MainPy.audiveris h exe aud_out pdf force no_opus).
Proof.
  unfold MainPy.audiveris.
  apply keeps_bind; [apply keeps_run_cmd | intros _].
  apply keeps_try.
  - unfold MainPy.single_pass.
    apply keeps_bind; [apply keeps_reading | intros exported].
    apply keeps_bind; [apply keeps_print | intros _]. apply keeps_ret.
  - unfold MainPy.two_pass.
    apply keeps_bind; [apply keeps_reading | intros book].
    apply keeps_bind; [apply keeps_print | intros _].
    apply keeps_bind; [apply keeps_run_cmd | intros _].
    apply keeps_bind; [apply keeps_reading | intros exported].
    apply keeps_bind; [apply keeps_print | intros _]. apply keeps_ret.
Qed.

Lemma below_child tmp c : below tmp (tmp ++ [c]) = true.
Proof.
  induction tmp as [|d tmp IH]; simpl; [reflexivity|].
  rewrite String.eqb_refl. exact IH.
Qed.

Lemma keeps_workspace_body exe ms plugin pdf mxl pdf_out force no_opus tmp :
  inside tmp (e_path e) = false ->
  keeps e (MainPy.workspace_body h exe ms plugin pdf mxl pdf_out
             force no_opus tmp).
Proof.
  intros Hout. unfold MainPy.workspace_body.
  apply keeps_bind; [apply keeps_mkdir_parents | intros _].
  apply keeps_bind; [apply keeps_audiveris | intros exported].
  apply keeps_bind; [|intros _; apply keeps_run_cmd].
  apply keeps_write_text. intros Heq.
  unfold inside in Hout. rewrite Heq, below_child, orb_true_r in Hout.
  discriminate Hout.
Qed.

Lemma keeps_with {A} prefix (body : path -> M A) :
  (forall fs, inside (mkdtemp h prefix fs) (e_path e) = false) ->
  (forall tmp, inside tmp (e_path e) = false -> keeps e (body tmp)) ->
  keeps e (with_TemporaryDirectory h prefix body).
Proof.
  intros Hout Hbody fs Hin. rewrite with_run. cbv zeta. project.
  apply survives_rmtree; [apply Hout|].
  apply (Hbody _ (Hout fs)). apply survives_create. exact Hin.
Qed.

(** X6.  [main] itself never removes or rewrites an entry outside its
    workspace.  Take an entry that does not lie in a directory the host
    may hand out as workspace and that the child processes leave in
    place (up to the modification time of a directory).  When [main]
    ends, however it ends, the entry is still there: a regular file
    with its content and its modification time, a directory as a
    directory at the same path.  The modification time of a directory
    is all that [main] may change, as it does when it creates the
    output directories and creates and removes the workspace. *)
Theorem main_keeps_outside a fs :
  (forall s, inside (mkdtemp h "omr_tmp_" s) (e_path e) = false) ->
  survives e fs ->
  survives e (fs_of (MainPy.main h a fs))
  /\ (regular e = true -> In e (fs_of (MainPy.main h a fs))).
Proof.
  intros Hout Hin.
  assert (Hkeep : keeps e (MainPy.main h a)).
  { unfold MainPy.main.
    apply keeps_bind; [|intros _].
    { apply keeps_read_only. intros s. rewrite check_inputs_run.
      reflexivity. }
    apply keeps_bind; [apply keeps_mkdir_parents | intros _].
    apply keeps_bind; [apply keeps_mkdir_parents | intros _].
    apply keeps_bind; [|intros _].
    - apply keeps_with; [exact Hout|]. intros tmp Htmp.
      apply keeps_workspace_body. exact Htmp.
    - apply keeps_read_only. apply read_only_check_outputs. }
  split; [exact (Hkeep fs Hin)|].
  intros Hr. apply survives_regular; [exact Hr | exact (Hkeep fs Hin)].
Qed.

End Keeps.

Lemma main_keeps_outside_witness :
  In (Scenario.file ["in"; "score.pdf"] 2)
     (fs_of (MainPy.main (Scenario.machine true 3 []) Scenario.request
               Scenario.disk)).
Proof.
  apply (main_keeps_outside (Scenario.machine true 3 [])
           (Scenario.file ["in"; "score.pdf"] 2)).
  - intros cmd cwd fs Hin. simpl. unfold Scenario.tools.
    destruct (existsb _ cmd); [|destruct (existsb _ cmd)]; cbn [fst];
      apply survives_writes; exact Hin.
  - intros s. reflexivity.
  - apply survives_here. simpl. tauto.
  - reflexivity.
Defined.

(** ** The echo of [run_cmd] *)

Lemma truthy_rstrip_cons drop c s :
  drop c = false -> Py.truthy (Py.rstrip_by drop (String c s)) = true.
Proof.
  intros Hc. simpl. destruct (Py.rstrip_by drop s); [rewrite Hc|];
    reflexivity.
Qed.

(** [s.strip()] is empty exactly when [s] is all white space. *)
Lemma truthy_strip s : Py.truthy (Py.strip s) = negb (all_space s).
Proof.
  unfold Py.strip, all_space. induction s as [|c s IH]; [reflexivity|].
  simpl. destruct (Py.isspace c) eqn:Hc; [exact IH|].
  apply truthy_rstrip_cons. exact Hc.
Qed.

(** X7.  [run_cmd] prints the [[RUN]] line, runs the process once, then
    prints the decoded standard output and the decoded standard error,
    in that order and unstripped, each exactly when it holds a character
    that is not white space; the exit status plays no part in what is
    printed. *)
Theorem run_cmd_echoes_output h cmd cwd fs :
  let p := snd (spawn h cmd cwd fs) in
  let out := MainPy.decoded h (stdout p) in
  let err := MainPy.decoded h (stderr p) in
  trace_of (MainPy.run_cmd h cmd cwd fs)
  = [EvPrint (newline +:+ "[RUN] " +:+ Py.join " " cmd);
     EvSpawn cmd cwd (returncode p)]
    ++ (if all_space out then []
        else [EvPrint ("[STDOUT]" +:+ newline +:+ out)])
    ++ (if all_space err then []
        else [EvPrint ("[STDERR]" +:+ newline +:+ err)]).
Proof.
  cbv zeta. rewrite run_cmd_run. project.
  unfold captured_echo, echo_events. rewrite !truthy_strip.
  destruct (all_space _), (all_space _); reflexivity.
Qed.

(** ** The job file *)







Lemma stat_after_append fs p x y :
  stat fs p = Raise x -> e_path y = p -> stat (fs ++ [y]) p = Ok y.
Proof.
  unfold stat. intros Hnone Hy.
  induction fs as [|z fs IH]; simpl in *.
  - assert (Hp : path_eqb (e_path y) p = true) by (apply path_eqb_eq; auto).
    rewrite Hp. reflexivity.
  - destruct (path_eqb (e_path z) p); [discriminate|]. apply IH. exact Hnone.
Qed.

Lemma stat_app_found fs more q e :
  stat fs q = Ok e -> stat (fs ++ more) q = Ok e.
Proof.
  unfold stat. induction fs as [|x fs IH]; simpl; [discriminate|].
  destruct (path_eqb (e_path x) q); [auto | exact IH].
Qed.

Lemma stat_app_other fs y q :
  e_path y <> q -> stat (fs ++ [y]) q = stat fs q.
Proof.
  intros Hne. unfold stat. induction fs as [|z fs IH]; simpl.
  - destruct (path_eqb (e_path y) q) eqn:Hy; [|reflexivity].
    apply path_eqb_eq in Hy. contradiction.
  - destruct (path_eqb (e_path z) q); [reflexivity | exact IH].
Qed.

Lemma stat_touch d now fs q :
  stat (map (touch d now) fs) q =
  match stat fs q with
  | Ok e => Ok (touch d now e)
  | Raise x => Raise x
  end.
Proof.
  unfold stat. induction fs as [|y fs IH]; simpl; [reflexivity|].
  rewrite touch_path.
  destruct (path_eqb (e_path y) q); [reflexivity | exact IH].
Qed.

Lemma regular_touch d now e : regular (touch d now e) = regular e.
Proof. unfold regular. rewrite touch_kind. reflexivity. Qed.

Lemma kind_at_touch d now fs q :
  kind_at (map (touch d now) fs) q = kind_at fs q.
Proof.
  unfold kind_at. rewrite stat_touch.
  destruct (stat fs q); [rewrite regular_touch|]; reflexivity.
Qed.

Lemma kind_at_create_other x fs q :
  e_path x <> q -> kind_at (create x fs) q = kind_at fs q.
Proof.
  intros Hne. unfold create, kind_at at 1.
  rewrite (stat_app_other _ x q Hne). apply kind_at_touch.
Qed.

Lemma stat_create_new x fs :
  exists_ fs (e_path x) = false -> stat (create x fs) (e_path x) = Ok x.
Proof.
  unfold exists_, create. intros Hnew.
  destruct (stat fs (e_path x)) as [y|y] eqn:Hst; [discriminate|].
  apply (stat_after_append _ _ y); [|reflexivity].
  rewrite stat_touch, Hst. reflexivity.
Qed.

Lemma kind_at_directory fs q :
  kind_at fs q = Some false <-> directory_at fs q.
Proof.
  unfold kind_at, directory_at, regular. split.
  - destruct (stat fs q) as [e|x]; [|discriminate].
    destruct (e_kind e) eqn:Hk; [discriminate|]. intros _. exists e. auto.
  - intros (e & -> & ->). reflexivity.
Qed.

Lemma kind_at_file fs q : kind_at fs q = Some true <-> file_at fs q.
Proof.
  unfold kind_at, file_at. split.
  - destruct (stat fs q) as [e|x]; [|discriminate].
    intros [= Hr]. exists e. auto.
  - intros (e & -> & ->). reflexivity.
Qed.

Lemma kind_at_missing fs q : kind_at fs q = None <-> exists_ fs q = false.
Proof.
  unfold kind_at, exists_. destruct (stat fs q); split; congruence.
Qed.

Lemma is_directory_kind_at fs q :
  is_directory fs q =
  match q with
  | [] => true
  | _ :: _ =>
      match kind_at fs q with Some false => true | _ => false end
  end.
Proof.
  unfold is_directory, kind_at, regular. destruct q; [reflexivity|].
  destruct (stat fs _) as [e|x]; [destruct (e_kind e)|]; reflexivity.
Qed.

Lemma exists_kind_at fs q :
  exists_ fs q = match kind_at fs q with Some _ => true | None => false end.
Proof. unfold exists_, kind_at. destruct (stat fs q); reflexivity. Qed.

(** The directories that lead to a path. *)
Lemma walk_step fs above c rest :
  walk fs above (c :: rest) =
  match kind_at fs (above ++ [c]) with
  | None => Some "FileNotFoundError"
  | Some true => Some "NotADirectoryError"
  | Some false => walk fs (above ++ [c]) rest
  end.
Proof.
  unfold kind_at, regular. cbn [walk].
  destruct (stat fs _) as [e|x]; [destruct (e_kind e)|]; reflexivity.
Qed.

Lemma walk_same fs fs' rest :
  forall above,
  (forall k, (0 < k <= length rest)%nat ->
             kind_at fs' (above ++ firstn k rest)
             = kind_at fs (above ++ firstn k rest)) ->
  walk fs' above rest = walk fs above rest.
Proof.
  induction rest as [|c rest IH]; intros above Hsame; [reflexivity|].
  rewrite !walk_step.
  assert (H1 : kind_at fs' (above ++ [c]) = kind_at fs (above ++ [c]))
    by (apply (Hsame 1%nat); simpl; lia).
  rewrite H1.
  destruct (kind_at fs (above ++ [c])) as [[|]|]; try reflexivity.
  apply IH. intros k Hk. rewrite <- !app_assoc.
  apply (Hsame (S k)). simpl. lia.
Qed.

Lemma walk_cases fs rest :
  forall above,
  match walk fs above rest with
  | None =>
      forall k, (0 < k <= length rest)%nat ->
                directory_at fs (above ++ firstn k rest)
  | Some what =>
      exists k, (0 < k <= length rest)%nat /\
        (forall j, (0 < j < k)%nat ->
                   directory_at fs (above ++ firstn j rest)) /\
        ((what = "FileNotFoundError"
          /\ exists_ fs (above ++ firstn k rest) = false)
         \/ (what = "NotADirectoryError"
             /\ file_at fs (above ++ firstn k rest)))
  end.
Proof.
  induction rest as [|c rest IH]; intros above.
  - simpl. intros k Hk. lia.
  - rewrite walk_step.
    destruct (kind_at fs (above ++ [c])) as [[|]|] eqn:Hk1.
    + exists 1%nat. split; [simpl; lia|]. split; [intros j Hj; lia|].
      right. split; [reflexivity|]. apply kind_at_file. exact Hk1.
    + assert (Hnext : forall k, above ++ c :: firstn k rest
                                = (above ++ [c]) ++ firstn k rest)
        by (intros k; rewrite <- app_assoc; reflexivity).
      specialize (IH (above ++ [c])).
      destruct (walk fs (above ++ [c]) rest) as [what|].
      * destruct IH as (k & Hk & Hbefore & Hcase). exists (S k).
        split; [simpl; lia|]. cbn [firstn]. rewrite Hnext.
        split; [|exact Hcase].
        intros j Hj. destruct j as [|j]; [lia|]. cbn [firstn].
        destruct j as [|j].
        -- simpl. apply kind_at_directory. exact Hk1.
        -- rewrite Hnext. apply Hbefore. lia.
      * intros k Hk. destruct k as [|k]; [lia|]. cbn [firstn].
        destruct k as [|k].
        -- simpl. apply kind_at_directory. exact Hk1.
        -- rewrite Hnext. apply IH. simpl in Hk. lia.
    + exists 1%nat. split; [simpl; lia|]. split; [intros j Hj; lia|].
      left. split; [reflexivity|]. apply kind_at_missing. exact Hk1.
Qed.

Lemma length_parent (p : path) : length (parent p) = (length p - 1)%nat.
Proof.
  unfold parent. induction p as [|c p IH]; [reflexivity|].
  destruct p as [|d p]; [reflexivity|].
  change (removelast (c :: d :: p)) with (c :: removelast (d :: p)).
  simpl length in *. lia.
Qed.

Lemma firstn_parent k (p : path) :
  (k < length p)%nat -> firstn k (parent p) = firstn k p.
Proof.
  unfold parent. revert k. induction p as [|c p IH]; intros k Hk.
  - simpl in Hk. lia.
  - destruct p as [|d p].
    + simpl in Hk. destruct k; [reflexivity | lia].
    + change (removelast (c :: d :: p)) with (c :: removelast (d :: p)).
      destruct k as [|k]; [reflexivity|]. cbn [firstn]. f_equal.
      apply IH. simpl in *. lia.
Qed.

(** What the lookup of the parent of [p] reports: every directory that
    leads to [p] is there, or the first of them that is not is missing
    or is a regular file. *)
Lemma lookup_parent_cases fs p :
  match lookup_parent fs p with
  | None =>
      forall k, (0 < k < length p)%nat -> directory_at fs (firstn k p)
  | Some what =>
      exists k, (0 < k < length p)%nat /\
        (forall j, (0 < j < k)%nat -> directory_at fs (firstn j p)) /\
        ((what = "FileNotFoundError" /\ exists_ fs (firstn k p) = false)
         \/ (what = "NotADirectoryError" /\ file_at fs (firstn k p)))
  end.
Proof.
  unfold lookup_parent. pose proof (walk_cases fs (parent p) []) as H.
  destruct (walk fs [] (parent p)) as [what|].
  - destruct H as (k & Hk & Hbefore & Hcase). rewrite length_parent in Hk.
    exists k. split; [lia|]. simpl in Hcase.
    rewrite firstn_parent in Hcase by lia. split; [|exact Hcase].
    intros j Hj. specialize (Hbefore j). simpl in Hbefore.
    rewrite firstn_parent in Hbefore by lia. apply Hbefore. lia.
  - intros k Hk. specialize (H k). rewrite length_parent in H.
    simpl in H. rewrite firstn_parent in H by lia. apply H. lia.
Qed.


(** ** run.py: reading the configuration *)

Lemma parse_line_assignment env raw :
  RunPy.parse_line env raw =
  match assignment raw with
  | Some (k, v) => <[k := v]> env
  | None => env
  end.
Proof.
  unfold RunPy.parse_line, assignment. cbv zeta.
  destruct (negb _ || _ || negb _); [reflexivity|].
  destruct (Py.split_once _ _) as [[k v]|]; reflexivity.
Qed.

Lemma fold_parse_line_lookup key lines :
  forall (env : gmap string string),
  fold_left RunPy.parse_line lines env !! key =
  fold_left
    (fun found raw =>
       match assignment raw with
       | Some (k, v) => if String.eqb k key then Some v else found
       | None => found
       end)
    lines (env !! key).
Proof.
  induction lines as [|raw lines IH]; intros env; [reflexivity|].
  simpl. rewrite IH. f_equal. rewrite parse_line_assignment.
  destruct (assignment raw) as [[k v]|]; [|reflexivity].
  destruct (String.eqb_spec k key) as [-> | Hne].
  - apply lookup_insert_eq.
  - apply lookup_insert_ne. exact Hne.
Qed.

Lemma last_assignment_none key lines found :
  fold_left
    (fun found raw =>
       match assignment raw with
       | Some (k, v) => if String.eqb k key then Some v else found
       | None => found
       end)
    lines found = None <->
  found = None
  /\ forall raw v, In raw lines -> assignment raw <> Some (key, v).
Proof.
  revert found. induction lines as [|raw lines IH]; intros found; simpl.
  - split; [intros ->; split; [reflexivity | intros ? ? []] | tauto].
  - rewrite IH. destruct (assignment raw) as [[k v]|] eqn:Ha.
    + destruct (String.eqb_spec k key) as [-> | Hne].
      * split; [intros [Habs _]; discriminate Habs|].
        intros [_ Hall]. exfalso. apply (Hall raw v); auto.
      * split; intros [Hf Hall]; (split; [exact Hf|]).
        -- intros r w [<- | Hr]; [|apply Hall; exact Hr].
           rewrite Ha. intros [= Hk _]. contradiction.
        -- intros r w Hr. apply Hall. right. exact Hr.
    + split; intros [Hf Hall]; (split; [exact Hf|]).
      * intros r w [<- | Hr]; [rewrite Ha; discriminate | apply Hall, Hr].
      * intros r w Hr. apply Hall. right. exact Hr.
Qed.

(** X9.  For a configuration file that can be read, [load_dotenv]
    returns a mapping in which a key has the value assigned by the last
    line of the file that assigns it, and a key is absent exactly when
    no line assigns it.  Blank lines, comment lines and lines without
    [=] assign nothing. *)
Theorem load_dotenv_last_assignment_wins fs p text :
  read_text fs p = Ok text ->
  exists env : gmap string string,
    RunPy.load_dotenv fs p = Ok env
    /\ (forall key, env !! key = last_assignment key (Py.splitlines text))
    /\ (forall key,
          env !! key = None <->
          forall raw v, In raw (Py.splitlines text) ->
                        assignment raw <> Some (key, v)).
Proof.
  intros Hread.
  exists (fold_left RunPy.parse_line (Py.splitlines text) ∅).
  assert (Hlookup : forall key,
            fold_left RunPy.parse_line (Py.splitlines text) ∅ !! key
            = last_assignment key (Py.splitlines text)).
  { intros key. rewrite fold_parse_line_lookup, lookup_empty. reflexivity. }
  split; [|split].
  - unfold RunPy.load_dotenv, exists_. rewrite Hread.
    unfold read_text in Hread.
    destruct (stat fs p); [reflexivity | discriminate].
  - exact Hlookup.
  - intros key. rewrite Hlookup. unfold last_assignment.
    rewrite last_assignment_none. tauto.
Qed.

Lemma load_dotenv_last_assignment_wins_witness :
  exists env : gmap string string,
    RunPy.load_dotenv Scenario.configured Scenario.dotenv_file = Ok env
    /\ (forall key,
          env !! key
          = last_assignment key (Py.splitlines Scenario.partial_config))
    /\ (forall key,
          env !! key = None <->
          forall raw v, In raw (Py.splitlines Scenario.partial_config) ->
                        assignment raw <> Some (key, v)).
Proof.
  apply (load_dotenv_last_assignment_wins Scenario.configured
           Scenario.dotenv_file Scenario.partial_config).
  reflexivity.
Defined.

(** X10.  A required key whose configured value is empty is treated
    like a missing key: [main] of [run.py] raises the missing-keys
    [SystemExit] before anything else happens. *)
Theorem empty_value_is_missing h a fs (env : gmap string string) :
  RunPy.load_dotenv fs (RunPy.dotenv_path h a) = Ok env ->
  (exists k, In k required_keys /\ env !! k = Some "") ->
  RunPy.main h a fs =
  (Raise (SystemExit (RunPy.missing_keys_msg (RunPy.dotenv_path h a))),
   fs, []).
Proof.
  intros Hload (k & Hk & Hempty).
  apply (main_missing_config h a fs env Hload).
  destruct Hk as [<- | [<- | [<- | []]]]; rewrite Hempty; simpl;
    rewrite ?andb_false_r; reflexivity.
Qed.

(** X11.  When the path of the configuration file is a directory,
    [load_dotenv] does not return: reading it raises an [OSError], and
    [main] of [run.py] ends with that error instead of the missing-keys
    message, having done nothing. *)
Theorem dotenv_directory_is_an_error h a fs e :
  stat fs (RunPy.dotenv_path h a) = Ok e ->
  e_kind e = Directory ->
  RunPy.load_dotenv fs (RunPy.dotenv_path h a)
  = Raise (OSError "IsADirectoryError" (RunPy.dotenv_path h a))
  /\ RunPy.main h a fs
     = (Raise (OSError "IsADirectoryError" (RunPy.dotenv_path h a)), fs, []).
Proof.
  intros Hstat Hdir.
  assert (Hload : RunPy.load_dotenv fs (RunPy.dotenv_path h a)
                  = Raise (OSError "IsADirectoryError"
                             (RunPy.dotenv_path h a))).
  { unfold RunPy.load_dotenv, exists_, read_text.
    rewrite Hstat, Hdir. reflexivity. }
  split; [exact Hload|].
  unfold RunPy.main, bind, reading. rewrite Hload. reflexivity.
Qed.

Lemma empty_value_is_missing_witness :
  RunPy.main (Scenario.exits_with 0) Scenario.runner_request
    (Cases.with_config Cases.empty_plugin_config)
  = (Raise (SystemExit (RunPy.missing_keys_msg Scenario.dotenv_file)),
     Cases.with_config Cases.empty_plugin_config, []).
Proof.
  apply (empty_value_is_missing (Scenario.exits_with 0)
           Scenario.runner_request
           (Cases.with_config Cases.empty_plugin_config)
           (fold_left RunPy.parse_line
              (Py.splitlines Cases.empty_plugin_config) ∅)
           eq_refl).
  exists "JIANPU_QML". split; [simpl; tauto|]. vm_compute. reflexivity.
Defined.

Lemma dotenv_directory_is_an_error_witness :
  RunPy.load_dotenv Cases.dotenv_is_folder Scenario.dotenv_file
  = Raise (OSError "IsADirectoryError" Scenario.dotenv_file)
  /\ RunPy.main (Scenario.exits_with 0) Scenario.runner_request
       Cases.dotenv_is_folder
     = (Raise (OSError "IsADirectoryError" Scenario.dotenv_file),
        Cases.dotenv_is_folder, []).
Proof.
  apply (dotenv_directory_is_an_error (Scenario.exits_with 0)
           Scenario.runner_request Cases.dotenv_is_folder
           (Scenario.folder Scenario.dotenv_file 1)); reflexivity.
Defined.

(** ** run.py: delegating to main.py *)

Lemma truthy_some (v : option string) :
  RunPy.truthy v = true -> exists s, v = Some s /\ s <> "".
Proof.
  destruct v as [[|c s]|]; simpl; try discriminate.
  intros _. exists (String c s). split; [reflexivity | discriminate].
Qed.

(** X12.  With the three keys configured and non-empty, [main] of
    [run.py] checks the input PDF, creates the output directory and
    starts exactly one process: the interpreter on [main.py] of the
    script directory, with the resolved input, the two outputs named
    after the stem of the input in the output directory, and the three
    configured values as given.  A missing PDF is a [SystemExit] with
    nothing done; a non-zero exit status of the process is a
    [CalledProcessError] that carries the status and the command. *)
Theorem runner_delegates h a fs (env : gmap string string) aud ms qml :
  RunPy.load_dotenv fs (RunPy.dotenv_path h a) = Ok env ->
  env !! "AUDIVERIS_EXE" = Some aud -> aud <> "" ->
  env !! "MUSESCORE_EXE" = Some ms -> ms <> "" ->
  env !! "JIANPU_QML" = Some qml -> qml <> "" ->
  let pdf := resolve h (RunPy.pdf_in a) in
  let out := resolve h (RunPy.out_dir a) in
  let cmd :=
    [sys_executable h; str_of_path (script_dir h ++ ["main.py"]);
     "--pdf-in"; str_of_path pdf;
     "--out-mxl"; str_of_path (out ++ [RunPy.stem pdf +:+ "_jianpu.mxl"]);
     "--out-pdf"; str_of_path (out ++ [RunPy.stem pdf +:+ "_jianpu.pdf"]);
     "--audiveris-exe"; aud; "--musescore-exe"; ms; "--plugin-qml"; qml] in
  let made := mkdir_parents h out fs in
  let rc := returncode (snd (spawn h cmd None (fs_of made))) in
  let run := RunPy.main h a fs in
  (exists_ fs pdf = false ->
   run = (Raise (SystemExit ("PDF not found: " +:+ str_of_path pdf)), fs, []))
  /\ (exists_ fs pdf = true ->
      forall e, outcome_of made = Raise e ->
      run = (Raise e, fs_of made, trace_of made))
  /\ (exists_ fs pdf = true ->
      outcome_of made = Ok tt ->
      run = (if rc =? 0 then Ok tt else Raise (CalledProcessError rc cmd),
             fst (spawn h cmd None (fs_of made)),
             trace_of made
             ++ [EvPrint (newline +:+ "[RUN] " +:+ Py.join " " cmd);
                 EvSpawn cmd None rc])).
Proof.
  intros Hload Ha Hane Hm Hmne Hq Hqne. cbv zeta.
  assert (Hmain : RunPy.main h a fs = RunPy.delegate h a aud ms qml fs).
  { unfold RunPy.main, bind at 1, reading. rewrite Hload, Ha, Hm, Hq.
    destruct aud, ms, qml; try contradiction. simpl.
    destruct (RunPy.delegate h a _ _ _ fs) as [[r s] evs]. simpl.
    reflexivity. }
  rewrite Hmain. unfold RunPy.delegate.
  rewrite bind_run. unfold exists_now, reading. project. cbv beta.
  split; [|split].
  - intros Hpdf. rewrite Hpdf. reflexivity.
  - intros Hpdf e He. rewrite Hpdf. cbn [negb].
    rewrite bind_run, He. reflexivity.
  - intros Hpdf Hmade. rewrite Hpdf. cbn [negb]. rewrite bind_run, Hmade.
    unfold RunPy.pipeline_cmd.
    set (cmd := [sys_executable h; _; _; _; _; _; _; _; _; _; _; _; _; _]).
    unfold bind, print, emit, subprocess_run.
    destruct (spawn h cmd None _) as [fs' p]. simpl.
    destruct (returncode p =? 0); reflexivity.
Qed.

Lemma runner_delegates_witness :
  let cmd :=
    ["/usr/bin/python3"; "/app/backend/main.py";
     "--pdf-in"; "/in/score.pdf";
     "--out-mxl"; "/output/score_jianpu.mxl";
     "--out-pdf"; "/output/score_jianpu.pdf";
     "--audiveris-exe"; "/opt/audiveris";
     "--musescore-exe"; "/opt/mscore";
     "--plugin-qml"; "/opt/solfa.qml"] in
  let run := RunPy.main (Scenario.exits_with 2) Scenario.runner_request
               (Cases.with_config Cases.full_config) in
  outcome_of run = Raise (CalledProcessError 2 cmd)
  /\ spawned (trace_of run) = [cmd].
Proof.
  cbv zeta.
  destruct (runner_delegates (Scenario.exits_with 2) Scenario.runner_request
              (Cases.with_config Cases.full_config)
              (fold_left RunPy.parse_line
                 (Py.splitlines Cases.full_config) ∅)
              "/opt/audiveris" "/opt/mscore" "/opt/solfa.qml")
    as (_ & _ & Hrun);
    try (vm_compute; reflexivity); try discriminate.
  rewrite (Hrun eq_refl eq_refl). vm_compute. split; reflexivity.
Defined.

(** ** Strings: stripping and searching *)

Lemma append_assoc a b c : (a +:+ b) +:+ c = a +:+ b +:+ c.
Proof.
  induction a as [|x a IH]; simpl_append; [reflexivity|].
  rewrite IH. reflexivity.
Qed.

Lemma length_append a b :
  String.length (a +:+ b) = (String.length a + String.length b)%nat.
Proof.
  induction a as [|x a IH]; simpl_append; [reflexivity|].
  simpl. rewrite IH. reflexivity.
Qed.

Section Stripping.

Context (drop : ascii -> bool).

Lemma lstrip_length s :
  (String.length (Py.lstrip_by drop s) <= String.length s)%nat.
Proof.
  induction s as [|c s IH]; simpl; [lia|].
  destruct (drop c); simpl; lia.
Qed.

Lemma rstrip_length s :
  (String.length (Py.rstrip_by drop s) <= String.length s)%nat.
Proof.
  induction s as [|c s IH]; simpl; [lia|].
  destruct (Py.rstrip_by drop s); [destruct (drop c)|]; simpl in *; lia.
Qed.

Lemma lstrip_all a b :
  all_chars drop a = true ->
  Py.lstrip_by drop (a +:+ b) = Py.lstrip_by drop b.
Proof.
  induction a as [|c a IH]; simpl_append; [reflexivity|].
  simpl. intros H. apply andb_prop in H as [Hc Ha].
  rewrite Hc. apply IH. exact Ha.
Qed.

Lemma lstrip_kept c s :
  drop c = false -> Py.lstrip_by drop (String c s) = String c s.
Proof. intros Hc. simpl. rewrite Hc. reflexivity. Qed.

(** A string that [lstrip] leaves alone does not start with a dropped
    character. *)
Lemma lstrip_fixed_head c s :
  Py.lstrip_by drop (String c s) = String c s -> drop c = false.
Proof.
  simpl. destruct (drop c); [|reflexivity]. intros H.
  pose proof (lstrip_length s) as Hlen. rewrite H in Hlen. simpl in Hlen.
  lia.
Qed.

Lemma rstrip_all_empty a :
  all_chars drop a = true -> Py.rstrip_by drop a = "".
Proof.
  induction a as [|c a IH]; [reflexivity|].
  simpl. intros H. apply andb_prop in H as [Hc Ha].
  rewrite (IH Ha), Hc. reflexivity.
Qed.

Lemma rstrip_all a b :
  all_chars drop b = true ->
  Py.rstrip_by drop (a +:+ b) = Py.rstrip_by drop a.
Proof.
  intros Hb. induction a as [|c a IH]; simpl_append.
  - rewrite (rstrip_all_empty b Hb). reflexivity.
  - simpl. rewrite IH. reflexivity.
Qed.

Lemma rstrip_kept a b :
  Py.rstrip_by drop b <> "" ->
  Py.rstrip_by drop (a +:+ b) = a +:+ Py.rstrip_by drop b.
Proof.
  intros Hb. induction a as [|c a IH]; simpl_append; [reflexivity|].
  simpl. rewrite IH.
  destruct (a +:+ Py.rstrip_by drop b) eqn:Heq; [|reflexivity].
  exfalso. destruct a; simpl_append; [contradiction | discriminate].
Qed.

Lemma rstrip_single c :
  drop c = false -> Py.rstrip_by drop (String c "") = String c "".
Proof. intros Hc. simpl. rewrite Hc. reflexivity. Qed.

(** [strip] leaves [s] alone exactly when both one-sided strips do. *)
Lemma strip_fixed s :
  Py.rstrip_by drop (Py.lstrip_by drop s) = s ->
  Py.lstrip_by drop s = s /\ Py.rstrip_by drop s = s.
Proof.
  intros H.
  assert (Hl : Py.lstrip_by drop s = s).
  { pose proof (rstrip_length (Py.lstrip_by drop s)) as H1.
    rewrite H in H1.
    destruct s as [|c s]; [reflexivity|].
    simpl in *. destruct (drop c); [|reflexivity].
    pose proof (lstrip_length s). lia. }
  split; [exact Hl|]. rewrite Hl in H. exact H.
Qed.

End Stripping.

Lemma contains_char_false c s :
  Py.contains (String c "") s = false ->
  all_chars (fun d => negb (Ascii.eqb c d)) s = true.
Proof.
  induction s as [|d s IH]; [reflexivity|].
  simpl. rewrite andb_true_r. intros H.
  apply orb_false_iff in H as [Hd Hs].
  rewrite Hd. simpl. apply IH. destruct s; exact Hs.
Qed.

Lemma contains_char_true c a b :
  Py.contains (String c "") (a +:+ String c b) = true.
Proof.
  induction a as [|d a IH]; simpl_append.
  - apply contains_here. simpl. rewrite Ascii.eqb_refl. reflexivity.
  - apply contains_later. exact IH.
Qed.

Lemma rfind_absent c s i :
  all_chars (fun d => negb (Ascii.eqb c d)) s = true ->
  RunPy.rfind_from c s i = None.
Proof.
  revert i. induction s as [|d s IH]; intros i; [reflexivity|].
  simpl. intros H. apply andb_prop in H as [Hd Hs].
  rewrite (IH _ Hs). apply negb_true_iff in Hd. rewrite Hd. reflexivity.
Qed.

Lemma rfind_last c a b i :
  all_chars (fun d => negb (Ascii.eqb c d)) b = true ->
  RunPy.rfind_from c (a +:+ String c b) i = Some (i + String.length a)%nat.
Proof.
  intros Hb. revert i. induction a as [|d a IH]; intros i; simpl_append.
  - simpl. rewrite (rfind_absent c b _ Hb), Ascii.eqb_refl.
    f_equal. lia.
  - simpl. rewrite IH. f_equal. lia.
Qed.

Lemma substring_prefix a b : substring 0 (String.length a) (a +:+ b) = a.
Proof.
  induction a as [|c a IH]; simpl_append.
  - destruct b; reflexivity.
  - simpl. rewrite IH. reflexivity.
Qed.

Lemma name_last dir n : name (dir ++ [n]) = n.
Proof. unfold name. apply last_last. Qed.

(** X13.  The stem that names the outputs of [run.py]: a file name
    [base.ext] with a non-empty base and a non-empty extension free of
    dots has stem [base]; a name without a dot, and a name whose only
    dot comes first, is its own stem. *)
Theorem stem_drops_last_extension dir base ext n :
  (base <> "" -> ext <> "" -> Py.contains "." ext = false ->
   RunPy.stem (dir ++ [base +:+ "." +:+ ext]) = base)
  /\ (Py.contains "." n = false -> RunPy.stem (dir ++ [n]) = n)
  /\ (Py.contains "." ext = false ->
      RunPy.stem (dir ++ ["." +:+ ext]) = "." +:+ ext).
Proof.
  unfold RunPy.stem. rewrite !name_last. cbv zeta.
  split; [|split].
  - intros Hbase Hext Hdot.
    change (base +:+ "." +:+ ext) with (base +:+ String "." ext).
    rewrite (rfind_last "." base ext 0 (contains_char_false _ _ Hdot)).
    rewrite length_append.
    assert (Hb : (0 <? 0 + String.length base)%nat = true).
    { apply Nat.ltb_lt. destruct base; [contradiction | simpl; lia]. }
    assert (He : (0 + String.length base
                  <? String.length base + String.length (String "." ext) - 1
                 )%nat = true).
    { apply Nat.ltb_lt. destruct ext; [contradiction | simpl; lia]. }
    rewrite Hb, He. cbn [andb plus]. apply substring_prefix.
  - intros Hdot.
    rewrite (rfind_absent "." n 0 (contains_char_false _ _ Hdot)).
    reflexivity.
  - intros Hdot.
    change ("." +:+ ext) with ("" +:+ String "." ext).
    rewrite (rfind_last "." "" ext 0 (contains_char_false _ _ Hdot)).
    reflexivity.
Qed.

Lemma stem_drops_last_extension_witness :
  RunPy.stem (["in"] ++ ["moonlight.sonata" +:+ "." +:+ "pdf"])
  = "moonlight.sonata"
  /\ RunPy.stem (["in"] ++ ["README"]) = "README"
  /\ RunPy.stem (["in"] ++ ["." +:+ "env"]) = "." +:+ "env".
Proof.
  destruct (stem_drops_last_extension ["in"] "moonlight.sonata" "pdf"
              "README") as (H1 & H2 & _).
  destruct (stem_drops_last_extension ["in"] "" "env" "") as (_ & _ & H3).
  split; [apply H1; [discriminate | discriminate | reflexivity]|].
  split; [apply H2; reflexivity | apply H3; reflexivity].
Defined.

(** ** run.py: how a line may be written *)

Lemma all_chars_app f a b :
  all_chars f (a +:+ b) = all_chars f a && all_chars f b.
Proof.
  induction a as [|c a IH]; simpl_append; [reflexivity|].
  simpl. rewrite IH, andb_assoc. reflexivity.
Qed.

Lemma all_chars_weaken (f g : ascii -> bool) s :
  (forall c, f c = true -> g c = true) ->
  all_chars f s = true -> all_chars g s = true.
Proof.
  intros Hfg. induction s as [|c s IH]; [reflexivity|].
  simpl. intros H. apply andb_prop in H as [Hc Hs].
  rewrite (Hfg c Hc), (IH Hs). reflexivity.
Qed.

Lemma space_is_not_equals s :
  all_space s = true ->
  all_chars (fun d => negb (Ascii.eqb "=" d)) s = true.
Proof.
  apply all_chars_weaken. intros c Hc.
  destruct (Ascii.eqb_spec "=" c) as [<- | _]; [discriminate Hc | reflexivity].
Qed.

Lemma split_once_first sep a t :
  all_chars (fun d => negb (Ascii.eqb sep d)) a = true ->
  Py.split_once sep (a +:+ String sep t) = Some (a, t).
Proof.
  induction a as [|c a IH]; simpl_append.
  - intros _. simpl. rewrite Ascii.eqb_refl. reflexivity.
  - simpl. intros H. apply andb_prop in H as [Hc Ha].
    apply negb_true_iff in Hc.
    destruct (Ascii.eqb_spec c sep) as [-> | _].
    + rewrite Ascii.eqb_refl in Hc. discriminate Hc.
    + rewrite (IH Ha). reflexivity.
Qed.

Lemma rstrip_cons_kept drop c s :
  drop c = false ->
  Py.rstrip_by drop (String c s) = String c (Py.rstrip_by drop s).
Proof.
  intros Hc. simpl. destruct (Py.rstrip_by drop s); [rewrite Hc|];
    reflexivity.
Qed.

Lemma startswith_char a b s t :
  Py.startswith (String a "") (String b s)
  = Py.startswith (String a "") (String b t).
Proof. cbn [Py.startswith]. reflexivity. Qed.

(** Unwrapping a value written between two quote characters. *)
Lemma strip_char_unwraps qc value :
  Py.strip_char qc value = value ->
  Py.strip_char qc (String qc (value +:+ String qc "")) = value.
Proof.
  unfold Py.strip_char. intros Hfix.
  apply strip_fixed in Hfix as [Hl Hr].
  simpl Py.lstrip_by at 1. rewrite Ascii.eqb_refl.
  destruct value as [|c v].
  - simpl. rewrite Ascii.eqb_refl. reflexivity.
  - simpl_append.
    rewrite (lstrip_kept _ c _ (lstrip_fixed_head _ c v Hl)).
    change (String c (v +:+ String qc ""))
      with (String c v +:+ String qc "").
    rewrite rstrip_all; [exact Hr|].
    simpl. rewrite Ascii.eqb_refl. reflexivity.
Qed.

(** A value written between two quote characters of another kind is
    left alone. *)
Lemma strip_char_keeps_wrapped qc other value :
  Ascii.eqb other qc = false ->
  Py.strip_char other (String qc (value +:+ String qc ""))
  = String qc (value +:+ String qc "").
Proof.
  unfold Py.strip_char. intros Hne.
  rewrite (lstrip_kept _ qc _ Hne).
  change (String qc (value +:+ String qc ""))
    with (String qc value +:+ String qc "").
  rewrite rstrip_kept; rewrite (rstrip_single _ qc Hne);
    [reflexivity | discriminate].
Qed.

(** What the three strips of [load_dotenv] make of a padded value. *)
Lemma value_recovered pad q value :
  all_space pad = true ->
  Py.strip value = value ->
  Py.strip_char "034" value = value ->
  Py.strip_char "039" value = value ->
  q = "" \/ q = String "034" "" \/ q = String "039" "" ->
  Py.strip_char "039"
    (Py.strip_char "034"
       (Py.strip (Py.rstrip_by Py.isspace (pad +:+ q +:+ value +:+ q))))
  = value.
Proof.
  intros Hpad Hs Hdq Hap Hq.
  set (Q := q +:+ value +:+ q).
  assert (Htrim : Py.lstrip_by Py.isspace Q = Q
                  /\ Py.rstrip_by Py.isspace Q = Q).
  { unfold Py.strip in Hs. apply strip_fixed in Hs as [Hl Hr].
    subst Q. destruct Hq as [-> | [-> | ->]]; simpl_append.
    - auto.
    - split; [apply lstrip_kept; reflexivity|].
      change (String "034" (value +:+ String "034" ""))
        with (String "034" value +:+ String "034" "").
      rewrite rstrip_kept; rewrite rstrip_single;
        try reflexivity; discriminate.
    - split; [apply lstrip_kept; reflexivity|].
      change (String "039" (value +:+ String "039" ""))
        with (String "039" value +:+ String "039" "").
      rewrite rstrip_kept; rewrite rstrip_single;
        try reflexivity; discriminate. }
  destruct Htrim as [Hl Hr].
  assert (Hstrip : Py.strip (Py.rstrip_by Py.isspace (pad +:+ Q)) = Q).
  { unfold Py.strip. destruct Q as [|c Q'] eqn:HQ.
    - rewrite append_nil_r, (rstrip_all_empty _ pad Hpad). reflexivity.
    - rewrite rstrip_kept; rewrite Hr; [|discriminate].
      rewrite (lstrip_all _ pad _ Hpad), Hl. exact Hr. }
  rewrite Hstrip. subst Q.
  destruct Hq as [-> | [-> | ->]]; simpl_append.
  - rewrite Hdq. exact Hap.
  - rewrite (strip_char_unwraps "034" value Hdq). exact Hap.
  - rewrite (strip_char_keeps_wrapped "039" "034" value eq_refl).
    apply strip_char_unwraps. exact Hap.
Qed.

(** X14.  A line of the configuration file assigns [value] to [key]
    however it is spaced and quoted: white space may surround the key,
    the [=] sign and the value, and the value may be written bare,
    between double quotes or between apostrophes.  The key is not
    empty, holds no [=], does not start with [#] and has no white space
    at its ends; the value has no white space and no quote character at
    its ends. *)
Theorem assignment_tolerates_spacing_and_quotes
    key value pad1 pad2 pad3 pad4 q (env : gmap string string) :
  key <> "" -> Py.strip key = key ->
  Py.contains "=" key = false -> Py.startswith "#" key = false ->
  Py.strip value = value ->
  Py.strip_char "034" value = value ->
  Py.strip_char "039" value = value ->
  all_space pad1 = true -> all_space pad2 = true ->
  all_space pad3 = true -> all_space pad4 = true ->
  q = "" \/ q = String "034" "" \/ q = String "039" "" ->
  let raw := pad1 +:+ key +:+ pad2 +:+ "=" +:+ pad3
             +:+ q +:+ value +:+ q +:+ pad4 in
  assignment raw = Some (key, value)
  /\ RunPy.parse_line env raw = <[key := value]> env.
Proof.
  intros Hne Hkey Heq Hhash Hval Hdq Hap H1 H2 H3 H4 Hq. cbv zeta.
  assert (Hassign :
    assignment (pad1 +:+ key +:+ pad2 +:+ "=" +:+ pad3
                +:+ q +:+ value +:+ q +:+ pad4) = Some (key, value)).
  2:{ split; [exact Hassign|]. rewrite parse_line_assignment, Hassign.
      reflexivity. }
  unfold Py.strip in Hkey. apply strip_fixed in Hkey as [Hkl Hkr].
  destruct key as [|c k]; [contradiction|].
  pose proof (lstrip_fixed_head _ c k Hkl) as Hc.
  set (T := Py.rstrip_by Py.isspace (pad3 +:+ q +:+ value +:+ q)).
  assert (Hline :
    Py.strip (pad1 +:+ String c k +:+ pad2 +:+ "=" +:+ pad3
              +:+ q +:+ value +:+ q +:+ pad4)
    = (String c k +:+ pad2) +:+ String "=" T).
  { unfold Py.strip. rewrite (lstrip_all _ pad1 _ H1).
    simpl_append. rewrite (lstrip_kept _ c _ Hc).
    change (String c (k +:+ pad2 +:+ String "=" (pad3 +:+ q +:+ value
                                                  +:+ q +:+ pad4)))
      with (String c k +:+ pad2 +:+ String "=" (pad3 +:+ q +:+ value
                                                 +:+ q +:+ pad4)).
    rewrite <- (append_assoc (String c k) pad2).
    rewrite rstrip_kept.
    - rewrite (rstrip_cons_kept _ "=" _ eq_refl). simpl_append.
      do 3 f_equal. unfold T.
      replace (pad3 +:+ q +:+ value +:+ q +:+ pad4)
        with ((pad3 +:+ q +:+ value +:+ q) +:+ pad4)
        by (rewrite !append_assoc; reflexivity).
      apply rstrip_all. exact H4.
    - rewrite (rstrip_cons_kept _ "=" _ eq_refl).
      intros Habs. discriminate Habs. }
  unfold assignment. cbv zeta. rewrite Hline. clear Hline.
  assert (Htruthy : Py.truthy ((String c k +:+ pad2) +:+ String "=" T) = true)
    by (rewrite !append_cons; reflexivity).
  assert (Hnohash :
    Py.startswith "#" ((String c k +:+ pad2) +:+ String "=" T) = false).
  { rewrite !append_cons. rewrite (startswith_char "#" c _ k). exact Hhash. }
  rewrite Htruthy, Hnohash, (contains_char_true "=" (String c k +:+ pad2) T).
  cbn [negb orb].
  rewrite split_once_first.
  2:{ rewrite all_chars_app, (contains_char_false _ _ Heq),
        (space_is_not_equals pad2 H2). reflexivity. }
  f_equal. f_equal.
  - unfold Py.strip. rewrite append_cons, (lstrip_kept _ c _ Hc).
    rewrite <- append_cons.
    rewrite (rstrip_all _ _ pad2 H2). exact Hkr.
  - unfold T. apply value_recovered; assumption.
Qed.

Lemma assignment_tolerates_spacing_and_quotes_witness :
  assignment "  AUDIVERIS_EXE = '/opt/audiveris'  "
  = Some ("AUDIVERIS_EXE", "/opt/audiveris")
  /\ RunPy.parse_line ∅ "  AUDIVERIS_EXE = '/opt/audiveris'  "
     = <["AUDIVERIS_EXE" := "/opt/audiveris"]> ∅.
Proof.
  apply (assignment_tolerates_spacing_and_quotes
           "AUDIVERIS_EXE" "/opt/audiveris" "  " " " " " "  "
           (String "039" "") ∅);
    try reflexivity; try discriminate.
  right. right. reflexivity.
Defined.

(** ** The encoding of strings in the job file *)

Lemma json_unescape_char c rest :
  json_unescape (Json.escape_char c +:+ rest)
  = option_map (String c) (json_unescape rest).
Proof. destruct c as [[] [] [] [] [] [] [] []]; reflexivity. Qed.

Lemma json_unescape_escape s : json_unescape (Json.escape s) = Some s.
Proof.
  induction s as [|c s IH]; [reflexivity|].
  simpl Json.escape. rewrite json_unescape_char, IH. reflexivity.
Qed.

(** X15.  The string encoding of the job file loses nothing: the
    escaped form reads back as the original string, so two different
    strings never get the same encoding. *)
Theorem json_escape_injective s t :
  json_unescape (Json.escape s) = Some s
  /\ (Json.escape s = Json.escape t -> s = t).
Proof.
  split; [apply json_unescape_escape|].
  intros H.
  pose proof (json_unescape_escape s) as Hs.
  rewrite H, json_unescape_escape in Hs. congruence.
Qed.

Lemma json_escape_injective_witness :
  json_unescape (Json.escape (String "092" "opt" +:+ String "034" "x"))
  = Some (String "092" "opt" +:+ String "034" "x")
  /\ String "092" "opt" +:+ String "034" "x"
     = String "092" "opt" +:+ String "034" "x".
Proof.
  destruct (json_escape_injective
              (String "092" "opt" +:+ String "034" "x")
              (String "092" "opt" +:+ String "034" "x")) as [Hback Hinj].
  split; [exact Hback | apply Hinj; reflexivity].
Defined.

(** ** Creating the output directories *)

Lemma grown_refl fs : grown fs fs [].
Proof.
  exists fs, []. rewrite app_nil_r. repeat split; [|constructor].
  induction fs; constructor; [apply retimed_refl | assumption].
Qed.

Lemma retimed_directory e e' :
  retimed e e' -> e_kind e = Directory -> e_kind e' = Directory.
Proof. intros [->|(_ & H & _)] Hk; [exact Hk | exact H]. Qed.

Lemma grown_trans fs fs1 fs2 evs1 evs2 :
  grown fs fs1 evs1 -> grown fs1 fs2 evs2 -> grown fs fs2 (evs1 ++ evs2).
Proof.
  intros (kept1 & added1 & -> & Hk1 & Hd1 & ->)
         (kept2 & added2 & -> & Hk2 & Hd2 & ->).
  apply Forall2_app_inv_l in Hk2 as (kept & again & Hkept & Hagain & ->).
  exists kept, (again ++ added2). split; [symmetry; apply app_assoc|].
  split; [|split].
  - clear - Hk1 Hkept. revert kept Hkept.
    induction Hk1 as [|x y l l' Hxy _ IH]; intros kept Hkept;
      inversion Hkept; subst; constructor.
    + eapply retimed_trans; eassumption.
    + apply IH. assumption.
  - apply Forall_app. split; [|exact Hd2].
    clear - Hd1 Hagain. induction Hagain as [|x y l l' Hxy _ IH];
      [constructor|].
    inversion Hd1; subst. constructor; [|apply IH; assumption].
    eapply retimed_directory; eassumption.
  - rewrite map_app. f_equal.
    clear - Hagain. induction Hagain as [|x y l l' Hxy _ IH];
      [reflexivity|].
    simpl. rewrite IH, (retimed_path _ _ Hxy). reflexivity.
Qed.

Lemma grown_create fs x :
  e_kind x = Directory -> grown fs (create x fs) [EvMkdir (e_path x)].
Proof.
  intros Hx. exists (map (touch (parent (e_path x)) (st_mtime x)) fs), [x].
  split; [reflexivity|]. split; [|split; [repeat constructor; exact Hx|]].
  - induction fs; simpl; constructor; [apply retimed_touch | assumption].
  - reflexivity.
Qed.

Section Mkdir.

Context (h : host).

Lemma os_mkdir_raised p fs x :
  outcome_of (os_mkdir h p fs) = Raise x ->
  os_mkdir h p fs = (Raise x, fs, []).
Proof.
  unfold os_mkdir, outcome_of.
  destruct (lookup_parent fs p); [|destruct (occupied fs p)]; simpl;
    intros H; congruence.
Qed.

Lemma os_mkdir_grown p fs :
  grown fs (fs_of (os_mkdir h p fs)) (trace_of (os_mkdir h p fs)).
Proof.
  unfold os_mkdir.
  destruct (lookup_parent fs p); [|destruct (occupied fs p)]; project;
    try apply grown_refl.
  apply (grown_create fs (new_directory h fs p)). reflexivity.
Qed.

Lemma unless_directory_run p x fs :
  unless_directory p x fs
  = (if is_directory fs p then Ok tt else Raise x, fs, []).
Proof. unfold unless_directory. destruct (is_directory fs p); reflexivity. Qed.

Lemma grown_bind {A B} (m : M A) (k : A -> M B) fs :
  grown fs (fs_of (m fs)) (trace_of (m fs)) ->
  (forall a s, grown s (fs_of (k a s)) (trace_of (k a s))) ->
  grown fs (fs_of (bind m k fs)) (trace_of (bind m k fs)).
Proof.
  intros Hm Hk. rewrite bind_run.
  destruct (outcome_of (m fs)) as [a|x]; project; [|exact Hm].
  eapply grown_trans; [exact Hm | apply Hk].
Qed.

Lemma grown_try_except {A} (body : M A) (handler : exn -> M A) fs :
  grown fs (fs_of (body fs)) (trace_of (body fs)) ->
  (forall x s, grown s (fs_of (handler x s)) (trace_of (handler x s))) ->
  grown fs (fs_of (try_except body handler fs))
           (trace_of (try_except body handler fs)).
Proof.
  intros Hb Hh. rewrite try_except_run.
  destruct (outcome_of (body fs)) as [a|x]; project; [exact Hb|].
  eapply grown_trans; [exact Hb | apply Hh].
Qed.

Lemma unless_directory_grown p x s :
  grown s (fs_of (unless_directory p x s)) (trace_of (unless_directory p x s)).
Proof. rewrite unless_directory_run. project. apply grown_refl. Qed.

Lemma mkdir_exist_ok_grown p fs :
  grown fs (fs_of (mkdir_exist_ok h p fs)) (trace_of (mkdir_exist_ok h p fs)).
Proof.
  apply grown_try_except; [apply os_mkdir_grown|].
  intros x s. destruct (is_FileNotFoundError x);
    [apply grown_refl | apply unless_directory_grown].
Qed.

Lemma mkdir_up_grown rev_parts :
  forall fs,
  grown fs (fs_of (mkdir_up h rev_parts fs))
           (trace_of (mkdir_up h rev_parts fs)).
Proof.
  induction rev_parts as [|c above IH]; intros fs; cbn [mkdir_up];
    (apply grown_try_except; [apply os_mkdir_grown|]);
    intros x s; destruct (is_FileNotFoundError x);
    try apply grown_refl; try apply unless_directory_grown.
  apply grown_bind; [apply IH | intros _ s'; apply mkdir_exist_ok_grown].
Qed.

(** Once [os.mkdir] has made the directory, nothing is left to do. *)
Lemma os_mkdir_settles p fs :
  outcome_of (os_mkdir h p fs) = Ok tt ->
  settled h p (fs_of (os_mkdir h p fs)).
Proof.
  unfold os_mkdir at 1 2.
  destruct (lookup_parent fs p) eqn:Hlook; [discriminate|].
  destruct (occupied fs p) eqn:Hocc; [discriminate|]. project. intros _.
  unfold occupied in Hocc. apply orb_false_iff in Hocc as [Hdir Hex].
  destruct p as [|c p]; [discriminate Hdir|].
  set (x := new_directory h fs (c :: p)).
  assert (Hst : stat (create x fs) (c :: p) = Ok x)
    by (apply (stat_create_new x fs); exact Hex).
  assert (Hdir' : is_directory (create x fs) (c :: p) = true)
    by (unfold is_directory; rewrite Hst; reflexivity).
  split; [exact Hdir'|].
  exists (OSError "FileExistsError" (c :: p)). split; [|reflexivity].
  unfold os_mkdir.
  assert (Hsame : lookup_parent (create x fs) (c :: p) = None).
  { rewrite <- Hlook. unfold lookup_parent. apply walk_same.
    intros k Hk. apply kind_at_create_other.
    intros Heq. apply (f_equal (@length string)) in Heq.
    change (e_path x) with (c :: p) in Heq.
    rewrite length_app, length_firstn, length_parent in Heq.
    rewrite length_parent in Hk. simpl in Heq, Hk. lia. }
  rewrite Hsame. unfold occupied. rewrite Hdir'. reflexivity.
Qed.

Lemma settled_mkdir_exist_ok p fs :
  outcome_of (mkdir_exist_ok h p fs) = Ok tt ->
  settled h p (fs_of (mkdir_exist_ok h p fs)).
Proof.
  unfold mkdir_exist_ok. rewrite try_except_run.
  destruct (outcome_of (os_mkdir h p fs)) as [[]|x] eqn:Hout.
  - intros _. apply os_mkdir_settles. exact Hout.
  - rewrite (os_mkdir_raised p fs x Hout). project.
    destruct (is_FileNotFoundError x) eqn:Hx; project; [discriminate|].
    rewrite unless_directory_run. project.
    destruct (is_directory fs p) eqn:Hdir; [|discriminate]. intros _.
    split; [exact Hdir|]. exists x. split; [|exact Hx].
    apply os_mkdir_raised. exact Hout.
Qed.

Lemma settled_mkdir_up rev_parts fs :
  outcome_of (mkdir_up h rev_parts fs) = Ok tt ->
  settled h (rev rev_parts) (fs_of (mkdir_up h rev_parts fs)).
Proof.
  set (p := rev rev_parts).
  assert (Hfirst :
    forall retry : M unit,
      (outcome_of (retry fs) = Ok tt ->
       settled h p (fs_of (retry fs))) ->
      let run := try_except (os_mkdir h p)
                   (fun e => if is_FileNotFoundError e then retry
                             else unless_directory p e) fs in
      outcome_of run = Ok tt -> settled h p (fs_of run)).
  { intros retry Hretry. cbv zeta. rewrite try_except_run.
    destruct (outcome_of (os_mkdir h p fs)) as [[]|x] eqn:Hout.
    - intros _. apply os_mkdir_settles. exact Hout.
    - rewrite (os_mkdir_raised p fs x Hout). project.
      destruct (is_FileNotFoundError x) eqn:Hx; project.
      + exact Hretry.
      + rewrite unless_directory_run. project.
        destruct (is_directory fs p) eqn:Hdir; [|discriminate]. intros _.
        split; [exact Hdir|]. exists x. split; [|exact Hx].
        apply os_mkdir_raised. exact Hout. }
  destruct rev_parts as [|c above].
  - cbn [mkdir_up]. rewrite try_except_run.
    destruct (outcome_of (os_mkdir h (rev []) fs)) as [[]|x] eqn:Hout.
    + intros _. apply os_mkdir_settles. exact Hout.
    + rewrite (os_mkdir_raised _ fs x Hout). project.
      destruct (is_FileNotFoundError x) eqn:Hx; project; [discriminate|].
      rewrite unless_directory_run. project. intros _.
      split; [reflexivity|]. exists x. split; [|exact Hx].
      apply os_mkdir_raised. exact Hout.
  - cbn [mkdir_up]. fold p.
    rewrite try_except_run.
    destruct (outcome_of (os_mkdir h p fs)) as [[]|x] eqn:Hout.
    + intros _. apply os_mkdir_settles. exact Hout.
    + rewrite (os_mkdir_raised p fs x Hout). project.
      destruct (is_FileNotFoundError x) eqn:Hx; project.
      * rewrite bind_run.
        destruct (outcome_of (mkdir_up h above fs)) as [[]|y];
          project; [|discriminate].
        apply settled_mkdir_exist_ok.
      * rewrite unless_directory_run. project.
        destruct (is_directory fs p) eqn:Hdir; [|discriminate]. intros _.
        split; [exact Hdir|]. exists x. split; [|exact Hx].
        apply os_mkdir_raised. exact Hout.
Qed.

Lemma mkdir_up_settled rev_parts fs :
  settled h (rev rev_parts) fs -> mkdir_up h rev_parts fs = (Ok tt, fs, []).
Proof.
  intros (Hdir & x & Hrun & Hx).
  destruct rev_parts as [|c above]; cbn [mkdir_up];
    rewrite try_except_run, Hrun; project; rewrite Hx;
    rewrite unless_directory_run, Hdir; reflexivity.
Qed.

Lemma file_not_directory fs q : file_at fs q -> directory_at fs q -> False.
Proof.
  intros (e & He & Hr) (e' & He' & Hk). unfold regular in Hr.
  rewrite He in He'. injection He' as <-. rewrite Hk in Hr. discriminate.
Qed.

Lemma file_not_missing fs q : file_at fs q -> exists_ fs q = false -> False.
Proof.
  unfold exists_. intros (e & He & _). rewrite He. discriminate.
Qed.

(** A regular file in the place of a directory that leads to [p]. *)
Lemma lookup_parent_blocked fs p k :
  (0 < k < length p)%nat -> file_at fs (firstn k p) ->
  (forall j, (0 < j < k)%nat -> directory_at fs (firstn j p)) ->
  lookup_parent fs p = Some "NotADirectoryError".
Proof.
  intros Hk Hfile Hdirs. pose proof (lookup_parent_cases fs p) as H.
  destruct (lookup_parent fs p) as [what|].
  - destruct H as (k' & Hk' & Hbefore & Hcase).
    destruct (Nat.lt_trichotomy k' k) as [Hlt | [-> | Hgt]].
    + exfalso. specialize (Hdirs k' ltac:(lia)).
      destruct Hcase as [[_ Hm] | [_ Hf]].
      * destruct Hdirs as (e & He & _). unfold exists_ in Hm.
        rewrite He in Hm. discriminate.
      * exact (file_not_directory _ _ Hf Hdirs).
    + destruct Hcase as [[_ Hm] | [-> _]]; [|reflexivity].
      exfalso. exact (file_not_missing _ _ Hfile Hm).
    + exfalso. apply (file_not_directory _ _ Hfile). apply Hbefore. lia.
  - exfalso. apply (file_not_directory _ _ Hfile). apply H. exact Hk.
Qed.

Lemma lookup_parent_clear fs p :
  (forall j, (0 < j < length p)%nat -> directory_at fs (firstn j p)) ->
  lookup_parent fs p = None.
Proof.
  intros Hdirs. pose proof (lookup_parent_cases fs p) as H.
  destruct (lookup_parent fs p) as [what|]; [exfalso | reflexivity].
  destruct H as (k & Hk & _ & [[_ Hm] | [_ Hf]]).
  - destruct (Hdirs k Hk) as (e & He & _). unfold exists_ in Hm.
    rewrite He in Hm. discriminate.
  - exact (file_not_directory _ _ Hf (Hdirs k Hk)).
Qed.

Lemma mkdir_up_raises rev_parts fs what :
  outcome_of (os_mkdir h (rev rev_parts) fs)
  = Raise (OSError what (rev rev_parts)) ->
  String.eqb what "FileNotFoundError" = false ->
  is_directory fs (rev rev_parts) = false ->
  mkdir_up h rev_parts fs = (Raise (OSError what (rev rev_parts)), fs, []).
Proof.
  intros Hout Hwhat Hdir.
  destruct rev_parts as [|c above]; cbn [mkdir_up];
    rewrite try_except_run, (os_mkdir_raised _ fs _ Hout); project;
    cbn [is_FileNotFoundError]; rewrite Hwhat;
    rewrite unless_directory_run, Hdir; reflexivity.
Qed.

(** X16.  [mkdir(parents=True, exist_ok=True)], which prepares the
    output directories of both scripts, only ever adds directories:
    what was there stays, in place and in order, each addition is
    reported in the trace, and the only change to an existing entry is
    the new modification time of a directory.  When it returns, the
    path is a directory, and doing it again changes nothing and reports
    nothing.  When a regular file is in the place of a directory that
    leads to the path, it raises [NotADirectoryError]; when a regular
    file is at the path itself, [FileExistsError]; both errors name the
    path that was asked for, and nothing has been created. *)
Theorem mkdir_parents_effect p fs :
  let run := mkdir_parents h p fs in
  grown fs (fs_of run) (trace_of run)
  /\ (outcome_of run = Ok tt ->
      is_directory (fs_of run) p = true
      /\ mkdir_parents h p (fs_of run) = (Ok tt, fs_of run, []))
  /\ (forall k, (0 < k < length p)%nat -> file_at fs (firstn k p) ->
      (forall j, (0 < j < k)%nat -> directory_at fs (firstn j p)) ->
      is_directory fs p = false ->
      run = (Raise (OSError "NotADirectoryError" p), fs, []))
  /\ (p <> [] -> file_at fs p ->
      (forall j, (0 < j < length p)%nat -> directory_at fs (firstn j p)) ->
      run = (Raise (OSError "FileExistsError" p), fs, [])).
Proof.
  cbv zeta. unfold mkdir_parents. split; [apply mkdir_up_grown|].
  split; [|split].
  - intros Hout. pose proof (settled_mkdir_up (rev p) fs Hout) as Hs.
    rewrite rev_involutive in Hs. split; [exact (proj1 Hs)|].
    apply mkdir_up_settled. rewrite rev_involutive. exact Hs.
  - intros k Hk Hfile Hdirs Hdir.
    pose proof (mkdir_up_raises (rev p) fs "NotADirectoryError") as H.
    rewrite rev_involutive in H. apply H; [|reflexivity | exact Hdir].
    unfold os_mkdir.
    rewrite (lookup_parent_blocked fs p k Hk Hfile Hdirs). reflexivity.
  - intros Hroot Hfile Hdirs.
    assert (Hp : is_directory fs p = false /\ exists_ fs p = true).
    { destruct Hfile as (e & He & Hr). unfold exists_, is_directory.
      rewrite He. unfold regular in Hr.
      destruct p; [contradiction|].
      destruct (e_kind e); [auto | discriminate]. }
    destruct Hp as [Hdir Hex].
    pose proof (mkdir_up_raises (rev p) fs "FileExistsError") as H.
    rewrite rev_involutive in H. apply H; [|reflexivity | exact Hdir].
    unfold os_mkdir. rewrite (lookup_parent_clear fs p Hdirs).
    unfold occupied. rewrite Hex, orb_true_r. reflexivity.
Qed.

End Mkdir.

Lemma mkdir_parents_effect_witness :
  let run := mkdir_parents (Scenario.exits_with 0) ["out"; "scores"]
               Scenario.disk in
  is_directory (fs_of run) ["out"; "scores"] = true
  /\ mkdir_parents (Scenario.exits_with 0) ["out"; "scores"] (fs_of run)
     = (Ok tt, fs_of run, []).
Proof.
  apply (proj1 (proj2 (mkdir_parents_effect (Scenario.exits_with 0)
                         ["out"; "scores"] Scenario.disk))).
  reflexivity.
Defined.
